(** * AI Bot Block Checker: the [/check] handler of [app.py]

    A shallow embedding of [app.py] together with the parts of the Python
    standard library it calls ([str] methods, [urllib.parse],
    [urllib.robotparser]), and the properties of the handler's response.

    Conventions.
    - A Python [str] is a sequence of Unicode code points: [str := list N].
    - A call that may raise returns an [outcome]: either a value or the
      class name of the exception raised.
    - The library functions are transcribed from CPython 3.11
      ([Lib/urllib/parse.py], [Lib/urllib/robotparser.py]), with the default
      arguments of the calls made here.
    - What the interpreter takes from the Unicode database or from other
      modules ([str.lower] beyond ASCII, [str.isdigit], [int],
      [unicodedata.normalize], [ipaddress.ip_address]) is a field of the
      class [PyRuntime]; every theorem holds for all runtimes.
    - [requests.get] is an oracle from the URL fetched to what came back. *)

From Stdlib Require Import List NArith ZArith Bool String Ascii Lia.
Import ListNotations.

Set Implicit Arguments.

(** ** Python values *)

Definition char := N.
Definition str := list char.

Definition chr (a : ascii) : char := N_of_ascii a.

(** A string literal of the source. *)
Definition lit (s : string) : str := List.map chr (list_ascii_of_string s).

(** The result of a call: a value, or an exception of the named class. *)
Inductive outcome (A : Type) : Type :=
| Returns (a : A)
| Raises (exc : str).
Arguments Raises {A} exc.

Definition bind {A B : Type} (m : outcome A) (k : A -> outcome B) : outcome B :=
  match m with
  | Returns a => k a
  | Raises e => Raises e
  end.

Notation "x <- m ;; k" := (bind m (fun x => k))
  (at level 61, m at next level, right associativity).

Definition ValueError : str := lit "ValueError".
Definition UnicodeEncodeError : str := lit "UnicodeEncodeError".

(** ** What the interpreter supplies

    The Unicode database and the modules [unicodedata] and [ipaddress] are
    not modelled: their functions are the fields of a runtime.  [lower] and
    the NFKC check of a host consult it only for a string that is not
    ASCII, as CPython does. *)

Inductive ip_version : Type := IPv4Address | IPv6Address.

Class PyRuntime : Type := {
  (** [s.lower()] for a string [s] that is not pure ASCII *)
  unicode_lower : str -> str;
  (** [s.isdigit()] *)
  str_isdigit : str -> bool;
  (** [int(s)]; [None] when it raises [ValueError] *)
  builtin_int : str -> option Z;
  (** [unicodedata.normalize('NFKC', s)] *)
  unicodedata_normalize_NFKC : str -> str;
  (** [ipaddress.ip_address(s)]; [None] when it raises [ValueError] *)
  ipaddress_ip_address : str -> option ip_version
}.

(** ** Methods of [str] *)

Module Str.

Fixpoint eqb (a b : str) : bool :=
  match a, b with
  | [], [] => true
  | x :: a', y :: b' => N.eqb x y && eqb a' b'
  | _, _ => false
  end.

(** [not s] *)
Definition is_empty (s : str) : bool :=
  match s with [] => true | _ :: _ => false end.

(** [c in s], for a single character [c] *)
Definition has (s : str) (c : char) : bool := existsb (N.eqb c) s.

Fixpoint index_of (c : char) (s : str) : option nat :=
  match s with
  | [] => None
  | x :: s' => if N.eqb x c then Some O else option_map S (index_of c s')
  end.

(** [s.find(c)]: the first index of [c], or -1. *)
Definition find (s : str) (c : char) : Z :=
  match index_of c s with
  | Some i => Z.of_nat i
  | None => (-1)%Z
  end.

(** [s.find(c, start)], for [start >= 0]. *)
Definition find_from (s : str) (c : char) (start : Z) : Z :=
  match index_of c (skipn (Z.to_nat start) s) with
  | Some i => (start + Z.of_nat i)%Z
  | None => (-1)%Z
  end.

(** [s.rfind(c)]: the last index of [c], or -1. *)
Definition rfind (s : str) (c : char) : Z :=
  match index_of c (rev s) with
  | Some i => (Z.of_nat (List.length s) - 1 - Z.of_nat i)%Z
  | None => (-1)%Z
  end.

(** The position a slice bound denotes: negative bounds count from the end. *)
Definition bound (s : str) (i : Z) : nat :=
  Z.to_nat (if (i <? 0)%Z then i + Z.of_nat (List.length s) else i)%Z.

(** [s[:i]] and [s[i:]] *)
Definition upto (s : str) (i : Z) : str := firstn (bound s i) s.
Definition from (s : str) (i : Z) : str := skipn (bound s i) s.

(** [s[i:j]] *)
Definition slice (s : str) (i j : Z) : str :=
  firstn (bound s j - bound s i) (skipn (bound s i) s).

(** [s.split(c, 1)] *)
Definition split1 (s : str) (c : char) : list str :=
  match index_of c s with
  | Some i => [firstn i s; skipn (S i) s]
  | None => [s]
  end.

(** [s.split(c)] *)
Fixpoint split (s : str) (c : char) : list str :=
  match s with
  | [] => [[]]
  | x :: s' =>
      if N.eqb x c then [] :: split s' c
      else match split s' c with
           | p :: ps => (x :: p) :: ps
           | [] => [[x]]
           end
  end.

(** [s.partition(c)] *)
Definition partition (s : str) (c : char) : str * str * str :=
  match index_of c s with
  | Some i => (firstn i s, [c], skipn (S i) s)
  | None => (s, [], [])
  end.

(** [s.rpartition(c)] *)
Definition rpartition (s : str) (c : char) : str * str * str :=
  match index_of c (rev s) with
  | Some i => let k := (List.length s - S i)%nat in (firstn k s, [c], skipn (S k) s)
  | None => ([], [], s)
  end.

Fixpoint lstrip_by (p : char -> bool) (s : str) : str :=
  match s with
  | [] => []
  | x :: s' => if p x then lstrip_by p s' else s
  end.

Definition rstrip_by (p : char -> bool) (s : str) : str :=
  rev (lstrip_by p (rev s)).

Definition strip_by (p : char -> bool) (s : str) : str :=
  rstrip_by p (lstrip_by p s).

(** [s.lstrip(chars)], [s.rstrip(chars)], [s.strip(chars)] *)
Definition lstrip_chars (s chars : str) : str := lstrip_by (has chars) s.
Definition rstrip_chars (s chars : str) : str := rstrip_by (has chars) s.
Definition strip_chars (s chars : str) : str := strip_by (has chars) s.

(** [c.isspace()] (Py_UNICODE_ISSPACE) *)
Definition isspace (c : char) : bool :=
  ((9 <=? c) && (c <=? 13) || (28 <=? c) && (c <=? 32)
   || (c =? 133) || (c =? 160) || (c =? 5760)
   || (8192 <=? c) && (c <=? 8202)
   || (c =? 8232) || (c =? 8233) || (c =? 8239) || (c =? 8287)
   || (c =? 12288))%N.

(** [s.strip()] *)
Definition strip (s : str) : str := strip_by isspace s.

(** [s.replace(c, "")] *)
Definition remove (s : str) (c : char) : str :=
  filter (fun x => negb (N.eqb x c)) s.

(** [s.startswith(prefix)] *)
Fixpoint startswith (s prefix : str) : bool :=
  match prefix, s with
  | [], _ => true
  | p :: prefix', x :: s' => N.eqb x p && startswith s' prefix'
  | _ :: _, [] => false
  end.

(** [sub in s] *)
Fixpoint contains (s sub : str) : bool :=
  startswith s sub ||
  match s with
  | [] => false
  | _ :: s' => contains s' sub
  end.

(** Line boundaries of [splitlines] other than ["\r"]. *)
Definition is_linebreak (c : char) : bool :=
  ((10 <=? c) && (c <=? 12) || (28 <=? c) && (c <=? 30)
   || (c =? 133) || (c =? 8232) || (c =? 8233))%N.

Fixpoint splitlines_from (s : str) (cur : str) : list str :=
  match s with
  | [] => match cur with [] => [] | _ :: _ => [rev cur] end
  | x :: s' =>
      if N.eqb x 13 then
        match s' with
        | 10%N :: s'' => rev cur :: splitlines_from s'' []
        | _ => rev cur :: splitlines_from s' []
        end
      else if is_linebreak x then rev cur :: splitlines_from s' []
      else splitlines_from s' (x :: cur)
  end.

(** [s.splitlines()] *)
Definition splitlines (s : str) : list str := splitlines_from s [].

(** [s.isascii()] *)
Definition isascii (s : str) : bool := forallb (fun c => (c <? 128)%N) s.

Definition lower_ascii_char (c : char) : char :=
  if ((65 <=? c) && (c <=? 90))%N then (c + 32)%N else c.

(** [s.lower()]: CPython maps the letters A-Z of an ASCII string and goes
    to the Unicode database otherwise. *)
Definition lower `{PyRuntime} (s : str) : str :=
  if isascii s then List.map lower_ascii_char s else unicode_lower s.

End Str.

(** ** Codecs: [str.encode('utf-8')] and [bytes.decode('utf-8', 'replace')] *)

Module Codecs.
Local Open Scope N_scope.

(** U+FFFD, written for each ill-formed subsequence *)
Definition REPLACEMENT : char := 65533.

Definition is_continuation (b : N) : bool := (128 <=? b) && (b <? 192).

(** [bs.decode('utf-8', 'replace')]: the decoder of CPython, which
    replaces every maximal ill-formed prefix by one U+FFFD. *)
Fixpoint utf8_decode_replace (bs : list N) : str :=
  match bs with
  | [] => []
  | b1 :: r1 =>
      if b1 <? 128 then b1 :: utf8_decode_replace r1
      else if b1 <? 194 then REPLACEMENT :: utf8_decode_replace r1
      else if b1 <? 224 then
        match r1 with
        | [] => [REPLACEMENT]
        | b2 :: r2 =>
            if is_continuation b2
            then ((b1 - 192) * 64 + (b2 - 128)) :: utf8_decode_replace r2
            else REPLACEMENT :: utf8_decode_replace r1
        end
      else if b1 <? 240 then
        match r1 with
        | [] => [REPLACEMENT]
        | b2 :: r2 =>
            if negb (is_continuation b2)
               || (b1 =? 224) && (b2 <? 160) || (b1 =? 237) && (160 <=? b2)
            then REPLACEMENT :: utf8_decode_replace r1
            else
              match r2 with
              | [] => [REPLACEMENT]
              | b3 :: r3 =>
                  if is_continuation b3
                  then ((b1 - 224) * 4096 + (b2 - 128) * 64 + (b3 - 128))
                         :: utf8_decode_replace r3
                  else REPLACEMENT :: utf8_decode_replace r2
              end
        end
      else if b1 <? 245 then
        match r1 with
        | [] => [REPLACEMENT]
        | b2 :: r2 =>
            if negb (is_continuation b2)
               || (b1 =? 240) && (b2 <? 144) || (b1 =? 244) && (144 <=? b2)
            then REPLACEMENT :: utf8_decode_replace r1
            else
              match r2 with
              | [] => [REPLACEMENT]
              | b3 :: r3 =>
                  if negb (is_continuation b3)
                  then REPLACEMENT :: utf8_decode_replace r2
                  else
                    match r3 with
                    | [] => [REPLACEMENT]
                    | b4 :: r4 =>
                        if is_continuation b4
                        then ((b1 - 240) * 262144 + (b2 - 128) * 4096
                              + (b3 - 128) * 64 + (b4 - 128))
                               :: utf8_decode_replace r4
                        else REPLACEMENT :: utf8_decode_replace r3
                    end
              end
        end
      else REPLACEMENT :: utf8_decode_replace r1
  end.

(** One code point in UTF-8; a surrogate cannot be encoded. *)
Definition utf8_encode_char (c : char) : outcome (list N) :=
  if c <? 128 then Returns [c]
  else if c <? 2048 then Returns [192 + c / 64; 128 + c mod 64]
  else if (55296 <=? c) && (c <=? 57343) then Raises UnicodeEncodeError
  else if c <? 65536
  then Returns [224 + c / 4096; 128 + (c / 64) mod 64; 128 + c mod 64]
  else Returns [240 + c / 262144; 128 + (c / 4096) mod 64;
                128 + (c / 64) mod 64; 128 + c mod 64].

(** [s.encode('utf-8', 'strict')] *)
Fixpoint utf8_encode (s : str) : outcome (list N) :=
  match s with
  | [] => Returns []
  | c :: s' =>
      bs <- utf8_encode_char c ;;
      rest <- utf8_encode s' ;;
      Returns (bs ++ rest)
  end.

End Codecs.

(** ** [urllib.parse] *)

Module UrlParse.

Record SplitResult : Type := mkSplit {
  split_scheme : str;
  split_netloc : str;
  split_path : str;
  split_query : str;
  split_fragment : str
}.

Record ParseResult : Type := mkParse {
  scheme : str;
  netloc : str;
  path : str;
  params : str;
  query : str;
  fragment : str
}.

Definition uses_netloc : list str :=
  List.map lit
    [""; "ftp"; "http"; "gopher"; "nntp"; "telnet"; "imap"; "wais"; "file";
     "mms"; "https"; "shttp"; "snews"; "prospero"; "rtsp"; "rtspu"; "rsync";
     "svn"; "svn+ssh"; "sftp"; "nfs"; "git"; "git+ssh"; "ws"; "wss"]%string.

Definition uses_params : list str :=
  List.map lit
    [""; "ftp"; "hdl"; "prospero"; "http"; "imap"; "https"; "shttp"; "rtsp";
     "rtspu"; "sip"; "sips"; "mms"; "sftp"; "tel"]%string.

(** [x in l] for a list of strings *)
Definition mem (x : str) (l : list str) : bool := existsb (Str.eqb x) l.

Definition is_upper (c : char) : bool := ((65 <=? c) && (c <=? 90))%N.
Definition is_lower (c : char) : bool := ((97 <=? c) && (c <=? 122))%N.
Definition is_digit (c : char) : bool := ((48 <=? c) && (c <=? 57))%N.

(** [c in scheme_chars] *)
Definition scheme_char (c : char) : bool :=
  is_lower c || is_upper c || is_digit c || Str.has (lit "+-.") c.

(** [c in _WHATWG_C0_CONTROL_OR_SPACE] *)
Definition C0_CONTROL_OR_SPACE (c : char) : bool := (c <=? 32)%N.

Definition _UNSAFE_URL_BYTES_TO_REMOVE : list char := [9; 13; 10]%N.

Definition _splitparams (url : str) : str * str :=
  if Str.has url (chr "/") then
    let i := Str.find_from url (chr ";") (Str.rfind url (chr "/")) in
    if (i <? 0)%Z then (url, [])
    else (Str.upto url i, Str.from url (i + 1))
  else
    let i := Str.find url (chr ";") in
    (Str.upto url i, Str.from url (i + 1)).

Definition _splitnetloc (url : str) (start : Z) : str * str :=
  let delim :=
    fold_left
      (fun delim c =>
         let wdelim := Str.find_from url c start in
         if (0 <=? wdelim)%Z then Z.min delim wdelim else delim)
      (lit "/?#") (Z.of_nat (List.length url)) in
  (Str.slice url start delim, Str.from url delim).

Section WithRuntime.
Context {R : PyRuntime}.

Definition _checknetloc (netloc : str) : outcome unit :=
  if Str.is_empty netloc || Str.isascii netloc then Returns tt
  else
    let n := Str.remove netloc (chr "@") in
    let n := Str.remove n (chr ":") in
    let n := Str.remove n (chr "#") in
    let n := Str.remove n (chr "?") in
    let netloc2 := unicodedata_normalize_NFKC n in
    if Str.eqb n netloc2 then Returns tt
    else if existsb (Str.has netloc2) (lit "/?#@:") then Raises ValueError
    else Returns tt.

Definition is_hexdigit (c : char) : bool :=
  is_digit c || ((97 <=? c) && (c <=? 102))%N || ((65 <=? c) && (c <=? 70))%N.

(** [re.match(r"\Av[a-fA-F0-9]+\..+\Z", hostname)]: the letter v, one or
    more hexadecimal digits, a dot, then one or more characters other
    than a newline, up to the end. *)
Definition ipvfuture_match (hostname : str) : bool :=
  match hostname with
  | v :: rest =>
      N.eqb v (chr "v")
      && match rest with h :: _ => is_hexdigit h | [] => false end
      && match Str.lstrip_by is_hexdigit rest with
         | dot :: tail =>
             N.eqb dot (chr ".")
             && negb (Str.is_empty tail)
             && forallb (fun c => negb (N.eqb c 10)) tail
         | [] => false
         end
  | [] => false
  end.

Definition _check_bracketed_host (hostname : str) : outcome unit :=
  if Str.startswith hostname (lit "v") then
    if ipvfuture_match hostname then Returns tt else Raises ValueError
  else
    match ipaddress_ip_address hostname with
    | None => Raises ValueError
    | Some IPv4Address => Raises ValueError
    | Some IPv6Address => Returns tt
    end.

Definition _check_bracketed_netloc (netloc : str) : outcome unit :=
  let hostname_and_port := snd (Str.rpartition netloc (chr "@")) in
  let '(before_bracket, have_open_br, bracketed) :=
    Str.partition hostname_and_port (chr "[") in
  if negb (Str.is_empty have_open_br) then
    if negb (Str.is_empty before_bracket) then Raises ValueError
    else
      let '(hostname, _, port) := Str.partition bracketed (chr "]") in
      if negb (Str.is_empty port) && negb (Str.startswith port (lit ":"))
      then Raises ValueError
      else _check_bracketed_host hostname
  else
    let '(hostname, _, port) := Str.partition hostname_and_port (chr ":") in
    _check_bracketed_host hostname.

(** [urlsplit(url)], with the defaults [scheme=''] and
    [allow_fragments=True] of every call in this program. *)
Definition urlsplit (url : str) : outcome SplitResult :=
  let url := Str.lstrip_by C0_CONTROL_OR_SPACE url in
  let url := fold_left Str.remove _UNSAFE_URL_BYTES_TO_REMOVE url in
  let scheme : str := [] in
  let i := Str.find url (chr ":") in
  let '(scheme, url) :=
    match url with
    | c0 :: _ =>
        if (0 <? i)%Z && (c0 <? 128)%N && (is_upper c0 || is_lower c0) then
          if forallb scheme_char (Str.upto url i)
          then (Str.lower (Str.upto url i), Str.from url (i + 1))
          else (scheme, url)
        else (scheme, url)
    | [] => (scheme, url)
    end in
  r <- (if Str.eqb (Str.upto url 2) (lit "//") then
          let '(netloc, url) := _splitnetloc url 2 in
          _ <- (if Str.has netloc (chr "[") && negb (Str.has netloc (chr "]"))
                   || Str.has netloc (chr "]") && negb (Str.has netloc (chr "["))
                then Raises ValueError else Returns tt) ;;
          _ <- (if Str.has netloc (chr "[") && Str.has netloc (chr "]")
                then _check_bracketed_netloc netloc else Returns tt) ;;
          Returns (netloc, url)
        else Returns ([], url)) ;;
  let '(netloc, url) := r in
  let '(url, fragment) :=
    if Str.has url (chr "#") then
      match Str.split1 url (chr "#") with
      | [a; b] => (a, b)
      | _ => (url, [])
      end
    else (url, []) in
  let '(url, query) :=
    if Str.has url (chr "?") then
      match Str.split1 url (chr "?") with
      | [a; b] => (a, b)
      | _ => (url, [])
      end
    else (url, []) in
  _ <- _checknetloc netloc ;;
  Returns (mkSplit scheme netloc url query fragment).

Definition urlparse (url : str) : outcome ParseResult :=
  splitresult <- urlsplit url ;;
  let '(mkSplit scheme netloc url query fragment) := splitresult in
  let '(url, params) :=
    if mem scheme uses_params && Str.has url (chr ";")
    then _splitparams url
    else (url, []) in
  Returns (mkParse scheme netloc url params query fragment).

End WithRuntime.

Definition urlunsplit (scheme netloc url query fragment : str) : str :=
  let url :=
    if negb (Str.is_empty netloc)
       || (negb (Str.is_empty scheme) && mem scheme uses_netloc
           && negb (Str.eqb (Str.upto url 2) (lit "//")))
    then
      let url :=
        if negb (Str.is_empty url) && negb (Str.eqb (Str.upto url 1) (lit "/"))
        then lit "/" ++ url else url in
      lit "//" ++ netloc ++ url
    else url in
  let url := if negb (Str.is_empty scheme) then scheme ++ lit ":" ++ url else url in
  let url := if negb (Str.is_empty query) then url ++ lit "?" ++ query else url in
  let url := if negb (Str.is_empty fragment) then url ++ lit "#" ++ fragment else url in
  url.

Definition urlunparse (scheme netloc url params query fragment : str) : str :=
  let url := if negb (Str.is_empty params) then url ++ lit ";" ++ params else url in
  urlunsplit scheme netloc url query fragment.

End UrlParse.

(** ** [urllib.parse.unquote] and [urllib.parse.quote] *)

Module Quote.

Definition hexval (c : char) : option N :=
  if UrlParse.is_digit c then Some (c - 48)%N
  else if ((65 <=? c) && (c <=? 70))%N then Some (c - 55)%N
  else if ((97 <=? c) && (c <=? 102))%N then Some (c - 87)%N
  else None.

(** One item of [string.split(b'%')] after the first: a byte when it
    starts with two hexadecimal digits ([_hextobyte]), itself otherwise. *)
Definition unquote_item (item : list N) : list N :=
  match item with
  | a :: b :: rest =>
      match hexval a, hexval b with
      | Some x, Some y => (16 * x + y)%N :: rest
      | _, _ => chr "%" :: item
      end
  | _ => chr "%" :: item
  end.

(** [unquote_to_bytes(string)] for an ASCII [string], whose UTF-8
    encoding is the string itself. *)
Definition unquote_to_bytes (string : str) : list N :=
  match Str.split string (chr "%") with
  | first :: items => first ++ flat_map unquote_item items
  | [] => []
  end.

(** The loop of [unquote] over [_asciire.split(string)]: every maximal
    run of ASCII characters is unquoted to bytes and decoded, the
    characters between the runs are kept.  [run] is the current run,
    reversed. *)
Fixpoint unquote_runs (string : str) (run : str) : str :=
  match string with
  | [] => Codecs.utf8_decode_replace (unquote_to_bytes (rev run))
  | c :: rest =>
      if (c <? 128)%N then unquote_runs rest (c :: run)
      else Codecs.utf8_decode_replace (unquote_to_bytes (rev run))
             ++ c :: unquote_runs rest []
  end.

(** [unquote(string)], with [encoding='utf-8'] and [errors='replace'] *)
Definition unquote (string : str) : str :=
  if negb (Str.has string (chr "%")) then string
  else unquote_runs string [].

(** [b in _ALWAYS_SAFE] *)
Definition always_safe (b : N) : bool :=
  UrlParse.is_upper b || UrlParse.is_lower b || UrlParse.is_digit b
  || Str.has (lit "_.-~") b.

Definition hexdigit (n : N) : char :=
  if (n <? 10)%N then (48 + n)%N else (55 + n)%N.

(** [_Quoter(safe)[b]]: the byte itself when safe, ['%{:02X}'] otherwise *)
Definition quoter (safe : list N) (b : N) : str :=
  if always_safe b || Str.has safe b then [b]
  else [chr "%"; hexdigit (b / 16); hexdigit (b mod 16)].

Definition quote_from_bytes (bs : list N) (safe : list N) : str :=
  if Str.is_empty bs then []
  else if Str.is_empty
            (Str.rstrip_by (fun b => always_safe b || Str.has safe b) bs)
  then bs
  else flat_map (quoter safe) bs.

(** [quote(string)], with [safe='/'] *)
Definition quote (string : str) : outcome str :=
  if Str.is_empty string then Returns string
  else
    bs <- Codecs.utf8_encode string ;;
    Returns (quote_from_bytes bs (lit "/")).

End Quote.

(** ** [urllib.robotparser] *)

Module RuleLine.

Record t : Type := mk { path : str; allowance : bool }.

(** [RuleLine(path, allowance)] *)
Definition init `{PyRuntime} (path : str) (allowance : bool) : outcome t :=
  let allowance :=
    if Str.is_empty path && negb allowance then true else allowance in
  p <- UrlParse.urlparse path ;;
  let path :=
    UrlParse.urlunparse (UrlParse.scheme p) (UrlParse.netloc p) (UrlParse.path p)
      (UrlParse.params p) (UrlParse.query p) (UrlParse.fragment p) in
  path <- Quote.quote path ;;
  Returns (mk path allowance).

Definition applies_to (self : t) (filename : str) : bool :=
  Str.eqb (path self) (lit "*") || Str.startswith filename (path self).

End RuleLine.

Module Entry.

Record t : Type := mk {
  useragents : list str;
  rulelines : list RuleLine.t;
  delay : option Z;
  req_rate : option (Z * Z)
}.

(** [Entry()] *)
Definition init : t := mk [] [] None None.

Definition append_useragent (self : t) (agent : str) : t :=
  mk (useragents self ++ [agent]) (rulelines self) (delay self) (req_rate self).

Definition append_ruleline (self : t) (line : RuleLine.t) : t :=
  mk (useragents self) (rulelines self ++ [line]) (delay self) (req_rate self).

Definition set_delay (self : t) (d : Z) : t :=
  mk (useragents self) (rulelines self) (Some d) (req_rate self).

Definition set_req_rate (self : t) (r : Z * Z) : t :=
  mk (useragents self) (rulelines self) (delay self) (Some r).

Fixpoint any_agent_in (agents : list str) (useragent : str) `{PyRuntime} : bool :=
  match agents with
  | [] => false
  | agent :: rest =>
      if Str.eqb agent (lit "*") then true
      else if Str.contains useragent (Str.lower agent) then true
      else any_agent_in rest useragent
  end.

(** check if this entry applies to the specified agent *)
Definition applies_to `{PyRuntime} (self : t) (useragent : str) : bool :=
  let useragent := Str.lower (hd [] (Str.split useragent (chr "/"))) in
  any_agent_in (useragents self) useragent.

Fixpoint first_rule (lines : list RuleLine.t) (filename : str) : bool :=
  match lines with
  | [] => true
  | line :: rest =>
      if RuleLine.applies_to line filename then RuleLine.allowance line
      else first_rule rest filename
  end.

Definition allowance (self : t) (filename : str) : bool :=
  first_rule (rulelines self) filename.

End Entry.

Module RobotFileParser.

Record t : Type := mk {
  entries : list Entry.t;
  sitemaps : list str;
  default_entry : option Entry.t;
  disallow_all : bool;
  allow_all : bool;
  url : str;
  host : str;
  path : str;
  (** whether [last_checked] is non-zero: 0 at first, the clock's time
      once [modified()] ran *)
  last_checked : bool
}.

Definition set_url `{PyRuntime} (self : t) (url : str) : outcome t :=
  p <- UrlParse.urlparse url ;;
  Returns (mk (entries self) (sitemaps self) (default_entry self)
             (disallow_all self) (allow_all self)
             url (UrlParse.netloc p) (UrlParse.path p) (last_checked self)).

(** [RobotFileParser()]: [__init__] with [url=''] *)
Definition init `{PyRuntime} : outcome t :=
  set_url (mk [] [] None false false [] [] [] false) [].

Definition modified (self : t) : t :=
  mk (entries self) (sitemaps self) (default_entry self)
     (disallow_all self) (allow_all self)
     (url self) (host self) (path self) true.

Definition with_entries (self : t) (es : list Entry.t) (d : option Entry.t) : t :=
  mk es (sitemaps self) d (disallow_all self) (allow_all self)
     (url self) (host self) (path self) (last_checked self).

Definition append_sitemap (self : t) (s : str) : t :=
  mk (entries self) (sitemaps self ++ [s]) (default_entry self)
     (disallow_all self) (allow_all self)
     (url self) (host self) (path self) (last_checked self).

Definition _add_entry (self : t) (entry : Entry.t) : t :=
  if UrlParse.mem (lit "*") (Entry.useragents entry) then
    match default_entry self with
    | None => with_entries self (entries self) (Some entry)
    | Some _ => self
    end
  else with_entries self (entries self ++ [entry]) (default_entry self).

(** The variables of the loop of [parse]: the parser under mutation, the
    state of the scan (0: start, 1: saw a user-agent line, 2: saw an allow
    or disallow line) and the entry being filled. *)
Record scan : Type := mkScan { self : t; state : Z; entry : Entry.t }.

Section WithRuntime.
Context {R : PyRuntime}.

(** One iteration of [for line in lines]. *)
Definition parse_line (l : scan) (line : str) : outcome scan :=
  let l :=
    if Str.is_empty line then
      if (state l =? 1)%Z then mkScan (self l) 0 Entry.init
      else if (state l =? 2)%Z
      then mkScan (_add_entry (self l) (entry l)) 0 Entry.init
      else l
    else l in
  let i := Str.find line (chr "#") in
  let line := if (0 <=? i)%Z then Str.upto line i else line in
  let line := Str.strip line in
  if Str.is_empty line then Returns l
  else
    match Str.split1 line (chr ":") with
    | [key; value] =>
        let key := Str.lower (Str.strip key) in
        let value := Quote.unquote (Str.strip value) in
        if Str.eqb key (lit "user-agent") then
          let l :=
            if (state l =? 2)%Z
            then mkScan (_add_entry (self l) (entry l)) (state l) Entry.init
            else l in
          Returns (mkScan (self l) 1 (Entry.append_useragent (entry l) value))
        else if Str.eqb key (lit "disallow") then
          if negb (state l =? 0)%Z then
            rule <- RuleLine.init value false ;;
            Returns (mkScan (self l) 2 (Entry.append_ruleline (entry l) rule))
          else Returns l
        else if Str.eqb key (lit "allow") then
          if negb (state l =? 0)%Z then
            rule <- RuleLine.init value true ;;
            Returns (mkScan (self l) 2 (Entry.append_ruleline (entry l) rule))
          else Returns l
        else if Str.eqb key (lit "crawl-delay") then
          if negb (state l =? 0)%Z then
            e <- (if str_isdigit (Str.strip value) then
                    match builtin_int value with
                    | Some d => Returns (Entry.set_delay (entry l) d)
                    | None => Raises ValueError
                    end
                  else Returns (entry l)) ;;
            Returns (mkScan (self l) 2 e)
          else Returns l
        else if Str.eqb key (lit "request-rate") then
          if negb (state l =? 0)%Z then
            e <- (match Str.split value (chr "/") with
                  | [n0; n1] =>
                      if str_isdigit (Str.strip n0) && str_isdigit (Str.strip n1)
                      then
                        match builtin_int n0, builtin_int n1 with
                        | Some a, Some b =>
                            Returns (Entry.set_req_rate (entry l) (a, b))
                        | _, _ => Raises ValueError
                        end
                      else Returns (entry l)
                  | _ => Returns (entry l)
                  end) ;;
            Returns (mkScan (self l) 2 e)
          else Returns l
        else if Str.eqb key (lit "sitemap") then
          Returns (mkScan (append_sitemap (self l) value) (state l) (entry l))
        else Returns l
    | _ => Returns l
    end.

(** The loop of [parse] and the statement after it.  An exception
    leaves the parser as the iterations before it made it. *)
Fixpoint parse_lines (l : scan) (lines : list str) : t * option str :=
  match lines with
  | [] =>
      (if (state l =? 2)%Z then _add_entry (self l) (entry l) else self l,
       None)
  | line :: rest =>
      match parse_line l line with
      | Returns l' => parse_lines l' rest
      | Raises e => (self l, Some e)
      end
  end.

(** [self.parse(lines)]: the parser afterwards, and the class of the
    exception when one was raised. *)
Definition parse (self : t) (lines : list str) : t * option str :=
  parse_lines (mkScan (modified self) 0 Entry.init) lines.

Fixpoint first_entry (es : list Entry.t) (useragent : str) : option Entry.t :=
  match es with
  | [] => None
  | e :: rest => if Entry.applies_to e useragent then Some e
                 else first_entry rest useragent
  end.

(** The path that [can_fetch] looks up: the URL unquoted, parsed,
    put together again without scheme and host, and quoted. *)
Definition fetch_path (url : str) : outcome str :=
  parsed_url <- UrlParse.urlparse (Quote.unquote url) ;;
  let url :=
    UrlParse.urlunparse [] [] (UrlParse.path parsed_url)
      (UrlParse.params parsed_url) (UrlParse.query parsed_url)
      (UrlParse.fragment parsed_url) in
  url <- Quote.quote url ;;
  Returns (if Str.is_empty url then lit "/" else url).

(** using the parsed robots.txt decide if useragent can fetch url *)
Definition can_fetch (self : t) (useragent : str) (url : str) : outcome bool :=
  if disallow_all self then Returns false
  else if allow_all self then Returns true
  else if negb (last_checked self) then Returns false
  else
    url <- fetch_path url ;;
    match first_entry (entries self) useragent with
    | Some e => Returns (Entry.allowance e url)
    | None =>
        match default_entry self with
        | Some e => Returns (Entry.allowance e url)
        | None => Returns true
        end
    end.

End WithRuntime.

End RobotFileParser.

(** ** [app.py] *)

Definition DEFAULT_AI_BOTS : list str :=
  List.map lit
    ["GPTBot"; "PerplexityBot"; "ClaudeBot"; "CCBot"; "Google-Extended";
     "Amazonbot"]%string.

Record BotResult : Type := mkBotResult {
  userAgent : str;
  canFetchRoot : bool;
  canFetchSitewide : bool;
  notes : option str
}.

Record CheckResponse : Type := mkCheckResponse {
  robotsTxtFound : bool;
  robotsUrl : str;
  statusCode : option Z;
  blockedBots : list str;
  results : list BotResult;
  robotsTxt : option str;
  warnings : list str
}.

(** What [requests.get(robots_url, timeout=8, allow_redirects=True)] did:
    a response with its [status_code] and [text], an exception that is a
    [requests.RequestException] (connection, TLS, timeout, invalid URL, ...)
    of class [cls], or an exception of another kind. *)
Inductive fetched : Type :=
| Response (status_code : Z) (text : str)
| RequestException (cls : str)
| OtherException (cls : str).

Section App.
Context {R : PyRuntime}.

(** Return just the scheme + domain from any URL. *)
Definition normalize_to_origin (url : str) : outcome str :=
  p <- UrlParse.urlparse url ;;
  let scheme :=
    if negb (Str.is_empty (UrlParse.scheme p)) then UrlParse.scheme p
    else lit "https" in
  let netloc :=
    if negb (Str.is_empty (UrlParse.netloc p)) then UrlParse.netloc p
    else UrlParse.path p in
  Returns (UrlParse.urlunparse scheme netloc [] [] [] []).

(** The network, as [requests.get] shows it. *)
Variable requests_get : str -> fetched.

(** [for ua in bots: ...], from the lists [results] and [blocked] built so far *)
Fixpoint check_bots (rp : RobotFileParser.t) (origin : str) (bots : list str)
    (results : list BotResult) (blocked : list str)
    : outcome (list BotResult * list str) :=
  match bots with
  | [] => Returns (results, blocked)
  | ua :: rest =>
      can_root <- RobotFileParser.can_fetch rp ua (origin ++ lit "/") ;;
      let can_sitewide := can_root in
      let blocked := if negb can_root then blocked ++ [ua] else blocked in
      let results :=
        results ++ [mkBotResult ua can_root can_sitewide None] in
      check_bots rp origin rest results blocked
  end.

Definition check_ai_bot_block (url : str) (bots : list str)
    (includeRobotsTxt : bool) : outcome CheckResponse :=
  o <- normalize_to_origin url ;;
  let origin := Str.rstrip_chars o (lit "/") in
  let robots_url := origin ++ lit "/robots.txt" in
  let warnings : list str := [] in
  match requests_get robots_url with
  | OtherException cls => Raises cls
  | RequestException cls =>
      Returns (mkCheckResponse false robots_url None [] [] None
                 [lit "Fetch error: " ++ cls])
  | Response status text =>
      if negb (status =? 200)%Z || Str.is_empty (Str.strip text) then
        Returns (mkCheckResponse false robots_url (Some status) [] [] None
                   warnings)
      else
        let txt := text in
        rp <- RobotFileParser.init ;;
        rp <- RobotFileParser.set_url rp robots_url ;;
        let '(rp, exc) := RobotFileParser.parse rp (Str.splitlines txt) in
        let warnings :=
          match exc with
          | Some cls => warnings ++ [lit "Parse warning: " ++ cls]
          | None => warnings
          end in
        r <- check_bots rp origin bots [] [] ;;
        let '(results, blocked) := r in
        Returns (mkCheckResponse true robots_url (Some status) blocked results
                   (if includeRobotsTxt then Some txt else None) warnings)
  end.

(** The endpoint [GET /check]: [bots] and [includeRobotsTxt] are optional
    query parameters with the defaults [DEFAULT_AI_BOTS] and [True]. *)
Definition check_endpoint (url : str) (bots : option (list str))
    (includeRobotsTxt : option bool) : outcome CheckResponse :=
  check_ai_bot_block url
    (match bots with Some b => b | None => DEFAULT_AI_BOTS end)
    (match includeRobotsTxt with Some b => b | None => true end).

End App.

(** * Specification vocabulary *)

(** A list is an ordered selection of another: some elements dropped, the
    order of the others kept. *)
Inductive selection {A : Type} : list A -> list A -> Prop :=
| selection_nil : selection [] []
| selection_keep x l l' : selection l l' -> selection (x :: l) (x :: l')
| selection_drop x l l' : selection l l' -> selection l (x :: l').

(** [not can_root], on a result *)
Definition is_blocked (r : BotResult) : bool := negb (canFetchRoot r).

(** [robots_url] as the handler computes it from the normalized origin. *)
Definition robots_url_of (o : str) : str :=
  Str.rstrip_chars o (lit "/") ++ lit "/robots.txt".

(** The parser as [RobotFileParser()] and [set_url] leave it. *)
Definition fresh_parser (url : str) (p : UrlParse.ParseResult) : RobotFileParser.t :=
  RobotFileParser.mk [] [] None false false url
    (UrlParse.netloc p) (UrlParse.path p) false.

Section Vocabulary.
Context {R : PyRuntime}.

(** The result the loop body appends for a bot: its verdict is what
    [can_fetch] answered for the root of the origin. *)
Definition result_for (rp : RobotFileParser.t) (origin : str) (r : BotResult)
    : Prop :=
  RobotFileParser.can_fetch rp (userAgent r) (origin ++ lit "/")
    = Returns (canFetchRoot r)
  /\ canFetchSitewide r = canFetchRoot r
  /\ notes r = None.

(** The network, as [requests.get] shows it. *)
Variable requests_get : str -> fetched.

(** The responses of the handler, one constructor for each [return] of
    the source. *)
Inductive response_of (url : str) (bots : list str) (includeRobotsTxt : bool)
    : CheckResponse -> Prop :=
| FetchFailed o cls :
    normalize_to_origin url = Returns o ->
    requests_get (robots_url_of o) = RequestException cls ->
    response_of url bots includeRobotsTxt
      (mkCheckResponse false (robots_url_of o) None [] [] None
         [lit "Fetch error: " ++ cls])
| NotFound o status text :
    normalize_to_origin url = Returns o ->
    requests_get (robots_url_of o) = Response status text ->
    status <> 200%Z \/ Str.strip text = [] ->
    response_of url bots includeRobotsTxt
      (mkCheckResponse false (robots_url_of o) (Some status) [] [] None [])
| Found o text rp0 rp1 rp exc new :
    normalize_to_origin url = Returns o ->
    requests_get (robots_url_of o) = Response 200%Z text ->
    Str.strip text <> [] ->
    RobotFileParser.init = Returns rp0 ->
    RobotFileParser.set_url rp0 (robots_url_of o) = Returns rp1 ->
    RobotFileParser.parse rp1 (Str.splitlines text) = (rp, exc) ->
    List.map userAgent new = bots ->
    Forall (result_for rp (Str.rstrip_chars o (lit "/"))) new ->
    response_of url bots includeRobotsTxt
      (mkCheckResponse true (robots_url_of o) (Some 200%Z)
         (List.map userAgent (filter is_blocked new)) new
         (if includeRobotsTxt then Some text else None)
         (match exc with
          | Some cls => [lit "Parse warning: " ++ cls]
          | None => []
          end)).

End Vocabulary.

(** ** Characters of a URL *)

(** ASCII, and none of [%], [[], []]. *)
Definition plain_char (c : char) : bool :=
  (c <? 128)%N && negb (Str.has (lit "%[]") c).

(** A plain character that [urlsplit] keeps: no tab, carriage return or
    newline. *)
Definition clean_char (c : char) : bool :=
  plain_char c && negb (Str.has [9; 13; 10]%N c).

(** A clean character that ends no component: no [?] and no [#]. *)
Definition inner_char (c : char) : bool :=
  clean_char c && negb (Str.has (lit "?#") c).

(** The schemes [urlsplit] recognises: a letter, then letters, digits,
    [+], [-] and [.]. *)
Definition valid_scheme (s : str) : Prop :=
  match s with
  | [] => False
  | c :: _ => (UrlParse.is_upper c || UrlParse.is_lower c) = true
  end
  /\ forallb UrlParse.scheme_char s = true.

(** ** The steps of [urlsplit], named *)

(** The URL without its leading controls and spaces and without tabs,
    carriage returns and newlines. *)
Definition cleaned (url : str) : str :=
  fold_left Str.remove UrlParse._UNSAFE_URL_BYTES_TO_REMOVE
    (Str.lstrip_by UrlParse.C0_CONTROL_OR_SPACE url).

Section Steps.
Context {R : PyRuntime}.

(** The scheme, when the URL starts with one, and what follows it. *)
Definition scheme_step (url : str) : str * str :=
  let i := Str.find url (chr ":") in
  match url with
  | c0 :: _ =>
      if (0 <? i)%Z && (c0 <? 128)%N && (UrlParse.is_upper c0 || UrlParse.is_lower c0) then
        if forallb UrlParse.scheme_char (Str.upto url i)
        then (Str.lower (Str.upto url i), Str.from url (i + 1))
        else ([], url)
      else ([], url)
  | [] => ([], url)
  end.

(** The host, when the rest starts with two slashes, and what follows it. *)
Definition netloc_step (url : str) : outcome (str * str) :=
  if Str.eqb (Str.upto url 2) (lit "//") then
    let '(netloc, url) := UrlParse._splitnetloc url 2 in
    _ <- (if Str.has netloc (chr "[") && negb (Str.has netloc (chr "]"))
             || Str.has netloc (chr "]") && negb (Str.has netloc (chr "["))
          then Raises ValueError else Returns tt) ;;
    _ <- (if Str.has netloc (chr "[") && Str.has netloc (chr "]")
          then UrlParse._check_bracketed_netloc netloc else Returns tt) ;;
    Returns (netloc, url)
  else Returns ([], url).

(** The fragment cut off. *)
Definition fragment_step (url : str) : str * str :=
  if Str.has url (chr "#") then
    match Str.split1 url (chr "#") with
    | [a; b] => (a, b)
    | _ => (url, [])
    end
  else (url, []).

(** The query cut off. *)
Definition query_step (url : str) : str * str :=
  if Str.has url (chr "?") then
    match Str.split1 url (chr "?") with
    | [a; b] => (a, b)
    | _ => (url, [])
    end
  else (url, []).

End Steps.

(** ** Lines and rules of robots.txt *)

(** The field of a line of robots.txt as [parse] reads it: the name, in
    lower case, and the value, when the line without its comment has a
    colon. *)
Definition line_field `{PyRuntime} (line : str) : option (str * str) :=
  let i := Str.find line (chr "#") in
  let line := if (0 <=? i)%Z then Str.upto line i else line in
  let line := Str.strip line in
  if Str.is_empty line then None
  else
    match Str.split1 line (chr ":") with
    | [key; value] =>
        Some (Str.lower (Str.strip key), Quote.unquote (Str.strip value))
    | _ => None
    end.

(** A rule that does not forbid the path [t]: it allows, or it does not
    apply to [t]. *)
Definition rule_passes (t : str) (r : RuleLine.t) : Prop :=
  RuleLine.allowance r = true \/ RuleLine.applies_to r t = false.

(** An entry none of whose rules forbids [t]. *)
Definition entry_passes (t : str) (e : Entry.t) : Prop :=
  Forall (rule_passes t) (Entry.rulelines e).

(** A parser none of whose entries has a rule that forbids [t]. *)
Definition parser_passes (t : str) (rp : RobotFileParser.t) : Prop :=
  Forall (entry_passes t) (RobotFileParser.entries rp)
  /\ forall e, RobotFileParser.default_entry rp = Some e -> entry_passes t e.

(** The text with every line feed written as carriage return and line
    feed. *)
Definition crlf (text : str) : str :=
  flat_map (fun c => if N.eqb c 10%N then [13%N; 10%N] else [c]) text.

(** ** Closed examples *)

(** [s.isdigit()] on ASCII strings, and the number that a string of ASCII
    digits writes. *)
Definition ascii_isdigit (s : str) : bool :=
  negb (Str.is_empty s) && forallb UrlParse.is_digit s.

Definition decimal (s : str) : Z :=
  fold_left (fun n c => (10 * n + Z.of_N (c - 48))%Z) s 0%Z.

(** The runtime of the closed examples below.  It is CPython only on what
    these examples use: lower case, [isdigit] and NFKC of ASCII strings.
    [builtin_int] reads the digits of a stripped string, which is [int] on
    short strings of digits between ASCII spaces and is more than [int]
    accepts otherwise; [ipaddress_ip_address] refuses every string, also
    the IPv6 addresses that CPython accepts.  No example converts a number
    or has a host in brackets, and every theorem is stated for all
    runtimes. *)
Definition ascii_runtime : PyRuntime := {|
  unicode_lower := fun s => List.map Str.lower_ascii_char s;
  str_isdigit := ascii_isdigit;
  builtin_int := fun s =>
    let t := Str.strip s in
    if ascii_isdigit t then Some (decimal t) else None;
  unicodedata_normalize_NFKC := fun s => s;
  ipaddress_ip_address := fun _ => None
|}.

(** A network where every fetch answers with the given status and body. *)
Definition serves (status : Z) (body : str) : str -> fetched :=
  fun _ => Response status body.

(** A network where every fetch raises the given [RequestException]. *)
Definition unreachable (cls : str) : str -> fetched :=
  fun _ => RequestException cls.

Definition gptbot_blocked_txt : str :=
  lit "User-agent: GPTBot" ++ [10%N] ++ lit "Disallow: /".

Definition all_allowed_txt : str :=
  lit "User-agent: *" ++ [10%N] ++ lit "Allow: /".

(** The one entry of "User-agent: GPTBot / Disallow: /". *)
Definition gptbot_entry : Entry.t :=
  Entry.mk [lit "GPTBot"] [RuleLine.mk (lit "/") false] None None.

(** The default entry of "User-agent: * / Allow: /". *)
Definition star_entry : Entry.t :=
  Entry.mk [lit "*"] [RuleLine.mk (lit "/") true] None None.

Definition example_url : str := lit "https://example.com/docs/page?x=1".
Definition example_origin : str := lit "https://example.com".
Definition example_bots : list str := [lit "GPTBot"; lit "ClaudeBot"].

(** The answer for [example_bots] when the site serves
    [gptbot_blocked_txt]. *)
Definition example_found : CheckResponse :=
  mkCheckResponse true (lit "https://example.com/robots.txt") (Some 200%Z)
    [lit "GPTBot"]
    [mkBotResult (lit "GPTBot") false false None;
     mkBotResult (lit "ClaudeBot") true true None]
    (Some gptbot_blocked_txt) [].

(** "User-agent: * / Disallow: /" *)
Definition wildcard_disallow_txt : str :=
  lit "User-agent: *" ++ [10%N] ++ lit "Disallow: /".

(** The default entry of "User-agent: * / Disallow: /". *)
Definition star_disallow_entry : Entry.t :=
  Entry.mk [lit "*"] [RuleLine.mk (lit "/") false] None None.

(** A group for GPTBot, then a group whose rule [urlparse] refuses:
    [rp.parse] raises [ValueError] on the last line. *)
Definition broken_rule_txt : str :=
  lit "User-agent: GPTBot" ++ [10%N] ++ lit "Disallow: /" ++ [10%N; 10%N]
  ++ lit "User-agent: *" ++ [10%N] ++ lit "Disallow: //[".

(** Rules for a path below the root and for a pattern, and a [Disallow]
    without value. *)
Definition subpaths_txt : str :=
  lit "User-agent: *" ++ [10%N] ++ lit "Disallow: /private" ++ [10%N]
  ++ lit "Disallow: /*" ++ [10%N] ++ lit "Disallow:".

(** [urlparse("https://example.com/robots.txt")] *)
Definition example_robots_parse : UrlParse.ParseResult :=
  UrlParse.mkParse (lit "https") (lit "example.com") (lit "/robots.txt")
    [] [] [].

(** The answer for [example_bots] when the site serves [broken_rule_txt]
    and the text is not asked for. *)
Definition example_broken : CheckResponse :=
  mkCheckResponse true (lit "https://example.com/robots.txt") (Some 200%Z)
    [lit "GPTBot"]
    [mkBotResult (lit "GPTBot") false false None;
     mkBotResult (lit "ClaudeBot") true true None]
    None [lit "Parse warning: ValueError"].

(** The answer when the fetch raises [ConnectTimeout]. *)
Definition example_unreachable : CheckResponse :=
  mkCheckResponse false (lit "https://example.com/robots.txt") None [] [] None
    [lit "Fetch error: ConnectTimeout"].

(** The answer for [example_bots] when nothing forbids the root. *)
Definition example_allowed (text : str) : CheckResponse :=
  mkCheckResponse true (lit "https://example.com/robots.txt") (Some 200%Z)
    []
    [mkBotResult (lit "GPTBot") true true None;
     mkBotResult (lit "ClaudeBot") true true None]
    (Some text) [].

(** * Properties *)

(** ** General facts *)

Lemma bind_Returns {A B : Type} (m : outcome A) (k : A -> outcome B) (b : B) :
  bind m k = Returns b -> exists a, m = Returns a /\ k a = Returns b.
Proof.
  destruct m as [a | e]; simpl; intros H.
  - exists a. split; [reflexivity | exact H].
  - discriminate H.
Qed.

Lemma bind_ret {A B : Type} (a : A) (k : A -> outcome B) :
  bind (Returns a) k = k a.
Proof. reflexivity. Qed.

Lemma Str_eqb_eq (a b : str) : Str.eqb a b = true <-> a = b.
Proof.
  revert b. induction a as [| x a IH]; intros [| y b]; simpl;
    try (split; [discriminate | congruence]); try tauto.
  rewrite andb_true_iff, N.eqb_eq, IH. split.
  - intros [-> ->]. reflexivity.
  - intros E. injection E as -> ->. split; reflexivity.
Qed.

Lemma Str_is_empty_true (s : str) : Str.is_empty s = true <-> s = [].
Proof.
  destruct s; simpl; split; congruence.
Qed.

Lemma selection_map_filter {A B : Type} (f : A -> B) (p : A -> bool) (l : list A) :
  selection (List.map f (filter p l)) (List.map f l).
Proof.
  induction l as [| x l IH]; simpl.
  - constructor.
  - destruct (p x); simpl; constructor; exact IH.
Qed.

Lemma selection_nil_l {A : Type} (l : list A) : selection [] l.
Proof.
  induction l; constructor; assumption.
Qed.

(** ** The loop over the requested bots *)

Section Loop.
Context {R : PyRuntime}.

Lemma check_bots_spec rp origin bots :
  forall results blocked rs bl,
    check_bots rp origin bots results blocked = Returns (rs, bl) ->
    exists new,
      rs = results ++ new
      /\ bl = blocked ++ List.map userAgent (filter is_blocked new)
      /\ List.map userAgent new = bots
      /\ Forall (result_for rp origin) new.
Proof.
  induction bots as [| ua bots IH]; simpl; intros results blocked rs bl H.
  - injection H as <- <-. exists []. simpl.
    rewrite !app_nil_r. repeat split; constructor.
  - apply bind_Returns in H. destruct H as (can_root & Hcf & H).
    apply IH in H. destruct H as (new & -> & -> & Hua & Hall).
    exists (mkBotResult ua can_root can_root None :: new).
    rewrite <- !app_assoc. simpl. split; [reflexivity |]. split.
    + unfold is_blocked at 2. simpl.
      destruct can_root; simpl; rewrite <- ?app_assoc; reflexivity.
    + split; [now rewrite Hua |].
      constructor; [| exact Hall].
      unfold result_for. simpl. auto.
Qed.

(** The loop ends normally exactly when [can_fetch] answers for each bot. *)
Lemma check_bots_returns rp origin bots :
  forall results blocked,
    (forall ua, In ua bots ->
       exists b, RobotFileParser.can_fetch rp ua (origin ++ lit "/") = Returns b) ->
    exists rs bl, check_bots rp origin bots results blocked = Returns (rs, bl).
Proof.
  induction bots as [| ua bots IH]; simpl; intros results blocked H.
  - eauto.
  - destruct (H ua (or_introl eq_refl)) as (b & ->). simpl.
    apply IH. intros ua' Hin. apply H. right. exact Hin.
Qed.

End Loop.

(** ** The three ways the handler answers *)

Section Handler.
Context {R : PyRuntime}.
Variable requests_get : str -> fetched.

Lemma check_ai_bot_block_cases url bots includeRobotsTxt resp :
  check_ai_bot_block requests_get url bots includeRobotsTxt = Returns resp ->
  response_of requests_get url bots includeRobotsTxt resp.
Proof.
  unfold check_ai_bot_block. intros H.
  apply bind_Returns in H. destruct H as (o & Ho & H).
  fold (robots_url_of o) in H.
  destruct (requests_get (robots_url_of o)) as [status text | cls | cls] eqn:Hget.
  - destruct (negb (status =? 200)%Z || Str.is_empty (Str.strip text)) eqn:Hc.
    + injection H as <-. eapply NotFound; eauto.
      apply orb_true_iff in Hc. destruct Hc as [Hc | Hc].
      * left. apply negb_true_iff, Z.eqb_neq in Hc. exact Hc.
      * right. apply Str_is_empty_true. exact Hc.
    + apply orb_false_iff in Hc. destruct Hc as [Hs He].
      apply negb_false_iff, Z.eqb_eq in Hs. subst status.
      apply bind_Returns in H. destruct H as (rp0 & Hinit & H).
      apply bind_Returns in H. destruct H as (rp1 & Hset & H).
      destruct (RobotFileParser.parse rp1 (Str.splitlines text)) as [rp exc] eqn:Hp.
      apply bind_Returns in H. destruct H as ([rs bl] & Hloop & H).
      injection H as <-.
      apply check_bots_spec in Hloop.
      destruct Hloop as (new & -> & -> & Hua & Hall). simpl.
      replace (match exc with
               | Some cls => [] ++ [lit "Parse warning: " ++ cls]
               | None => []
               end)
        with (match exc with
              | Some cls => [lit "Parse warning: " ++ cls]
              | None => []
              end) by (destruct exc; reflexivity).
      eapply Found; eauto.
      intros E. rewrite E in He. discriminate He.
  - injection H as <-. eapply FetchFailed; eauto.
  - discriminate H.
Qed.

Lemma RobotFileParser_init_eq :
  RobotFileParser.init
  = Returns (RobotFileParser.mk [] [] None false false [] [] [] false).
Proof. vm_compute. reflexivity. Qed.

(** The third [return]: robots.txt was fetched with status 200 and a body,
    its URL parses, and the loop over the bots ends. *)
Lemma found_response url bots includeRobotsTxt o text p rs bl :
  normalize_to_origin url = Returns o ->
  requests_get (robots_url_of o) = Response 200%Z text ->
  Str.is_empty (Str.strip text) = false ->
  UrlParse.urlparse (robots_url_of o) = Returns p ->
  check_bots
    (fst (RobotFileParser.parse (fresh_parser (robots_url_of o) p)
            (Str.splitlines text)))
    (Str.rstrip_chars o (lit "/")) bots [] [] = Returns (rs, bl) ->
  check_ai_bot_block requests_get url bots includeRobotsTxt
  = Returns (mkCheckResponse true (robots_url_of o) (Some 200%Z) bl rs
               (if includeRobotsTxt then Some text else None)
               (match snd (RobotFileParser.parse (fresh_parser (robots_url_of o) p)
                             (Str.splitlines text)) with
                | Some cls => [lit "Parse warning: " ++ cls]
                | None => []
                end)).
Proof.
  intros Ho Hget Hne Hp Hloop. unfold check_ai_bot_block.
  rewrite Ho, bind_ret. cbv zeta. fold (robots_url_of o). rewrite Hget.
  rewrite Hne. change (negb (200 =? 200)%Z || false) with false. cbv iota.
  rewrite RobotFileParser_init_eq, bind_ret.
  unfold RobotFileParser.set_url. rewrite Hp, !bind_ret.
  change (RobotFileParser.mk _ _ _ _ _ (robots_url_of o) _ _ _)
    with (fresh_parser (robots_url_of o) p).
  destruct (RobotFileParser.parse (fresh_parser (robots_url_of o) p)
              (Str.splitlines text)) as [rp exc].
  simpl fst in Hloop. simpl snd. cbv beta iota.
  rewrite Hloop, bind_ret.
  destruct exc; reflexivity.
Qed.

End Handler.

(** ** The claims *)

Section Claims.
Context {R : PyRuntime}.
Variable requests_get : str -> fetched.

(** C1. In every response of the handler, [blockedBots] is the list of the
    user agents of the results whose [canFetchRoot] is false, in their
    order: a user agent is in [blockedBots] if and only if it has a result
    with [canFetchRoot = false]; [blockedBots] is an ordered selection of
    the requested bots; and when robots.txt was found the results are those
    of the requested bots, one for each, in the request's order. *)
Theorem blockedBots_exact url bots includeRobotsTxt resp :
  check_ai_bot_block requests_get url bots includeRobotsTxt = Returns resp ->
  blockedBots resp = List.map userAgent (filter is_blocked (results resp))
  /\ (forall ua,
        In ua (blockedBots resp) <->
        exists r, In r (results resp) /\ userAgent r = ua /\ canFetchRoot r = false)
  /\ selection (blockedBots resp) bots
  /\ (robotsTxtFound resp = true -> List.map userAgent (results resp) = bots).
Proof.
  intros H. apply check_ai_bot_block_cases in H.
  assert (E : blockedBots resp = List.map userAgent (filter is_blocked (results resp)))
    by (destruct H; reflexivity).
  split; [exact E |]. split; [| split].
  - intros ua. rewrite E, in_map_iff. split.
    + intros (r & Hua & Hin). apply filter_In in Hin. destruct Hin as [Hin Hb].
      exists r. repeat split; try assumption.
      apply negb_true_iff. exact Hb.
    + intros (r & Hin & Hua & Hb). exists r. split; [exact Hua |].
      apply filter_In. split; [exact Hin |].
      unfold is_blocked. rewrite Hb. reflexivity.
  - destruct H as [o cls _ _ | o status text _ _ _ | o text rp0 rp1 rp exc new _ _ _ _ _ _ Hua _];
      simpl; try apply selection_nil_l.
    rewrite <- Hua. apply selection_map_filter.
  - destruct H; simpl; intros Hf; try discriminate Hf. assumption.
Qed.

(** C2, amended. Whenever the response has [robotsTxtFound = true], the
    results have the length of the requested bots and the i-th result carries
    the i-th requested bot; in the responses with [robotsTxtFound = false]
    (fetch error, not found or empty) the results are empty. *)
Theorem results_follow_bots url bots includeRobotsTxt resp :
  check_ai_bot_block requests_get url bots includeRobotsTxt = Returns resp ->
  (robotsTxtFound resp = true ->
     List.length (results resp) = List.length bots
     /\ forall i, nth_error (List.map userAgent (results resp)) i = nth_error bots i)
  /\ (robotsTxtFound resp = false -> results resp = []).
Proof.
  intros H. apply check_ai_bot_block_cases in H.
  destruct H as [o cls _ _ | o status text _ _ _ | o text rp0 rp1 rp exc new _ _ _ _ _ _ Hua _];
    simpl; (split; [intros Hf | intros Hf]); try discriminate Hf; try reflexivity.
  rewrite <- Hua, length_map. split; reflexivity.
Qed.

(** C7. In every result of every response, [canFetchSitewide] equals
    [canFetchRoot]. *)
Theorem canFetchSitewide_is_canFetchRoot url bots includeRobotsTxt resp :
  check_ai_bot_block requests_get url bots includeRobotsTxt = Returns resp ->
  forall r, In r (results resp) -> canFetchSitewide r = canFetchRoot r.
Proof.
  intros H r Hin. apply check_ai_bot_block_cases in H.
  destruct H as [o cls _ _ | o status text _ _ _ | o text rp0 rp1 rp exc new _ _ _ _ _ _ _ Hall];
    simpl in Hin; try contradiction.
  rewrite Forall_forall in Hall. apply Hall in Hin.
  destruct Hin as (_ & Hs & _). exact Hs.
Qed.

(** C4. When the fetch of robots.txt fails with a network or transport
    error (a [requests.RequestException]: DNS failure, refused connection,
    TLS error, timeout), the handler returns [robotsTxtFound = false],
    [statusCode = null], empty [blockedBots] and [results], no text, and
    exactly one warning, which names the class of the error. *)
Theorem fetch_error_response url bots includeRobotsTxt o cls :
  normalize_to_origin url = Returns o ->
  requests_get (robots_url_of o) = RequestException cls ->
  check_ai_bot_block requests_get url bots includeRobotsTxt
  = Returns (mkCheckResponse false (robots_url_of o) None [] [] None
               [lit "Fetch error: " ++ cls]).
Proof.
  intros Ho Hget. unfold check_ai_bot_block. rewrite Ho. simpl.
  fold (robots_url_of o). rewrite Hget. reflexivity.
Qed.

(** C5. When the fetch of robots.txt completes with a status other than
    200, or with a body that is empty once stripped of whitespace, the
    handler returns [robotsTxtFound = false] with the status received in
    [statusCode], empty [results] and [blockedBots], no text and no warning. *)
Theorem not_found_response url bots includeRobotsTxt o status text :
  normalize_to_origin url = Returns o ->
  requests_get (robots_url_of o) = Response status text ->
  status <> 200%Z \/ Str.strip text = [] ->
  check_ai_bot_block requests_get url bots includeRobotsTxt
  = Returns (mkCheckResponse false (robots_url_of o) (Some status) [] [] None []).
Proof.
  intros Ho Hget Hc. unfold check_ai_bot_block. rewrite Ho. simpl.
  fold (robots_url_of o). rewrite Hget.
  assert (E : negb (status =? 200)%Z || Str.is_empty (Str.strip text) = true).
  { apply orb_true_iff. destruct Hc as [Hc | Hc].
    - left. apply negb_true_iff, Z.eqb_neq. exact Hc.
    - right. rewrite Hc. reflexivity. }
  rewrite E. reflexivity.
Qed.

(** C8. [robotsTxt] is the text fetched exactly when robots.txt was found
    and [includeRobotsTxt] is true, which it is by default; in every other
    response (fetch error, not found or empty, [includeRobotsTxt = false])
    it is null. *)
Theorem robotsTxt_present_iff url bots includeRobotsTxt resp :
  check_endpoint requests_get url bots includeRobotsTxt = Returns resp ->
  (robotsTxtFound resp = true /\ includeRobotsTxt <> Some false ->
     exists o text,
       normalize_to_origin url = Returns o
       /\ requests_get (robots_url_of o) = Response 200%Z text
       /\ robotsTxt resp = Some text)
  /\ (robotsTxtFound resp = false \/ includeRobotsTxt = Some false ->
        robotsTxt resp = None).
Proof.
  unfold check_endpoint. intros H. apply check_ai_bot_block_cases in H.
  destruct H as [o cls Ho Hget | o status text Ho Hget _
                | o text rp0 rp1 rp exc new Ho Hget _ _ _ _ _ _]; simpl.
  - split; [intros [Hf _]; discriminate Hf | reflexivity].
  - split; [intros [Hf _]; discriminate Hf | reflexivity].
  - split.
    + intros [_ Hinc]. exists o, text. repeat split; try assumption.
      destruct includeRobotsTxt as [[|] |]; try reflexivity.
      contradiction Hinc. reflexivity.
    + intros [Hf | ->]; [discriminate Hf | reflexivity].
Qed.

(** C9. Whenever the response has [robotsTxtFound = true], its status code
    is 200 and the body fetched is not empty once stripped of whitespace. *)
Theorem found_means_200_nonempty url bots includeRobotsTxt resp :
  check_ai_bot_block requests_get url bots includeRobotsTxt = Returns resp ->
  robotsTxtFound resp = true ->
  statusCode resp = Some 200%Z
  /\ exists o text,
       normalize_to_origin url = Returns o
       /\ requests_get (robots_url_of o) = Response 200%Z text
       /\ Str.strip text <> [].
Proof.
  intros H Hf. apply check_ai_bot_block_cases in H.
  destruct H as [o cls Ho Hget | o status text Ho Hget _
                | o text rp0 rp1 rp exc new Ho Hget Hne _ _ _ _ _];
    simpl in Hf; try discriminate Hf.
  simpl. split; [reflexivity |]. exists o, text. auto.
Qed.

(** C10. In every response (fetch error, not found or empty, found),
    [robotsUrl] is the normalized origin of the request's URL, stripped of
    its trailing slashes, followed by "/robots.txt". *)
Theorem robotsUrl_from_origin url bots includeRobotsTxt resp :
  check_ai_bot_block requests_get url bots includeRobotsTxt = Returns resp ->
  exists o,
    normalize_to_origin url = Returns o
    /\ robotsUrl resp = Str.rstrip_chars o (lit "/") ++ lit "/robots.txt".
Proof.
  intros H. apply check_ai_bot_block_cases in H.
  destruct H as [o cls Ho _ | o status text Ho _ _
                | o text rp0 rp1 rp exc new Ho _ _ _ _ _ _ _];
    exists o; split; try assumption; reflexivity.
Qed.

End Claims.

(** ** The origin of a URL *)

Section Origin.
Context {R : PyRuntime}.

(** [normalize_to_origin("example.com") == "https://example.com"] *)
Lemma normalize_to_origin_bare_host :
  normalize_to_origin (lit "example.com") = Returns (lit "https://example.com").
Proof. vm_compute. reflexivity. Qed.

(** A URL with a host is cut down to its scheme ([https] when it has none)
    and its host. *)
Lemma normalize_to_origin_with_host url p :
  UrlParse.urlparse url = Returns p ->
  UrlParse.netloc p <> [] ->
  normalize_to_origin url
  = Returns ((if Str.is_empty (UrlParse.scheme p) then lit "https"
              else UrlParse.scheme p)
             ++ lit "://" ++ UrlParse.netloc p).
Proof.
  intros Hp Hn. unfold normalize_to_origin. rewrite Hp. simpl.
  destruct (UrlParse.netloc p) as [| c n] eqn:En; [contradiction Hn; reflexivity |].
  unfold UrlParse.urlunparse, UrlParse.urlunsplit. simpl.
  destruct (UrlParse.scheme p) as [| c' s']; simpl.
  - rewrite app_nil_r. reflexivity.
  - rewrite app_nil_r. reflexivity.
Qed.

(** A URL that opens a bracket and never closes it is refused by [urlparse]:
    the exception leaves [normalize_to_origin]. *)
Lemma normalize_to_origin_raises :
  normalize_to_origin (lit "http://[example.com/") = Raises ValueError.
Proof. vm_compute. reflexivity. Qed.

(** C3. For a URL written without its scheme, [normalize_to_origin] takes
    the whole path for the host: the path of the URL stays in the result,
    which is no origin. *)
Theorem normalize_to_origin_keeps_path :
  normalize_to_origin (lit "example.com/blog/post?page=2")
  = Returns (lit "https://example.com/blog/post").
Proof. vm_compute. reflexivity. Qed.

End Origin.

(** ** Plain URLs *)

(** *** Lists and strings *)

Lemma Forall_firstn {A} (P : A -> Prop) n (l : list A) :
  Forall P l -> Forall P (firstn n l).
Proof.
  intros H. rewrite <- (firstn_skipn n l) in H.
  apply Forall_app in H. tauto.
Qed.

Lemma Forall_skipn {A} (P : A -> Prop) n (l : list A) :
  Forall P l -> Forall P (skipn n l).
Proof.
  intros H. rewrite <- (firstn_skipn n l) in H.
  apply Forall_app in H. tauto.
Qed.

Lemma Forall_filter {A} (P : A -> Prop) f (l : list A) :
  Forall P l -> Forall P (filter f l).
Proof.
  induction 1 as [| x l Hx Hl IH]; simpl; [constructor |].
  destruct (f x); [constructor |]; assumption.
Qed.

Lemma Forall_lstrip_by (P : char -> Prop) p (s : str) :
  Forall P s -> Forall P (Str.lstrip_by p s).
Proof.
  induction 1 as [| x l Hx Hl IH]; simpl; [constructor |].
  destruct (p x); [exact IH | constructor; assumption].
Qed.

Lemma Forall_rstrip_by (P : char -> Prop) p (s : str) :
  Forall P s -> Forall P (Str.rstrip_by p s).
Proof.
  intros H. unfold Str.rstrip_by.
  apply Forall_rev, Forall_lstrip_by, Forall_rev, H.
Qed.

Lemma has_false (s : str) (c : char) :
  Str.has s c = false <-> Forall (fun x => x <> c) s.
Proof.
  unfold Str.has. induction s as [| x s IH]; simpl.
  - split; [constructor | reflexivity].
  - rewrite orb_false_iff, IH, N.eqb_neq. split.
    + intros [Hx Hs]. constructor; [congruence | exact Hs].
    + intros H. inversion H; subst. split; [congruence | assumption].
Qed.

Lemma has_true (s : str) (c : char) : Str.has s c = true <-> In c s.
Proof.
  unfold Str.has. rewrite existsb_exists. split.
  - intros (x & Hin & E). apply N.eqb_eq in E. subst. exact Hin.
  - intros Hin. exists c. split; [exact Hin | apply N.eqb_refl].
Qed.

Lemma index_of_None (c : char) (s : str) :
  Str.index_of c s = None <-> Str.has s c = false.
Proof.
  induction s as [| x s IH]; simpl; [tauto |].
  unfold Str.has in *. simpl. rewrite (N.eqb_sym c x).
  destruct (N.eqb x c); simpl.
  - split; discriminate.
  - rewrite <- IH. destruct (Str.index_of c s); simpl; split; congruence.
Qed.

(** [index_of] finds the first occurrence. *)
Lemma index_of_Some (c : char) (s : str) (i : nat) :
  Str.index_of c s = Some i ->
  s = firstn i s ++ c :: skipn (S i) s
  /\ Str.has (firstn i s) c = false
  /\ (i < List.length s)%nat.
Proof.
  revert i. induction s as [| x s IH]; simpl; intros i H; [discriminate |].
  destruct (N.eqb x c) eqn:E.
  - injection H as <-. apply N.eqb_eq in E. subst. simpl.
    repeat split. lia.
  - destruct (Str.index_of c s) as [j |] eqn:Ej; simpl in H; [| discriminate].
    injection H as <-. destruct (IH j eq_refl) as (Hs & Hh & Hl). simpl.
    repeat split.
    + f_equal. exact Hs.
    + unfold Str.has in *. simpl. rewrite N.eqb_sym, E. exact Hh.
    + lia.
Qed.

Lemma index_of_app (c : char) (a b : str) :
  Str.has a c = false ->
  Str.index_of c (a ++ c :: b) = Some (List.length a).
Proof.
  induction a as [| x a IH]; simpl; intros H.
  - rewrite N.eqb_refl. reflexivity.
  - unfold Str.has in H. simpl in H. apply orb_false_iff in H.
    destruct H as [Hx Ha]. rewrite N.eqb_sym, Hx. rewrite IH by exact Ha.
    reflexivity.
Qed.

Lemma remove_absent (s : str) (c : char) :
  Str.has s c = false -> Str.remove s c = s.
Proof.
  unfold Str.remove. induction s as [| x s IH]; simpl; intros H; [reflexivity |].
  unfold Str.has in H. simpl in H. apply orb_false_iff in H.
  destruct H as [Hx Hs]. rewrite N.eqb_sym, Hx. simpl. f_equal. apply IH. exact Hs.
Qed.

Lemma has_remove (s : str) (c : char) : Str.has (Str.remove s c) c = false.
Proof.
  apply has_false. unfold Str.remove.
  induction s as [| x s IH]; simpl; [constructor |].
  destruct (N.eqb x c) eqn:E; simpl; [exact IH |].
  constructor; [apply N.eqb_neq; exact E | exact IH].
Qed.

Lemma bound_nonneg (s : str) (i : Z) : (0 <= i)%Z -> Str.bound s i = Z.to_nat i.
Proof.
  intros H. unfold Str.bound.
  destruct (i <? 0)%Z eqn:E; [apply Z.ltb_lt in E; lia | reflexivity].
Qed.

Lemma lstrip_by_app (p : char -> bool) (x : str) (c : char) (y : str) :
  p c = false -> Str.lstrip_by p (x ++ c :: y) = Str.lstrip_by p x ++ c :: y.
Proof.
  intros Hc. induction x as [| a x IH]; simpl.
  - rewrite Hc. reflexivity.
  - destruct (p a); [exact IH | reflexivity].
Qed.

Lemma rstrip_by_app (p : char -> bool) (x : str) (c : char) (y : str) :
  p c = false -> Str.rstrip_by p (x ++ c :: y) = x ++ c :: Str.rstrip_by p y.
Proof.
  intros Hc. unfold Str.rstrip_by.
  rewrite rev_app_distr. simpl. rewrite <- app_assoc. simpl.
  rewrite lstrip_by_app by exact Hc.
  rewrite rev_app_distr. simpl. rewrite rev_involutive, <- app_assoc. reflexivity.
Qed.

(** Stripping a string that begins with characters to strip leaves nothing
    or keeps that beginning. *)
Lemma rstrip_by_prefix (p : char -> bool) (a y : str) :
  forallb p a = true ->
  Str.rstrip_by p (a ++ y) = []
  \/ exists y', y' <> [] /\ Str.rstrip_by p (a ++ y) = a ++ y'.
Proof.
  intros Ha. unfold Str.rstrip_by. rewrite rev_app_distr.
  destruct (Str.lstrip_by p (rev y)) as [| h t] eqn:E.
  - left.
    assert (H : forall x z, Str.lstrip_by p x = [] -> forallb p z = true ->
                            Str.lstrip_by p (x ++ z) = []).
    { induction x as [| b x IH]; simpl; intros z Hx Hz.
      - induction z as [| d z IHz]; simpl; [reflexivity |].
        simpl in Hz. apply andb_true_iff in Hz. destruct Hz as [-> Hz].
        apply IHz. exact Hz.
      - destruct (p b); [apply IH; assumption | discriminate]. }
    rewrite H; [reflexivity | exact E |].
    rewrite forallb_forall in *. intros x Hx. apply Ha, in_rev. exact Hx.
  - right. exists (rev (h :: t)). split.
    + intros C. apply (f_equal (@rev _)) in C. rewrite rev_involutive in C.
      discriminate C.
    + assert (H : forall x z, Str.lstrip_by p x = h :: t ->
                              Str.lstrip_by p (x ++ z) = (h :: t) ++ z).
      { induction x as [| b x IH]; simpl; intros z Hx; [discriminate |].
        destruct (p b); [apply IH; exact Hx |].
        injection Hx as -> ->. reflexivity. }
      rewrite (H _ _ E), rev_app_distr, rev_involutive. reflexivity.
Qed.

(** *** The steps of [urlsplit] *)

Section StepsEquation.
Context {R : PyRuntime}.

Lemma urlsplit_steps (url : str) :
  UrlParse.urlsplit url
  = (r <- netloc_step (snd (scheme_step (cleaned url))) ;;
     _ <- UrlParse._checknetloc (fst r) ;;
     Returns (UrlParse.mkSplit (fst (scheme_step (cleaned url))) (fst r)
                (fst (query_step (fst (fragment_step (snd r)))))
                (snd (query_step (fst (fragment_step (snd r)))))
                (snd (fragment_step (snd r))))).
Proof.
  change (UrlParse.urlsplit url)
    with (let '(scheme, rest) := scheme_step (cleaned url) in
          r <- netloc_step rest ;;
          let '(netloc, url) := r in
          let '(url, fragment) := fragment_step url in
          let '(url, query) := query_step url in
          _ <- UrlParse._checknetloc netloc ;;
          Returns (UrlParse.mkSplit scheme netloc url query fragment)).
  destruct (scheme_step (cleaned url)) as [scheme rest]. simpl fst. simpl snd.
  destruct (netloc_step rest) as [[netloc rest'] | e]; [| reflexivity].
  rewrite !bind_ret. simpl fst. simpl snd.
  destruct (fragment_step rest') as [u fragment]. simpl fst. simpl snd.
  destruct (query_step u) as [path query]. reflexivity.
Qed.

End StepsEquation.

(** Boolean tests on characters, as arithmetic. *)
Ltac char_arith :=
  unfold inner_char, clean_char, plain_char, UrlParse.scheme_char,
    UrlParse.is_upper, UrlParse.is_lower, UrlParse.is_digit,
    UrlParse.C0_CONTROL_OR_SPACE, Str.lower_ascii_char, Str.has in *;
  cbn [existsb lit List.map list_ascii_of_string chr N_of_ascii N_of_digits] in *;
  repeat match goal with
  | H : _ && _ = true |- _ => apply andb_true_iff in H; destruct H
  | H : _ || _ = false |- _ => apply orb_false_iff in H; destruct H
  | H : negb _ = true |- _ => apply negb_true_iff in H
  | H : negb _ = false |- _ => apply negb_false_iff in H
  | H : (_ =? _)%N = true |- _ => apply N.eqb_eq in H
  | H : (_ =? _)%N = false |- _ => apply N.eqb_neq in H
  | H : (_ <=? _)%N = true |- _ => apply N.leb_le in H
  | H : (_ <=? _)%N = false |- _ => apply N.leb_gt in H
  | H : (_ <? _)%N = true |- _ => apply N.ltb_lt in H
  | H : (_ <? _)%N = false |- _ => apply N.ltb_ge in H
  | H : _ || _ = true |- _ => apply orb_true_iff in H; destruct H
  | H : _ && _ = false |- _ => apply andb_false_iff in H; destruct H
  | H : false = true |- _ => discriminate H
  | H : true = false |- _ => discriminate H
  end;
  repeat match goal with
  | |- _ && _ = true => apply andb_true_iff; split
  | |- negb _ = true => apply negb_true_iff
  | |- _ || _ = false => apply orb_false_iff; split
  | |- (_ =? _)%N = false => apply N.eqb_neq
  | |- (_ <? _)%N = true => apply N.ltb_lt
  | |- (_ <=? _)%N = true => apply N.leb_le
  | |- (_ <=? _)%N = false => apply N.leb_gt
  | |- false = false => reflexivity
  | |- true = true => reflexivity
  end;
  try lia.

Lemma scheme_char_inner (c : char) :
  UrlParse.scheme_char c = true -> inner_char c = true.
Proof. intros H. char_arith. Qed.

Lemma inner_char_clean (c : char) : inner_char c = true -> clean_char c = true.
Proof. intros H. char_arith. Qed.

Lemma clean_char_plain (c : char) : clean_char c = true -> plain_char c = true.
Proof. intros H. char_arith. Qed.

(** *** Cleaning *)

Lemma cleaned_clean (url : str) :
  Forall (fun c => plain_char c = true) url ->
  Forall (fun c => clean_char c = true) (cleaned url).
Proof.
  intros H. unfold cleaned. simpl.
  set (u := Str.lstrip_by UrlParse.C0_CONTROL_OR_SPACE url).
  assert (Hu : Forall (fun c => plain_char c = true) u)
    by (apply Forall_lstrip_by, H).
  pose proof (has_remove (Str.remove (Str.remove u 9%N) 13%N) 10%N) as H10.
  assert (H13 : Str.has (Str.remove (Str.remove (Str.remove u 9%N) 13%N) 10%N) 13%N = false).
  { apply has_false. unfold Str.remove at 1. apply Forall_filter.
    apply has_false. apply has_remove. }
  assert (H9 : Str.has (Str.remove (Str.remove (Str.remove u 9%N) 13%N) 10%N) 9%N = false).
  { apply has_false. unfold Str.remove at 1 2. do 2 apply Forall_filter.
    apply has_false. apply has_remove. }
  assert (Hp : Forall (fun c => plain_char c = true)
                 (Str.remove (Str.remove (Str.remove u 9%N) 13%N) 10%N))
    by (unfold Str.remove; do 3 apply Forall_filter; exact Hu).
  apply has_false in H9, H13, H10.
  rewrite Forall_forall in *. intros c Hc.
  specialize (H9 c Hc). specialize (H13 c Hc). specialize (H10 c Hc).
  specialize (Hp c Hc). char_arith.
Qed.

(** A string of clean characters that starts with none to strip is left as
    it is. *)
Lemma cleaned_id (c : char) (u : str) :
  UrlParse.C0_CONTROL_OR_SPACE c = false ->
  Forall (fun c => clean_char c = true) (c :: u) ->
  cleaned (c :: u) = c :: u.
Proof.
  intros Hc H. unfold cleaned. simpl. rewrite Hc.
  assert (E : forall x, In x [9; 13; 10]%N -> Str.has (c :: u) x = false).
  { intros x Hx. apply has_false. rewrite Forall_forall in *.
    intros y Hy. specialize (H y Hy). intros ->.
    simpl in Hx. destruct Hx as [<- | [<- | [<- | []]]]; char_arith. }
  rewrite (remove_absent (c :: u) 9%N) by (apply E; simpl; tauto).
  rewrite (remove_absent (c :: u) 13%N) by (apply E; simpl; tauto).
  rewrite (remove_absent (c :: u) 10%N) by (apply E; simpl; tauto).
  reflexivity.
Qed.

(** *** The scheme *)

Section StepFacts.
Context {R : PyRuntime}.

Lemma isascii_clean (s : str) :
  Forall (fun c => clean_char c = true) s -> Str.isascii s = true.
Proof.
  intros H. unfold Str.isascii. apply forallb_forall. intros c Hc.
  rewrite Forall_forall in H. specialize (H c Hc). char_arith.
Qed.

Lemma lower_scheme (s : str) :
  forallb UrlParse.scheme_char s = true ->
  Str.lower s = List.map Str.lower_ascii_char s.
Proof.
  intros H. unfold Str.lower.
  assert (E : Str.isascii s = true).
  { unfold Str.isascii. apply forallb_forall. intros c Hc.
    rewrite forallb_forall in H. specialize (H c Hc). char_arith. }
  rewrite E. reflexivity.
Qed.

Lemma valid_scheme_lower (s : str) :
  valid_scheme s -> valid_scheme (List.map Str.lower_ascii_char s).
Proof.
  intros [H1 H2]. destruct s as [| c s]; [contradiction |]. split.
  - simpl. clear H2.
    unfold Str.lower_ascii_char.
    destruct ((65 <=? c) && (c <=? 90))%N eqn:E; [| exact H1].
    apply orb_true_iff. right. clear H1. char_arith.
  - rewrite forallb_forall in *. intros x Hx. apply in_map_iff in Hx.
    destruct Hx as (y & <- & Hy). specialize (H2 y Hy). clear H1.
    unfold Str.lower_ascii_char.
    destruct ((65 <=? y) && (y <=? 90))%N eqn:E.
    + unfold UrlParse.scheme_char.
      replace (UrlParse.is_lower (y + 32)%N) with true; [reflexivity |].
      symmetry. clear H2. char_arith.
    + exact H2.
Qed.

(** What [scheme_step] finds is no scheme or a valid one, and what it
    leaves is part of the URL. *)
Lemma scheme_step_inv (P : char -> Prop) (u : str) :
  Forall P u ->
  (fst (scheme_step u) = [] \/ valid_scheme (fst (scheme_step u)))
  /\ Forall P (snd (scheme_step u)).
Proof.
  intros H. unfold scheme_step. destruct u as [| c0 t]; [simpl; auto |].
  set (i := Str.find (c0 :: t) (chr ":")).
  destruct ((0 <? i)%Z && (c0 <? 128)%N
            && (UrlParse.is_upper c0 || UrlParse.is_lower c0)) eqn:E1;
    [| simpl; auto].
  destruct (forallb UrlParse.scheme_char (Str.upto (c0 :: t) i)) eqn:E2;
    [| simpl; auto].
  simpl fst. simpl snd. split.
  - right. rewrite lower_scheme by exact E2. apply valid_scheme_lower.
    split; [| exact E2].
    apply andb_true_iff in E1. destruct E1 as [E1 Hl].
    apply andb_true_iff in E1. destruct E1 as [Hi _].
    apply Z.ltb_lt in Hi. unfold Str.upto. rewrite bound_nonneg by lia.
    destruct (Z.to_nat i) as [| k] eqn:Ek; [lia |]. simpl. exact Hl.
  - unfold Str.from. apply Forall_skipn. exact H.
Qed.

Lemma valid_scheme_no_colon (s : str) :
  valid_scheme s -> Str.has s (chr ":") = false.
Proof.
  intros [_ H]. apply has_false. rewrite forallb_forall in H.
  apply Forall_forall. intros c Hc. specialize (H c Hc).
  intros ->. revert H. vm_compute. discriminate.
Qed.

(** A valid scheme followed by a colon is found. *)
Lemma scheme_step_found (s Z : str) :
  valid_scheme s ->
  scheme_step (s ++ chr ":" :: Z) = (Str.lower s, Z).
Proof.
  intros Hs. pose proof (valid_scheme_no_colon Hs) as Hc.
  destruct Hs as [H1 H2]. destruct s as [| c0 s]; [contradiction |].
  unfold scheme_step. cbn [app].
  change (c0 :: s ++ chr ":" :: Z) with ((c0 :: s) ++ chr ":" :: Z).
  unfold Str.find. rewrite index_of_app by exact Hc.
  set (n := List.length (c0 :: s)).
  assert (Hn : (0 < Z.of_nat n)%Z) by (subst n; simpl; lia).
  assert (E1 : (0 <? Z.of_nat n)%Z = true) by (apply Z.ltb_lt; exact Hn).
  assert (E2 : (c0 <? 128)%N = true).
  { simpl in H2. apply andb_true_iff in H2. destruct H2 as [H2 _]. char_arith. }
  rewrite E1, E2, H1. cbn [andb].
  assert (Eu : Str.upto ((c0 :: s) ++ chr ":" :: Z) (Z.of_nat n) = c0 :: s).
  { unfold Str.upto. rewrite bound_nonneg by lia. rewrite Nat2Z.id.
    subst n. rewrite firstn_app, Nat.sub_diag, firstn_all. simpl.
    rewrite app_nil_r. reflexivity. }
  assert (Ef : Str.from ((c0 :: s) ++ chr ":" :: Z) (Z.of_nat n + 1) = Z).
  { unfold Str.from. rewrite bound_nonneg by lia.
    replace (Z.to_nat (Z.of_nat n + 1)) with (n + 1)%nat by lia.
    subst n. rewrite skipn_app, skipn_all2 by lia.
    replace (List.length (c0 :: s) + 1 - List.length (c0 :: s))%nat with 1%nat by lia.
    reflexivity. }
  rewrite Eu, Ef, H2. reflexivity.
Qed.

(** *** The host check, the fragment and the query *)

Lemma checknetloc_clean (netloc : str) :
  Forall (fun c => clean_char c = true) netloc ->
  UrlParse._checknetloc netloc = Returns tt.
Proof.
  intros H. unfold UrlParse._checknetloc.
  rewrite (isascii_clean H), orb_true_r. reflexivity.
Qed.

Lemma split1_cut (P : char -> Prop) (u : str) (c : char) :
  Forall P u ->
  match Str.split1 u c with
  | [a; b] => Forall P a /\ Forall P b /\ Str.has a c = false
  | [a] => a = u /\ Str.has u c = false
  | _ => False
  end.
Proof.
  intros H. unfold Str.split1.
  destruct (Str.index_of c u) as [i |] eqn:E.
  - apply index_of_Some in E. destruct E as (_ & Hh & _).
    repeat split; [apply Forall_firstn | apply Forall_skipn |]; assumption.
  - split; [reflexivity | apply index_of_None; exact E].
Qed.

Lemma fragment_step_inv (P : char -> Prop) (u : str) :
  Forall P u ->
  Forall P (fst (fragment_step u))
  /\ Str.has (fst (fragment_step u)) (chr "#") = false.
Proof.
  intros H. unfold fragment_step.
  destruct (Str.has u (chr "#")) eqn:E; [| simpl; auto].
  pose proof (split1_cut (chr "#") H) as Hs.
  destruct (Str.split1 u (chr "#")) as [| a [| b [| c l]]]; try contradiction.
  - destruct Hs as [_ Hs]. congruence.
  - simpl. tauto.
Qed.

Lemma query_step_inv (P : char -> Prop) (u : str) :
  Forall P u ->
  Forall P (fst (query_step u))
  /\ Str.has (fst (query_step u)) (chr "?") = false.
Proof.
  intros H. unfold query_step.
  destruct (Str.has u (chr "?")) eqn:E; [| simpl; auto].
  pose proof (split1_cut (chr "?") H) as Hs.
  destruct (Str.split1 u (chr "?")) as [| a [| b [| c l]]]; try contradiction.
  - destruct Hs as [_ Hs]. congruence.
  - simpl. tauto.
Qed.

Lemma fragment_step_none (u : str) :
  Str.has u (chr "#") = false -> fragment_step u = (u, []).
Proof. intros H. unfold fragment_step. rewrite H. reflexivity. Qed.

Lemma query_step_none (u : str) :
  Str.has u (chr "?") = false -> query_step u = (u, []).
Proof. intros H. unfold query_step. rewrite H. reflexivity. Qed.

End StepFacts.

(** *** The host *)

Lemma find_from_2 (url : str) (c : char) :
  Str.find_from url c 2
  = match Str.index_of c (skipn 2 url) with
    | Some k => (2 + Z.of_nat k)%Z
    | None => (-1)%Z
    end.
Proof. reflexivity. Qed.

(** [_splitnetloc url 2] cuts what follows the two slashes at the first of
    [/], [?] and [#]. *)
Lemma splitnetloc_spec (url : str) :
  (2 <= List.length url)%nat ->
  exists d,
    (d <= List.length (skipn 2 url))%nat
    /\ UrlParse._splitnetloc url 2 = (firstn d (skipn 2 url), skipn d (skipn 2 url))
    /\ (forall c k, In c (lit "/?#") ->
                    Str.index_of c (skipn 2 url) = Some k -> (d <= k)%nat)
    /\ ((d < List.length (skipn 2 url))%nat ->
        exists c, In c (lit "/?#") /\ Str.index_of c (skipn 2 url) = Some d).
Proof.
  intros Hlen. set (l := skipn 2 url).
  assert (Hl : List.length l = (List.length url - 2)%nat)
    by (subst l; apply length_skipn).
  unfold UrlParse._splitnetloc.
  set (delim := fold_left _ _ _).
  assert (Hd : exists d,
             delim = (2 + Z.of_nat d)%Z
             /\ (d <= List.length l)%nat
             /\ (forall c k, In c (lit "/?#") ->
                             Str.index_of c l = Some k -> (d <= k)%nat)
             /\ ((d < List.length l)%nat ->
                 exists c, In c (lit "/?#") /\ Str.index_of c l = Some d)).
  { subst delim. cbn [fold_left lit List.map list_ascii_of_string chr].
    rewrite !find_from_2. fold l.
    change (chr "/") with 47%N. change (chr "?") with 63%N.
    change (chr "#") with 35%N.
    assert (Hk : forall c k, Str.index_of c l = Some k -> (k < List.length l)%nat)
      by (intros c k E; apply index_of_Some in E; tauto).
    destruct (Str.index_of 47%N l) as [k1 |] eqn:E1;
      destruct (Str.index_of 63%N l) as [k2 |] eqn:E2;
      destruct (Str.index_of 35%N l) as [k3 |] eqn:E3;
      try (pose proof (Hk _ _ E1)); try (pose proof (Hk _ _ E2));
      try (pose proof (Hk _ _ E3));
      repeat match goal with
      | |- context [(0 <=? 2 + Z.of_nat ?k)%Z] =>
          replace (0 <=? 2 + Z.of_nat k)%Z with true
            by (symmetry; apply Z.leb_le; lia)
      end;
      change (0 <=? -1)%Z with false; cbv iota;
      match goal with
      | |- exists d, ?e = _ /\ _ =>
          exists (Z.to_nat (e - 2)); split; [lia |]; split; [lia |]; split;
          [ intros c k [<- | [<- | [<- | []]]] Ek;
            rewrite ?E1, ?E2, ?E3 in Ek; try discriminate Ek;
            injection Ek as <-; lia
          | intros Hlt;
            repeat match goal with
            | Ea : Str.index_of _ _ = Some ?a, Eb : Str.index_of _ _ = Some ?b |- _ =>
                lazymatch a with b => fail | _ => idtac end;
                lazymatch goal with
                | _ : (a <= b)%nat |- _ => fail
                | _ : (b < a)%nat |- _ => fail
                | _ : (b <= a)%nat |- _ => fail
                | _ : (a < b)%nat |- _ => fail
                | _ => destruct (Nat.le_gt_cases a b)
                end
            end;
            first
              [ exfalso; lia
              | exists 47%N; split; [simpl; tauto |]; rewrite E1; f_equal; lia
              | exists 63%N; split; [simpl; tauto |]; rewrite E2; f_equal; lia
              | exists 35%N; split; [simpl; tauto |]; rewrite E3; f_equal; lia ] ]
      end. }
  destruct Hd as (d & Ed & Hdl & Hmin & Hex).
  exists d. split; [exact Hdl |]. split; [| split; assumption].
  rewrite Ed. unfold Str.slice, Str.from.
  rewrite !bound_nonneg by lia.
  replace (Z.to_nat (2 + Z.of_nat d) - Z.to_nat 2)%nat with d by lia.
  replace (Z.to_nat (2 + Z.of_nat d)) with (d + 2)%nat by lia.
  change (Z.to_nat 2) with 2%nat. fold l.
  rewrite <- skipn_skipn. reflexivity.
Qed.

Lemma startswith_head (c : char) (t : str) : Str.startswith (c :: t) [c] = true.
Proof. simpl. rewrite N.eqb_refl. destruct t; reflexivity. Qed.

Section HostFacts.
Context {R : PyRuntime}.

Lemma clean_no_bracket (s : str) (c : char) :
  Forall (fun c => clean_char c = true) s ->
  In c (lit "[]") ->
  Str.has s c = false.
Proof.
  intros H Hc. apply has_false. rewrite Forall_forall in *.
  intros x Hx. specialize (H x Hx). intros ->.
  simpl in Hc. destruct Hc as [<- | [<- | []]]; revert H; vm_compute; discriminate.
Qed.

(** After two slashes, the host runs to the first of [/], [?] and [#]. *)
Lemma netloc_step_slashes (rest : str) :
  Forall (fun c => clean_char c = true) rest ->
  Str.eqb (Str.upto rest 2) (lit "//") = true ->
  exists d,
    netloc_step rest
    = Returns (firstn d (skipn 2 rest), skipn d (skipn 2 rest))
    /\ (d <= List.length (skipn 2 rest))%nat
    /\ (forall c k, In c (lit "/?#") ->
                    Str.index_of c (skipn 2 rest) = Some k -> (d <= k)%nat)
    /\ ((d < List.length (skipn 2 rest))%nat ->
        exists c, In c (lit "/?#") /\ Str.index_of c (skipn 2 rest) = Some d).
Proof.
  intros H E. unfold netloc_step. rewrite E.
  assert (Hlen : (2 <= List.length rest)%nat).
  { apply Str_eqb_eq in E. apply (f_equal (@List.length _)) in E.
    unfold Str.upto in E. change (Str.bound rest 2) with 2%nat in E.
    rewrite length_firstn in E. change (List.length (lit "//")) with 2%nat in E.
    lia. }
  destruct (splitnetloc_spec rest Hlen) as (d & Hd & -> & Hmin & Hex).
  exists d. split; [| auto].
  assert (Hn : Forall (fun c => clean_char c = true) (firstn d (skipn 2 rest)))
    by (apply Forall_firstn, Forall_skipn, H).
  rewrite (clean_no_bracket (c := chr "[") Hn) by (simpl; tauto).
  rewrite (clean_no_bracket (c := chr "]") Hn) by (simpl; tauto).
  reflexivity.
Qed.

Lemma netloc_step_other (rest : str) :
  Str.eqb (Str.upto rest 2) (lit "//") = false ->
  netloc_step rest = Returns ([], rest).
Proof. intros E. unfold netloc_step. rewrite E. reflexivity. Qed.

(** The host found holds none of [/], [?] and [#]; host and rest are parts
    of the string. *)
Lemma netloc_step_inv (rest : str) :
  Forall (fun c => clean_char c = true) rest ->
  exists netloc url,
    netloc_step rest = Returns (netloc, url)
    /\ Forall (fun c => clean_char c = true) netloc
    /\ Forall (fun c => clean_char c = true) url
    /\ (forall c, In c (lit "/?#") -> Str.has netloc c = false).
Proof.
  intros H. destruct (Str.eqb (Str.upto rest 2) (lit "//")) eqn:E.
  - destruct (netloc_step_slashes H E) as (d & -> & Hd & Hmin & _).
    eexists _, _. split; [reflexivity |].
    split; [apply Forall_firstn, Forall_skipn, H |].
    split; [do 2 apply Forall_skipn; exact H |].
    intros c Hc. destruct (Str.index_of c (skipn 2 rest)) as [k |] eqn:Ek.
    + pose proof (Hmin c k Hc Ek) as Hle.
      apply index_of_Some in Ek. destruct Ek as (_ & Hh & _).
      replace d with (Nat.min d k) by lia. rewrite <- firstn_firstn.
      apply has_false. apply Forall_firstn. apply has_false. exact Hh.
    + apply index_of_None in Ek.
      apply has_false. apply Forall_firstn. apply has_false. exact Ek.
  - rewrite (netloc_step_other _ E). eexists _, _. split; [reflexivity |].
    split; [constructor |]. split; [exact H |]. reflexivity.
Qed.

(** When the string is a slash, or two slashes and more up to a last
    slash, and holds no [?] and no [#], the rest begins with a slash. *)
Lemma netloc_step_root (Z : str) :
  Forall (fun c => inner_char c = true) Z ->
  Z = lit "/" \/ (exists r, Z = lit "//" ++ r ++ lit "/") ->
  exists netloc url,
    netloc_step Z = Returns (netloc, url)
    /\ Str.startswith url (lit "/") = true
    /\ Forall (fun c => inner_char c = true) netloc
    /\ Forall (fun c => inner_char c = true) url.
Proof.
  intros H [-> | (r & ->)].
  - exists [], (lit "/"). split; [reflexivity |]. split; [reflexivity |].
    split; [constructor | exact H].
  - assert (Hc : Forall (fun c => clean_char c = true) (lit "//" ++ r ++ lit "/")).
    { eapply Forall_impl; [| exact H]. intros c. apply inner_char_clean. }
    destruct (netloc_step_slashes Hc eq_refl) as (d & E & Hd & Hmin & Hex).
    change (skipn 2 (lit "//" ++ r ++ lit "/")) with (r ++ lit "/") in *.
    set (l := r ++ lit "/") in *.
    assert (Hl : Forall (fun c => inner_char c = true) l).
    { change (lit "//" ++ r ++ lit "/") with (lit "//" ++ l) in H.
      apply Forall_app in H. tauto. }
    destruct (Str.index_of 47%N l) as [k |] eqn:Ek.
    2:{ apply index_of_None in Ek.
        assert (Hin : Str.has l 47%N = true).
        { apply has_true. subst l. apply in_or_app. right. left. reflexivity. }
        congruence. }
    pose proof (Hmin 47%N k (or_introl eq_refl) Ek) as Hle.
    pose proof (index_of_Some _ _ Ek) as (_ & _ & Hk).
    destruct Hex as (c & Hin & Ed); [lia |].
    assert (c = 47%N) as ->.
    { apply index_of_Some in Ed. destruct Ed as (Ed & _ & _).
      assert (Hcl : In c l) by (rewrite Ed; apply in_or_app; right; left; reflexivity).
      rewrite Forall_forall in Hl. specialize (Hl c Hcl).
      simpl in Hin. destruct Hin as [<- | [<- | [<- | []]]];
        [reflexivity | |]; revert Hl; vm_compute; discriminate. }
    rewrite E. eexists _, _. split; [reflexivity |].
    split; [| split; [apply Forall_firstn | apply Forall_skipn]; exact Hl].
    apply index_of_Some in Ed. destruct Ed as (Ed & _ & Hlt).
    rewrite Ed at 1. rewrite skipn_app, skipn_all2 by (rewrite length_firstn; lia).
    rewrite length_firstn. replace (d - Nat.min d (List.length l))%nat with 0%nat by lia.
    match goal with
    | |- context [[] ++ skipn 0 ?x] => change ([] ++ skipn 0 x) with x
    end.
    apply startswith_head.
Qed.

End HostFacts.

(** *** The parameters *)

Lemma splitparams_prefix (P : char -> Prop) (url : str) :
  Forall P url ->
  Forall P (fst (UrlParse._splitparams url))
  /\ Forall P (snd (UrlParse._splitparams url)).
Proof.
  intros H. unfold UrlParse._splitparams.
  destruct (Str.has url (chr "/")).
  - destruct (_ <? 0)%Z; simpl; split;
      try apply Forall_firstn; try apply Forall_skipn; auto.
  - simpl. split; [apply Forall_firstn | apply Forall_skipn]; exact H.
Qed.

Lemma rfind_found (s : str) (c : char) :
  Str.has s c = true -> (0 <= Str.rfind s c)%Z.
Proof.
  intros H. unfold Str.rfind.
  destruct (Str.index_of c (rev s)) as [i |] eqn:E.
  - apply index_of_Some in E. destruct E as (_ & _ & Hi).
    rewrite length_rev in Hi. lia.
  - apply index_of_None in E. apply has_true in H.
    apply in_rev in H. apply has_true in H. congruence.
Qed.

(** The path keeps its first slash when the parameters are cut off. *)
Lemma splitparams_root (t : str) :
  hd_error (fst (UrlParse._splitparams (chr "/" :: t))) = Some (chr "/").
Proof.
  unfold UrlParse._splitparams.
  set (url := chr "/" :: t).
  assert (Hs : Str.has url (chr "/") = true)
    by (apply has_true; left; reflexivity).
  rewrite Hs. pose proof (rfind_found _ _ Hs) as Hr.
  set (start := Str.rfind url (chr "/")) in *.
  unfold Str.find_from.
  destruct (Str.index_of (chr ";") (skipn (Z.to_nat start) url)) as [k |] eqn:Ek.
  - replace (start + Z.of_nat k <? 0)%Z with false
      by (symmetry; apply Z.ltb_ge; lia).
    simpl fst. unfold Str.upto. rewrite bound_nonneg by lia.
    destruct (Z.to_nat (start + Z.of_nat k)) as [| n] eqn:En.
    + assert (Z.to_nat start = 0%nat /\ k = 0%nat) as [Es ->] by lia.
      rewrite Es in Ek. unfold url in Ek. simpl in Ek.
      destruct (Str.index_of 59%N t); simpl in Ek; discriminate Ek.
    + reflexivity.
  - reflexivity.
Qed.

Section ParseFacts.
Context {R : PyRuntime}.

Lemma inner_of_clean (s : str) :
  Forall (fun c => clean_char c = true) s ->
  Str.has s (chr "?") = false ->
  Str.has s (chr "#") = false ->
  Forall (fun c => inner_char c = true) s.
Proof.
  intros H Hq Hf. apply has_false in Hq, Hf. rewrite Forall_forall in *.
  intros c Hc. specialize (H c Hc). specialize (Hq c Hc). specialize (Hf c Hc).
  unfold inner_char. rewrite H. simpl.
  apply N.eqb_neq in Hq, Hf.
  change (chr "?") with 63%N in Hq. change (chr "#") with 35%N in Hf.
  unfold Str.has. simpl. rewrite Hq, Hf. reflexivity.
Qed.

(** [urlsplit] of a plain URL: it returns; the scheme is valid when there
    is one; host and path hold what a URL keeps and neither [?] nor [#]. *)
Lemma urlsplit_plain (url : str) :
  Forall (fun c => plain_char c = true) url ->
  exists r,
    UrlParse.urlsplit url = Returns r
    /\ (UrlParse.split_scheme r = [] \/ valid_scheme (UrlParse.split_scheme r))
    /\ Forall (fun c => inner_char c = true) (UrlParse.split_netloc r)
    /\ Forall (fun c => inner_char c = true) (UrlParse.split_path r).
Proof.
  intros H. rewrite urlsplit_steps.
  pose proof (cleaned_clean H) as Hc.
  destruct (scheme_step_inv Hc) as [Hs Hrest].
  destruct (netloc_step_inv Hrest) as (netloc & rest & -> & Hn & Hr & Hd).
  rewrite bind_ret. simpl fst. simpl snd.
  rewrite (checknetloc_clean Hn), bind_ret.
  eexists. split; [reflexivity |]. simpl. split; [exact Hs |]. split.
  - apply inner_of_clean; [exact Hn | |]; apply Hd; simpl; tauto.
  - destruct (fragment_step_inv (P := fun c => clean_char c = true) Hr) as [Hf1 Hf2].
    apply has_false in Hf2.
    assert (Hf : Forall (fun c => clean_char c = true /\ c <> chr "#")
                   (fst (fragment_step rest))).
    { rewrite Forall_forall in *. intros c Hc'. split; auto. }
    destruct (query_step_inv Hf) as [Hq1 Hq2].
    apply inner_of_clean; [| exact Hq2 |].
    + eapply Forall_impl; [| exact Hq1]. simpl. tauto.
    + apply has_false. eapply Forall_impl; [| exact Hq1]. simpl. tauto.
Qed.

Lemma urlparse_plain (url : str) :
  Forall (fun c => plain_char c = true) url ->
  exists p,
    UrlParse.urlparse url = Returns p
    /\ (UrlParse.scheme p = [] \/ valid_scheme (UrlParse.scheme p))
    /\ Forall (fun c => inner_char c = true) (UrlParse.netloc p)
    /\ Forall (fun c => inner_char c = true) (UrlParse.path p).
Proof.
  intros H. destruct (urlsplit_plain H) as ([s n u q f] & E & Hs & Hn & Hu).
  unfold UrlParse.urlparse. rewrite E, bind_ret.
  cbn [UrlParse.split_scheme UrlParse.split_netloc UrlParse.split_path] in *.
  cbv beta iota.
  destruct (UrlParse.mem s UrlParse.uses_params && Str.has u (chr ";")).
  - pose proof (splitparams_prefix Hu) as [Hp _].
    destruct (UrlParse._splitparams u) as [u' ps]. simpl in Hp.
    eexists. split; [reflexivity |]. simpl. auto.
  - eexists. split; [reflexivity |]. simpl. auto.
Qed.

(** [urlparse] of a valid scheme, a colon and a root: the path begins with
    a slash and there is neither query nor fragment. *)
Lemma urlparse_root (s Z : str) :
  valid_scheme s ->
  Forall (fun c => inner_char c = true) Z ->
  Z = lit "/" \/ (exists r, Z = lit "//" ++ r ++ lit "/") ->
  exists p t,
    UrlParse.urlparse (s ++ chr ":" :: Z) = Returns p
    /\ UrlParse.path p = chr "/" :: t
    /\ UrlParse.query p = [] /\ UrlParse.fragment p = []
    /\ Forall (fun c => inner_char c = true) (UrlParse.path p)
    /\ Forall (fun c => inner_char c = true) (UrlParse.params p).
Proof.
  intros Hs HZ Hshape.
  assert (Hw : Forall (fun c => clean_char c = true) (s ++ chr ":" :: Z)).
  { apply Forall_app. split.
    - destruct Hs as [_ Hs]. rewrite forallb_forall in Hs.
      apply Forall_forall. intros c Hc.
      apply inner_char_clean, scheme_char_inner, Hs, Hc.
    - constructor; [reflexivity |].
      eapply Forall_impl; [| exact HZ]. intros c. apply inner_char_clean. }
  unfold UrlParse.urlparse. rewrite urlsplit_steps.
  assert (Ec : cleaned (s ++ chr ":" :: Z) = s ++ chr ":" :: Z).
  { destruct s as [| c0 s']; [destruct Hs as [[] _] |].
    apply cleaned_id; [| exact Hw].
    destruct Hs as [Hl _]. clear - Hl.
    unfold UrlParse.C0_CONTROL_OR_SPACE. char_arith. }
  rewrite Ec, (scheme_step_found Z Hs). simpl fst. simpl snd.
  destruct (netloc_step_root HZ Hshape) as (netloc & url & -> & Hu & Hn & Hin).
  rewrite bind_ret. simpl fst. simpl snd.
  assert (Hnc : Forall (fun c => clean_char c = true) netloc)
    by (eapply Forall_impl; [| exact Hn]; intros c; apply inner_char_clean).
  rewrite (checknetloc_clean Hnc), bind_ret.
  assert (Hf : Str.has url (chr "#") = false).
  { apply has_false. eapply Forall_impl; [| exact Hin].
    intros c Hc ->. revert Hc. vm_compute. discriminate. }
  assert (Hq : Str.has url (chr "?") = false).
  { apply has_false. eapply Forall_impl; [| exact Hin].
    intros c Hc ->. revert Hc. vm_compute. discriminate. }
  rewrite (fragment_step_none _ Hf). simpl fst. simpl snd.
  rewrite (query_step_none _ Hq). simpl fst. simpl snd.
  rewrite bind_ret.
  destruct url as [| c t]; [discriminate Hu |].
  assert (c = chr "/") as ->.
  { simpl in Hu. apply andb_true_iff in Hu. destruct Hu as [Hu _].
    apply N.eqb_eq in Hu. exact Hu. }
  destruct (UrlParse.mem (Str.lower s) UrlParse.uses_params
            && Str.has (chr "/" :: t) (chr ";")).
  - pose proof (splitparams_root t) as Et.
    pose proof (splitparams_prefix Hin) as [Hp1 Hp2].
    destruct (UrlParse._splitparams (chr "/" :: t)) as [[| c' t'] ps];
      simpl in Et, Hp1, Hp2; [discriminate Et |].
    injection Et as ->.
    eexists _, t'. split; [reflexivity |]. simpl. auto.
  - eexists _, t. split; [reflexivity |]. simpl.
    repeat split; auto.
Qed.

End ParseFacts.

(** *** Quoting *)

Lemma unquote_no_percent (s : str) :
  Str.has s (chr "%") = false -> Quote.unquote s = s.
Proof. intros H. unfold Quote.unquote. rewrite H. reflexivity. Qed.

Lemma utf8_encode_ascii (s : str) :
  Forall (fun c => (c <? 128)%N = true) s -> Codecs.utf8_encode s = Returns s.
Proof.
  induction 1 as [| c s Hc Hs IH]; [reflexivity |].
  simpl. unfold Codecs.utf8_encode_char. rewrite Hc, bind_ret, IH, bind_ret.
  reflexivity.
Qed.

(** Quoting keeps a first slash. *)
Lemma quote_root (t : str) :
  Forall (fun c => (c <? 128)%N = true) (chr "/" :: t) ->
  exists t', Quote.quote (chr "/" :: t) = Returns (chr "/" :: t').
Proof.
  intros H. unfold Quote.quote. cbn [Str.is_empty].
  rewrite (utf8_encode_ascii H), bind_ret.
  unfold Quote.quote_from_bytes. cbn [Str.is_empty].
  destruct (Str.is_empty _).
  - exists t. reflexivity.
  - exists (flat_map (Quote.quoter (lit "/")) t). reflexivity.
Qed.

Lemma urlunparse_path (path params : str) :
  UrlParse.urlunparse [] [] path params [] []
  = if negb (Str.is_empty params) then path ++ lit ";" ++ params else path.
Proof. unfold UrlParse.urlunparse. destruct params; reflexivity. Qed.

(** [urlunparse] of a scheme and a host alone. *)
Lemma urlunparse_origin (s n : str) :
  s <> [] ->
  exists Y,
    UrlParse.urlunparse s n [] [] [] [] = s ++ chr ":" :: Y
    /\ (Y = [] \/ Y = lit "//" ++ n).
Proof.
  intros Hs. destruct s as [| c s]; [contradiction Hs; reflexivity |].
  unfold UrlParse.urlunparse, UrlParse.urlunsplit.
  cbn [Str.is_empty negb andb].
  destruct (negb (Str.is_empty n) || _).
  - exists (lit "//" ++ n). split; [| right; reflexivity].
    rewrite app_nil_r. reflexivity.
  - exists []. split; [reflexivity | left; reflexivity].
Qed.

Section RootFacts.
Context {R : PyRuntime}.

Lemma inner_ascii (s : str) :
  Forall (fun c => inner_char c = true) s ->
  Forall (fun c => (c <? 128)%N = true) s.
Proof.
  intros H. eapply Forall_impl; [| exact H]. intros c Hc. char_arith.
Qed.

(** The path [can_fetch] looks up for a valid scheme, a colon and a root
    begins with a slash. *)
Lemma fetch_path_root (s Z : str) :
  valid_scheme s ->
  Forall (fun c => inner_char c = true) Z ->
  Z = lit "/" \/ (exists r, Z = lit "//" ++ r ++ lit "/") ->
  exists t,
    RobotFileParser.fetch_path (s ++ chr ":" :: Z) = Returns t
    /\ Str.startswith t (lit "/") = true.
Proof.
  intros Hs HZ Hshape. unfold RobotFileParser.fetch_path.
  assert (Hpc : Str.has (s ++ chr ":" :: Z) (chr "%") = false).
  { apply has_false. apply Forall_app. split.
    - destruct Hs as [_ Hs]. rewrite forallb_forall in Hs.
      apply Forall_forall. intros c Hc. specialize (Hs c Hc).
      intros ->. revert Hs. vm_compute. discriminate.
    - constructor; [discriminate |].
      eapply Forall_impl; [| exact HZ]. intros c Hc ->.
      revert Hc. vm_compute. discriminate. }
  rewrite (unquote_no_percent _ Hpc).
  destruct (urlparse_root Hs HZ Hshape) as (p & t & -> & Ep & Eq & Ef & Hp & Hps).
  rewrite bind_ret, Eq, Ef, urlunparse_path.
  set (x := if negb (Str.is_empty (UrlParse.params p)) then _ else _).
  assert (Hx : exists t0, x = chr "/" :: t0
                          /\ Forall (fun c => (c <? 128)%N = true) (chr "/" :: t0)).
  { subst x. rewrite Ep in *. destruct (negb (Str.is_empty (UrlParse.params p))).
    - eexists. split; [reflexivity |].
      pose proof (inner_ascii Hp) as Ha. inversion Ha as [| c l Hc Hl]; subst.
      constructor; [exact Hc |].
      apply Forall_app. split; [exact Hl |].
      apply Forall_app. split; [repeat constructor | apply inner_ascii, Hps].
    - exists t. split; [reflexivity | apply inner_ascii, Hp]. }
  destruct Hx as (t0 & -> & Ht0).
  destruct (quote_root Ht0) as (t' & ->).
  rewrite bind_ret. cbn [Str.is_empty].
  eexists. split; [reflexivity | apply startswith_head].
Qed.

(** The origin of a plain URL: a valid scheme, a colon, and nothing or two
    slashes and a host. *)
Lemma normalize_plain (url : str) :
  Forall (fun c => plain_char c = true) url ->
  exists s Y,
    normalize_to_origin url = Returns (s ++ chr ":" :: Y)
    /\ valid_scheme s
    /\ Forall (fun c => inner_char c = true) Y
    /\ (Y = [] \/ exists n, Y = lit "//" ++ n).
Proof.
  intros H. destruct (urlparse_plain H) as (p & E & Hs & Hn & Hp).
  unfold normalize_to_origin. rewrite E, bind_ret.
  set (s := if negb (Str.is_empty (UrlParse.scheme p)) then _ else _).
  set (n := if negb (Str.is_empty (UrlParse.netloc p)) then _ else _).
  assert (Hvs : valid_scheme s).
  { subst s. destruct Hs as [-> | Hs].
    - split; reflexivity.
    - destruct (UrlParse.scheme p); [destruct Hs as [[] _] | exact Hs]. }
  assert (Hin : Forall (fun c => inner_char c = true) n)
    by (subst n; destruct (negb (Str.is_empty (UrlParse.netloc p))); assumption).
  assert (Hne : s <> []) by (destruct Hvs as [Hv _]; destruct s; [contradiction | discriminate]).
  destruct (urlunparse_origin n Hne) as (Y & -> & HY).
  exists s, Y. split; [reflexivity |]. split; [exact Hvs |]. split.
  - destruct HY as [-> | ->]; [constructor |].
    apply Forall_app. split; [repeat constructor | exact Hin].
  - destruct HY as [-> | ->]; [left; reflexivity | right; exists n; reflexivity].
Qed.

(** For a plain URL nothing raises, and the root of its origin is looked
    up as a path that begins with a slash. *)
Lemma plain_url_root (url : str) :
  Forall (fun c => plain_char c = true) url ->
  exists o p t,
    normalize_to_origin url = Returns o
    /\ UrlParse.urlparse (robots_url_of o) = Returns p
    /\ RobotFileParser.fetch_path (Str.rstrip_chars o (lit "/") ++ lit "/")
       = Returns t
    /\ Str.startswith t (lit "/") = true.
Proof.
  intros H. destruct (normalize_plain H) as (s & Y & Eo & Hs & HY & Hshape).
  set (r := Str.rstrip_by (Str.has (lit "/")) Y).
  assert (Er : Str.rstrip_chars (s ++ chr ":" :: Y) (lit "/") = s ++ chr ":" :: r).
  { unfold Str.rstrip_chars. apply rstrip_by_app. reflexivity. }
  assert (Hr : Forall (fun c => inner_char c = true) r)
    by (apply Forall_rstrip_by, HY).
  assert (Hrs : r = [] \/ exists y, r = lit "//" ++ y).
  { destruct Hshape as [-> | (n & ->)]; [left; reflexivity |].
    destruct (rstrip_by_prefix (Str.has (lit "/")) (lit "//") n eq_refl)
      as [E | (y & _ & E)]; [left | right; exists y]; exact E. }
  assert (Hsc : Forall (fun c => inner_char c = true) (s ++ [chr ":"])).
  { apply Forall_app. split; [| repeat constructor].
    destruct Hs as [_ Hs]. rewrite forallb_forall in Hs.
    apply Forall_forall. intros c Hc. apply scheme_char_inner, Hs, Hc. }
  assert (Hplain : Forall (fun c => plain_char c = true)
                     (robots_url_of (s ++ chr ":" :: Y))).
  { unfold robots_url_of. rewrite Er.
    change (s ++ chr ":" :: r) with (s ++ [chr ":"] ++ r).
    rewrite app_assoc. apply Forall_app. split; [| repeat constructor].
    eapply Forall_impl; [| apply Forall_app; split; [exact Hsc | exact Hr]].
    intros c Hc. apply clean_char_plain, inner_char_clean, Hc. }
  destruct (urlparse_plain Hplain) as (p & Ep & _).
  assert (HZ : Forall (fun c => inner_char c = true) (r ++ lit "/"))
    by (apply Forall_app; split; [exact Hr | repeat constructor]).
  assert (Hroot : r ++ lit "/" = lit "/"
                  \/ exists y, r ++ lit "/" = lit "//" ++ y ++ lit "/").
  { destruct Hrs as [-> | (y & ->)]; [left; reflexivity |].
    right. exists y. rewrite <- app_assoc. reflexivity. }
  destruct (fetch_path_root Hs HZ Hroot) as (t & Et & Ht).
  exists (s ++ chr ":" :: Y), p, t. split; [exact Eo |]. split; [exact Ep |].
  split; [| exact Ht].
  rewrite Er. rewrite <- Et. f_equal. rewrite <- app_assoc. reflexivity.
Qed.

End RootFacts.

(** ** The origin of a URL with a host *)

Section OriginFacts.
Context {R : PyRuntime}.

(** The host that [netloc_step] returns holds none of [/], [?] and [#]. *)
Lemma netloc_step_no_delim (rest netloc url : str) :
  netloc_step rest = Returns (netloc, url) ->
  forall c, In c (lit "/?#") -> Str.has netloc c = false.
Proof.
  unfold netloc_step. intros H c Hc.
  destruct (Str.eqb (Str.upto rest 2) (lit "//")) eqn:E.
  - assert (Hlen : (2 <= List.length rest)%nat).
    { apply Str_eqb_eq in E. apply (f_equal (@List.length _)) in E.
      unfold Str.upto in E. change (Str.bound rest 2) with 2%nat in E.
      rewrite length_firstn in E. change (List.length (lit "//")) with 2%nat in E.
      lia. }
    destruct (splitnetloc_spec rest Hlen) as (d & Hd & Es & Hmin & _).
    rewrite Es in H.
    apply bind_Returns in H. destruct H as (_ & _ & H).
    apply bind_Returns in H. destruct H as (_ & _ & H).
    injection H as <- <-.
    destruct (Str.index_of c (skipn 2 rest)) as [k |] eqn:Ek.
    + pose proof (Hmin c k Hc Ek) as Hle.
      apply index_of_Some in Ek. destruct Ek as (_ & Hh & _).
      replace d with (Nat.min d k) by lia. rewrite <- firstn_firstn.
      apply has_false. apply Forall_firstn. apply has_false. exact Hh.
    + apply index_of_None in Ek.
      apply has_false. apply Forall_firstn. apply has_false. exact Ek.
  - injection H as <- <-. reflexivity.
Qed.

(** The host that [urlparse] returns holds none of [/], [?] and [#]. *)
Lemma urlparse_netloc_no_delim (url : str) (p : UrlParse.ParseResult) :
  UrlParse.urlparse url = Returns p ->
  forall c, In c (lit "/?#") -> Str.has (UrlParse.netloc p) c = false.
Proof.
  unfold UrlParse.urlparse. intros H.
  apply bind_Returns in H. destruct H as ([s n u q f] & Hs & H).
  rewrite urlsplit_steps in Hs.
  apply bind_Returns in Hs. destruct Hs as ([n' u'] & Hn & Hs).
  apply bind_Returns in Hs. destruct Hs as (_ & _ & Hs).
  injection Hs as _ <- _ _ _.
  cbv beta iota in H.
  destruct (UrlParse.mem s UrlParse.uses_params && Str.has u (chr ";"));
    [destruct (UrlParse._splitparams u) |]; injection H as <-;
    exact (netloc_step_no_delim _ Hn).
Qed.

(** For a URL with a host, [normalize_to_origin] returns the scheme
    ([https] by default) and the host, in which there is no path, query or
    fragment. *)
Lemma normalize_to_origin_of_host (url : str) (p : UrlParse.ParseResult) :
  UrlParse.urlparse url = Returns p ->
  UrlParse.netloc p <> [] ->
  normalize_to_origin url
  = Returns ((if Str.is_empty (UrlParse.scheme p) then lit "https"
              else UrlParse.scheme p)
             ++ lit "://" ++ UrlParse.netloc p)
  /\ forall c, In c (lit "/?#") -> Str.has (UrlParse.netloc p) c = false.
Proof.
  intros Hp Hn. split.
  - apply normalize_to_origin_with_host; assumption.
  - apply urlparse_netloc_no_delim with (url := url). exact Hp.
Qed.

End OriginFacts.

(** ** The two robots.txt files of the specification *)

Section Robots.
Context {R : PyRuntime}.

Lemma parse_gptbot_blocked u p :
  RobotFileParser.parse (fresh_parser u p) (Str.splitlines gptbot_blocked_txt)
  = (RobotFileParser.mk [gptbot_entry] [] None false false u
       (UrlParse.netloc p) (UrlParse.path p) true, None).
Proof. vm_compute. reflexivity. Qed.

Lemma parse_all_allowed u p :
  RobotFileParser.parse (fresh_parser u p) (Str.splitlines all_allowed_txt)
  = (RobotFileParser.mk [] [] (Some star_entry) false false u
       (UrlParse.netloc p) (UrlParse.path p) true, None).
Proof. vm_compute. reflexivity. Qed.

(** [can_fetch] on a parser that has parsed a file: the first entry that
    applies to the agent decides, then the default entry, on the path of
    the URL. *)
Lemma can_fetch_parsed rp useragent url t :
  RobotFileParser.disallow_all rp = false ->
  RobotFileParser.allow_all rp = false ->
  RobotFileParser.last_checked rp = true ->
  RobotFileParser.fetch_path url = Returns t ->
  RobotFileParser.can_fetch rp useragent url
  = Returns
      match RobotFileParser.first_entry (RobotFileParser.entries rp) useragent with
      | Some e => Entry.allowance e t
      | None =>
          match RobotFileParser.default_entry rp with
          | Some e => Entry.allowance e t
          | None => true
          end
      end.
Proof.
  intros Hd Ha Hl Hp. unfold RobotFileParser.can_fetch.
  rewrite Hd, Ha, Hl, Hp. simpl.
  destruct (RobotFileParser.first_entry _ _); [reflexivity |].
  destruct (RobotFileParser.default_entry rp); reflexivity.
Qed.

Lemma gptbot_entry_applies :
  Entry.applies_to gptbot_entry (lit "GPTBot") = true.
Proof. vm_compute. reflexivity. Qed.

Lemma gptbot_entry_allowance t :
  Entry.allowance gptbot_entry t = negb (Str.startswith t (lit "/")).
Proof.
  unfold Entry.allowance, gptbot_entry. simpl.
  unfold RuleLine.applies_to. simpl.
  destruct (Str.startswith t (lit "/")); reflexivity.
Qed.

Lemma star_entry_allowance t : Entry.allowance star_entry t = true.
Proof.
  unfold Entry.allowance, star_entry. simpl.
  destruct (RuleLine.applies_to _ t); reflexivity.
Qed.

Variable requests_get : str -> fetched.

(** The two files, for a request whose URL has an origin, a robots.txt URL
    that parses and a root that [can_fetch] looks up as a path [t]; the
    first needs [t] to begin with a slash, which the rule "Disallow: /"
    matches by prefix. *)
Lemma robots_txt_examples_at_root url includeRobotsTxt o p t :
  normalize_to_origin url = Returns o ->
  UrlParse.urlparse (robots_url_of o) = Returns p ->
  RobotFileParser.fetch_path (Str.rstrip_chars o (lit "/") ++ lit "/") = Returns t ->
  (Str.startswith t (lit "/") = true ->
   requests_get (robots_url_of o) = Response 200%Z gptbot_blocked_txt ->
   check_ai_bot_block requests_get url [lit "GPTBot"] includeRobotsTxt
   = Returns (mkCheckResponse true (robots_url_of o) (Some 200%Z)
                [lit "GPTBot"]
                [mkBotResult (lit "GPTBot") false false None]
                (if includeRobotsTxt then Some gptbot_blocked_txt else None) []))
  /\ (requests_get (robots_url_of o) = Response 200%Z all_allowed_txt ->
      check_ai_bot_block requests_get url [lit "GPTBot"; lit "ClaudeBot"]
        includeRobotsTxt
      = Returns (mkCheckResponse true (robots_url_of o) (Some 200%Z)
                   []
                   [mkBotResult (lit "GPTBot") true true None;
                    mkBotResult (lit "ClaudeBot") true true None]
                   (if includeRobotsTxt then Some all_allowed_txt else None) [])).
Proof.
  intros Ho Hp Ht. split.
  - intros Hs Hget.
    rewrite (@found_response R requests_get url [lit "GPTBot"] includeRobotsTxt
               o gptbot_blocked_txt p
               [mkBotResult (lit "GPTBot") false false None] [lit "GPTBot"]
               Ho Hget eq_refl Hp).
    + rewrite parse_gptbot_blocked. reflexivity.
    + rewrite parse_gptbot_blocked. simpl fst. cbn [check_bots].
      rewrite can_fetch_parsed with (t := t) by (reflexivity || exact Ht).
      rewrite bind_ret.
      cbn [RobotFileParser.entries RobotFileParser.first_entry].
      rewrite gptbot_entry_applies, gptbot_entry_allowance, Hs.
      reflexivity.
  - intros Hget.
    rewrite (@found_response R requests_get url [lit "GPTBot"; lit "ClaudeBot"]
               includeRobotsTxt o all_allowed_txt p
               [mkBotResult (lit "GPTBot") true true None;
                mkBotResult (lit "ClaudeBot") true true None] []
               Ho Hget eq_refl Hp).
    + rewrite parse_all_allowed. reflexivity.
    + rewrite parse_all_allowed. simpl fst. cbn [check_bots].
      rewrite !can_fetch_parsed with (t := t) by (reflexivity || exact Ht).
      rewrite !bind_ret.
      cbn [RobotFileParser.entries RobotFileParser.first_entry
           RobotFileParser.default_entry].
      rewrite star_entry_allowance.
      reflexivity.
Qed.

End Robots.

(** ** The claims on concrete requests *)

Lemma blockedBots_exact_witness :
  blockedBots example_found
  = List.map userAgent (filter is_blocked (results example_found))
  /\ selection (blockedBots example_found) example_bots
  /\ List.map userAgent (results example_found) = example_bots.
Proof.
  assert (E : @check_ai_bot_block ascii_runtime (serves 200 gptbot_blocked_txt)
                example_url example_bots true = Returns example_found)
    by (vm_compute; reflexivity).
  destruct (@blockedBots_exact ascii_runtime _ _ _ _ _ E) as (H1 & _ & H3 & H4).
  split; [exact H1 |]. split; [exact H3 |]. apply H4. reflexivity.
Defined.

(** C2 as stated fails: when the fetch raises, the response has no result,
    however many bots were requested. *)
Lemma results_length_counterexample :
  exists resp,
    @check_ai_bot_block ascii_runtime (unreachable (lit "ConnectTimeout"))
      example_url example_bots true = Returns resp
    /\ List.length (results resp) <> List.length example_bots.
Proof.
  eexists. split; [vm_compute; reflexivity |]. simpl. discriminate.
Qed.

Lemma results_follow_bots_witness :
  List.length (results example_found) = List.length example_bots
  /\ nth_error (List.map userAgent (results example_found)) 1
     = nth_error example_bots 1.
Proof.
  assert (E : @check_ai_bot_block ascii_runtime (serves 200 gptbot_blocked_txt)
                example_url example_bots true = Returns example_found)
    by (vm_compute; reflexivity).
  destruct (@results_follow_bots ascii_runtime _ _ _ _ _ E) as [H _].
  destruct (H eq_refl) as [Hlen Hnth]. split; [exact Hlen | apply Hnth].
Defined.

Lemma fetch_error_response_witness :
  @check_ai_bot_block ascii_runtime (unreachable (lit "ConnectTimeout"))
    example_url example_bots true
  = Returns (mkCheckResponse false (lit "https://example.com/robots.txt") None
               [] [] None [lit "Fetch error: ConnectTimeout"]).
Proof.
  apply (@fetch_error_response ascii_runtime
           (unreachable (lit "ConnectTimeout")) example_url example_bots true
           example_origin (lit "ConnectTimeout")).
  - vm_compute. reflexivity.
  - reflexivity.
Defined.

Lemma not_found_response_witness :
  @check_ai_bot_block ascii_runtime (serves 404 (lit "Not Found"))
    example_url example_bots true
  = Returns (mkCheckResponse false (lit "https://example.com/robots.txt")
               (Some 404%Z) [] [] None []).
Proof.
  apply (@not_found_response ascii_runtime (serves 404 (lit "Not Found"))
           example_url example_bots true example_origin 404%Z (lit "Not Found")).
  - vm_compute. reflexivity.
  - reflexivity.
  - left. discriminate.
Defined.

Lemma canFetchSitewide_is_canFetchRoot_witness :
  canFetchSitewide (mkBotResult (lit "GPTBot") false false None)
  = canFetchRoot (mkBotResult (lit "GPTBot") false false None).
Proof.
  apply (@canFetchSitewide_is_canFetchRoot ascii_runtime
           (serves 200 gptbot_blocked_txt) example_url example_bots true
           example_found).
  - vm_compute. reflexivity.
  - left. reflexivity.
Defined.

Lemma robotsTxt_present_iff_witness :
  robotsTxt example_found = Some gptbot_blocked_txt.
Proof.
  assert (E : @check_endpoint ascii_runtime (serves 200 gptbot_blocked_txt)
                example_url (Some example_bots) None = Returns example_found)
    by (vm_compute; reflexivity).
  destruct (@robotsTxt_present_iff ascii_runtime _ _ _ _ _ E) as [H _].
  destruct H as (o & text & _ & Hget & Htxt).
  - split; [reflexivity | discriminate].
  - rewrite Htxt. unfold serves in Hget. congruence.
Defined.

Lemma found_means_200_nonempty_witness :
  statusCode example_found = Some 200%Z.
Proof.
  apply (@found_means_200_nonempty ascii_runtime
           (serves 200 gptbot_blocked_txt) example_url example_bots true
           example_found).
  - vm_compute. reflexivity.
  - reflexivity.
Defined.

Lemma robotsUrl_from_origin_witness :
  exists o,
    @normalize_to_origin ascii_runtime example_url = Returns o
    /\ robotsUrl example_found = Str.rstrip_chars o (lit "/") ++ lit "/robots.txt".
Proof.
  apply (@robotsUrl_from_origin ascii_runtime (serves 200 gptbot_blocked_txt)
           example_url example_bots true example_found).
  vm_compute. reflexivity.
Defined.

(** * Further properties *)

(** ** The handler, equation by equation *)

Section HandlerEquation.
Context {R : PyRuntime}.
Variable requests_get : str -> fetched.

Lemma check_bots_acc rp origin bots :
  forall results blocked,
    check_bots rp origin bots results blocked
    = (r <- check_bots rp origin bots [] [] ;;
       Returns (results ++ fst r, blocked ++ snd r)).
Proof.
  induction bots as [| ua bots IH]; intros results blocked; simpl.
  - rewrite !app_nil_r. reflexivity.
  - destruct (RobotFileParser.can_fetch rp ua (origin ++ lit "/")) as [b | e];
      simpl; [| reflexivity].
    rewrite IH.
    rewrite (IH [mkBotResult ua b b None] (if negb b then [ua] else [])).
    destruct (check_bots rp origin bots [] []) as [[rs bl] | e]; simpl;
      [| reflexivity].
    destruct b; simpl; rewrite <- ?app_assoc; reflexivity.
Qed.

Lemma check_bots_app rp origin b1 b2 :
  check_bots rp origin (b1 ++ b2) [] []
  = (r1 <- check_bots rp origin b1 [] [] ;;
     r2 <- check_bots rp origin b2 [] [] ;;
     Returns (fst r1 ++ fst r2, snd r1 ++ snd r2)).
Proof.
  induction b1 as [| ua b1 IH]; simpl.
  - destruct (check_bots rp origin b2 [] []) as [[rs bl] | e]; reflexivity.
  - destruct (RobotFileParser.can_fetch rp ua (origin ++ lit "/")) as [b | e];
      simpl; [| reflexivity].
    rewrite (check_bots_acc rp origin (b1 ++ b2)), IH.
    rewrite (check_bots_acc rp origin b1
               [mkBotResult ua b b None] (if negb b then [ua] else [])).
    destruct (check_bots rp origin b1 [] []) as [[rs1 bl1] | e]; simpl;
      [| reflexivity].
    destruct (check_bots rp origin b2 [] []) as [[rs2 bl2] | e]; simpl;
      [| reflexivity].
    destruct b; simpl; rewrite <- ?app_assoc; reflexivity.
Qed.

(** The handler with the parser's construction resolved: [RobotFileParser()]
    never fails and [set_url] fails only when [urlparse] does. *)
Lemma check_ai_bot_block_eq url bots includeRobotsTxt :
  check_ai_bot_block requests_get url bots includeRobotsTxt
  = (o <- normalize_to_origin url ;;
     match requests_get (robots_url_of o) with
     | OtherException cls => Raises cls
     | RequestException cls =>
         Returns (mkCheckResponse false (robots_url_of o) None [] [] None
                    [lit "Fetch error: " ++ cls])
     | Response status text =>
         if negb (status =? 200)%Z || Str.is_empty (Str.strip text) then
           Returns (mkCheckResponse false (robots_url_of o) (Some status)
                      [] [] None [])
         else
           p <- UrlParse.urlparse (robots_url_of o) ;;
           let pr := RobotFileParser.parse (fresh_parser (robots_url_of o) p)
                       (Str.splitlines text) in
           r <- check_bots (fst pr) (Str.rstrip_chars o (lit "/")) bots [] [] ;;
           Returns (mkCheckResponse true (robots_url_of o) (Some status)
                      (snd r) (fst r)
                      (if includeRobotsTxt then Some text else None)
                      (match snd pr with
                       | Some cls => [lit "Parse warning: " ++ cls]
                       | None => []
                       end))
     end).
Proof.
  unfold check_ai_bot_block.
  destruct (normalize_to_origin url) as [o | e]; [| reflexivity].
  rewrite !bind_ret. cbv zeta. fold (robots_url_of o).
  destruct (requests_get (robots_url_of o)) as [status text | cls | cls];
    try reflexivity.
  destruct (negb (status =? 200)%Z || Str.is_empty (Str.strip text));
    [reflexivity |].
  rewrite RobotFileParser_init_eq, bind_ret.
  unfold RobotFileParser.set_url.
  destruct (UrlParse.urlparse (robots_url_of o)) as [p | e]; [| reflexivity].
  rewrite !bind_ret.
  change (RobotFileParser.mk _ _ _ _ _ (robots_url_of o) _ _ _)
    with (fresh_parser (robots_url_of o) p).
  destruct (RobotFileParser.parse (fresh_parser (robots_url_of o) p)
              (Str.splitlines text)) as [rp exc].
  cbv beta iota. simpl fst. simpl snd.
  destruct (check_bots rp (Str.rstrip_chars o (lit "/")) bots [] [])
    as [[rs bl] | e]; [| reflexivity].
  rewrite !bind_ret. simpl fst. simpl snd.
  destruct exc; reflexivity.
Qed.

End HandlerEquation.

(** ** What the parser keeps through [parse] *)

Section ParserFlags.
Context {R : PyRuntime}.

Lemma add_entry_flags rp e :
  RobotFileParser.disallow_all (RobotFileParser._add_entry rp e)
  = RobotFileParser.disallow_all rp
  /\ RobotFileParser.allow_all (RobotFileParser._add_entry rp e)
     = RobotFileParser.allow_all rp
  /\ RobotFileParser.last_checked (RobotFileParser._add_entry rp e)
     = RobotFileParser.last_checked rp.
Proof.
  unfold RobotFileParser._add_entry.
  destruct (UrlParse.mem (lit "*") (Entry.useragents e));
    [destruct (RobotFileParser.default_entry rp) |]; simpl; auto.
Qed.

Lemma parse_line_flags l line l' :
  RobotFileParser.parse_line l line = Returns l' ->
  RobotFileParser.disallow_all (RobotFileParser.self l')
  = RobotFileParser.disallow_all (RobotFileParser.self l)
  /\ RobotFileParser.allow_all (RobotFileParser.self l')
     = RobotFileParser.allow_all (RobotFileParser.self l)
  /\ RobotFileParser.last_checked (RobotFileParser.self l')
     = RobotFileParser.last_checked (RobotFileParser.self l).
Proof.
  unfold RobotFileParser.parse_line.
  set (l0 := if Str.is_empty line then _ else _).
  assert (H0 : RobotFileParser.disallow_all (RobotFileParser.self l0)
               = RobotFileParser.disallow_all (RobotFileParser.self l)
               /\ RobotFileParser.allow_all (RobotFileParser.self l0)
                  = RobotFileParser.allow_all (RobotFileParser.self l)
               /\ RobotFileParser.last_checked (RobotFileParser.self l0)
                  = RobotFileParser.last_checked (RobotFileParser.self l)).
  { unfold l0. destruct (Str.is_empty line); [| auto].
    destruct (RobotFileParser.state l =? 1)%Z; [simpl; auto |].
    destruct (RobotFileParser.state l =? 2)%Z; [| auto].
    simpl. apply add_entry_flags. }
  destruct H0 as (Hd & Ha & Hl). rewrite <- Hd, <- Ha, <- Hl.
  clearbody l0. clear Hd Ha Hl l.
  cbv zeta. unfold bind.
  repeat match goal with
         | |- context [match ?c with _ => _ end] => destruct c
         end;
    simpl; intros H; try discriminate H; injection H as <-; simpl; auto;
    apply add_entry_flags.
Qed.

Lemma parse_lines_flags lines :
  forall l,
    RobotFileParser.disallow_all (fst (RobotFileParser.parse_lines l lines))
    = RobotFileParser.disallow_all (RobotFileParser.self l)
    /\ RobotFileParser.allow_all (fst (RobotFileParser.parse_lines l lines))
       = RobotFileParser.allow_all (RobotFileParser.self l)
    /\ RobotFileParser.last_checked (fst (RobotFileParser.parse_lines l lines))
       = RobotFileParser.last_checked (RobotFileParser.self l).
Proof.
  induction lines as [| line lines IH]; intros l; simpl.
  - destruct (RobotFileParser.state l =? 2)%Z; simpl; auto.
    apply add_entry_flags.
  - destruct (RobotFileParser.parse_line l line) as [l' | e] eqn:E; simpl; auto.
    destruct (IH l') as (Hd & Ha & Hl).
    destruct (parse_line_flags _ _ E) as (Hd' & Ha' & Hl').
    rewrite Hd, Ha, Hl. auto.
Qed.

(** After [parse], whether it raised or not, the parser has been marked as
    checked and neither [disallow_all] nor [allow_all] is set. *)
Lemma parse_fresh_flags u p lines :
  RobotFileParser.disallow_all
    (fst (RobotFileParser.parse (fresh_parser u p) lines)) = false
  /\ RobotFileParser.allow_all
       (fst (RobotFileParser.parse (fresh_parser u p) lines)) = false
  /\ RobotFileParser.last_checked
       (fst (RobotFileParser.parse (fresh_parser u p) lines)) = true.
Proof.
  unfold RobotFileParser.parse.
  destruct (parse_lines_flags lines
              (RobotFileParser.mkScan
                 (RobotFileParser.modified (fresh_parser u p)) 0 Entry.init))
    as (Hd & Ha & Hl).
  rewrite Hd, Ha, Hl. simpl. auto.
Qed.

End ParserFlags.

(** ** The responses *)

Lemma lstrip_by_head (p : char -> bool) (s : str) (c : char) (t : str) :
  Str.lstrip_by p s = c :: t -> p c = false.
Proof.
  induction s as [| x s IH]; simpl; [discriminate |].
  destruct (p x) eqn:E; [exact IH |].
  intros H. injection H as <- _. exact E.
Qed.

Lemma rstrip_by_last (p : char -> bool) (s t : str) (c : char) :
  Str.rstrip_by p s = t ++ [c] -> p c = false.
Proof.
  unfold Str.rstrip_by. intros H.
  apply (f_equal (@rev char)) in H. rewrite rev_involutive, rev_app_distr in H.
  simpl in H. exact (lstrip_by_head _ _ H).
Qed.

Section Responses.
Context {R : PyRuntime}.

Lemma can_fetch_raises rp ua url e :
  RobotFileParser.disallow_all rp = false ->
  RobotFileParser.allow_all rp = false ->
  RobotFileParser.last_checked rp = true ->
  (RobotFileParser.can_fetch rp ua url = Raises e
   <-> RobotFileParser.fetch_path url = Raises e).
Proof.
  intros Hd Ha Hl. unfold RobotFileParser.can_fetch. rewrite Hd, Ha, Hl. simpl.
  destruct (RobotFileParser.fetch_path url) as [t | e']; simpl.
  - split; [| discriminate].
    destruct (RobotFileParser.first_entry (RobotFileParser.entries rp) ua);
      [discriminate |].
    destruct (RobotFileParser.default_entry rp); discriminate.
  - split; intros H; injection H as ->; reflexivity.
Qed.

Lemma check_bots_raises rp origin bots e :
  RobotFileParser.disallow_all rp = false ->
  RobotFileParser.allow_all rp = false ->
  RobotFileParser.last_checked rp = true ->
  forall results blocked,
    check_bots rp origin bots results blocked = Raises e
    <-> bots <> [] /\ RobotFileParser.fetch_path (origin ++ lit "/") = Raises e.
Proof.
  intros Hd Ha Hl.
  induction bots as [| ua bots IH]; intros results blocked; simpl.
  - split; [discriminate | intros [H _]; contradiction H; reflexivity].
  - destruct (RobotFileParser.can_fetch rp ua (origin ++ lit "/")) as [b | e']
      eqn:E; simpl.
    + rewrite IH. split; [intros [_ H] | intros [_ H]].
      * split; [discriminate | exact H].
      * apply (can_fetch_raises rp ua (origin ++ lit "/") e Hd Ha Hl) in H.
        rewrite E in H. discriminate H.
    + apply (can_fetch_raises rp ua (origin ++ lit "/") e' Hd Ha Hl) in E.
      split.
      * intros H. injection H as <-. split; [discriminate | exact E].
      * intros [_ H]. rewrite E in H. injection H as ->. reflexivity.
Qed.

Variable requests_get : str -> fetched.

(** X1. An exception leaves the handler in exactly four situations:
    [normalize_to_origin] raises; [requests.get] raises something that is
    no [RequestException]; robots.txt was found and [set_url] cannot parse
    its URL; robots.txt was found, a bot is asked about, and [can_fetch]
    cannot put the root URL in the form it looks up. *)
Theorem uncaught_exceptions url bots includeRobotsTxt e :
  check_ai_bot_block requests_get url bots includeRobotsTxt = Raises e
  <-> normalize_to_origin url = Raises e
      \/ exists o,
           normalize_to_origin url = Returns o
           /\ (requests_get (robots_url_of o) = OtherException e
               \/ exists text,
                    requests_get (robots_url_of o) = Response 200%Z text
                    /\ Str.strip text <> []
                    /\ (UrlParse.urlparse (robots_url_of o) = Raises e
                        \/ (exists p, UrlParse.urlparse (robots_url_of o) = Returns p)
                           /\ bots <> []
                           /\ RobotFileParser.fetch_path
                                (Str.rstrip_chars o (lit "/") ++ lit "/")
                              = Raises e)).
Proof.
  rewrite check_ai_bot_block_eq.
  destruct (normalize_to_origin url) as [o | e0]; simpl.
  2: { split.
       - intros H. left. congruence.
       - intros [H | (o & H & _)]; [congruence | discriminate H]. }
  split.
  - intros H. right. exists o. split; [reflexivity |].
    destruct (requests_get (robots_url_of o)) as [status text | cls | cls];
      [| discriminate H | left; congruence].
    right.
    destruct (negb (status =? 200)%Z || Str.is_empty (Str.strip text)) eqn:Hc;
      [discriminate H |].
    apply orb_false_iff in Hc. destruct Hc as [Hs Hne].
    apply negb_false_iff, Z.eqb_eq in Hs. subst status.
    exists text. split; [reflexivity |]. split.
    { intros E. rewrite E in Hne. discriminate Hne. }
    destruct (UrlParse.urlparse (robots_url_of o)) as [p | e1]; simpl in H.
    + right. split; [exists p; reflexivity |].
      destruct (parse_fresh_flags (robots_url_of o) p (Str.splitlines text))
        as (Hd & Ha & Hl).
      destruct (check_bots _ _ bots [] []) as [r | e2] eqn:Hloop;
        [discriminate H |].
      injection H as ->.
      apply (check_bots_raises _ _ bots e Hd Ha Hl) in Hloop. exact Hloop.
    + left. congruence.
  - intros [H | (o' & Ho & H)]; [discriminate H |].
    injection Ho as <-.
    destruct H as [H | (text & Hget & Hne & H)]; [rewrite H; reflexivity |].
    rewrite Hget.
    assert (Hc : negb (200 =? 200)%Z || Str.is_empty (Str.strip text) = false).
    { destruct (Str.strip text); [contradiction Hne; reflexivity | reflexivity]. }
    rewrite Hc.
    destruct H as [H | ((p & Hp) & Hb & H)]; [rewrite H; reflexivity |].
    rewrite Hp. simpl.
    destruct (parse_fresh_flags (robots_url_of o) p (Str.splitlines text))
      as (Hd & Ha & Hl).
    assert (Hloop := proj2 (check_bots_raises _ _ bots e Hd Ha Hl [] [])
                       (conj Hb H)).
    rewrite Hloop. reflexivity.
Qed.

(** X2. [statusCode] is null exactly when the fetch raised, and then the one
    warning names the error; a response has at most one warning: none, the
    fetch error, or, only with [robotsTxtFound = true], the parse warning. *)
Theorem warnings_and_status url bots includeRobotsTxt resp :
  check_ai_bot_block requests_get url bots includeRobotsTxt = Returns resp ->
  (statusCode resp = None
   <-> exists cls,
         requests_get (robotsUrl resp) = RequestException cls
         /\ warnings resp = [lit "Fetch error: " ++ cls])
  /\ (warnings resp = []
      \/ (exists cls, warnings resp = [lit "Fetch error: " ++ cls]
                      /\ robotsTxtFound resp = false)
      \/ (exists cls, warnings resp = [lit "Parse warning: " ++ cls]
                      /\ robotsTxtFound resp = true)).
Proof.
  intros H. apply check_ai_bot_block_cases in H.
  destruct H as [o cls Ho Hget | o status text Ho Hget _
                | o text rp0 rp1 rp exc new Ho Hget _ _ _ _ _ _]; simpl.
  - split.
    + split; [intros _; exists cls; auto | reflexivity].
    + right. left. exists cls. auto.
  - split; [| left; reflexivity].
    split; [discriminate |]. intros (cls & _ & H). discriminate H.
  - split.
    + split; [discriminate |]. intros (cls & _ & H).
      destruct exc; discriminate H.
    + destruct exc as [cls |]; [| left; reflexivity].
      right. right. exists cls. auto.
Qed.

(** X3. No result ever carries a note. *)
Theorem notes_always_null url bots includeRobotsTxt resp :
  check_ai_bot_block requests_get url bots includeRobotsTxt = Returns resp ->
  forall r, In r (results resp) -> notes r = None.
Proof.
  intros H r Hin. apply check_ai_bot_block_cases in H.
  destruct H as [o cls _ _ | o status text _ _ _
                | o text rp0 rp1 rp exc new _ _ _ _ _ _ _ Hall];
    simpl in Hin; try contradiction.
  rewrite Forall_forall in Hall. apply Hall in Hin.
  destruct Hin as (_ & _ & Hn). exact Hn.
Qed.

(** X4. [robotsUrl] never has two slashes before [robots.txt]: what precedes
    "/robots.txt" does not end with a slash. *)
Theorem robotsUrl_single_slash url bots includeRobotsTxt resp :
  check_ai_bot_block requests_get url bots includeRobotsTxt = Returns resp ->
  exists origin,
    robotsUrl resp = origin ++ lit "/robots.txt"
    /\ forall s, origin <> s ++ lit "/".
Proof.
  intros H. apply check_ai_bot_block_cases in H.
  assert (E : exists o, robotsUrl resp = robots_url_of o).
  { destruct H; eexists; reflexivity. }
  destruct E as (o & ->). exists (Str.rstrip_chars o (lit "/")).
  split; [reflexivity |].
  intros s E. apply rstrip_by_last in E. discriminate E.
Qed.

(** X5. [includeRobotsTxt] decides whether the text is echoed and nothing else:
    the request with [includeRobotsTxt=false] raises when the other raises
    and otherwise returns the same response with [robotsTxt] null. *)
Theorem includeRobotsTxt_only_hides_the_text url bots includeRobotsTxt :
  check_ai_bot_block requests_get url bots false
  = (r <- check_ai_bot_block requests_get url bots includeRobotsTxt ;;
     Returns (mkCheckResponse (robotsTxtFound r) (robotsUrl r) (statusCode r)
                (blockedBots r) (results r) None (warnings r))).
Proof.
  rewrite !check_ai_bot_block_eq.
  destruct (normalize_to_origin url) as [o | e]; [| reflexivity]. simpl.
  destruct (requests_get (robots_url_of o)) as [status text | cls | cls];
    try reflexivity.
  destruct (negb (status =? 200)%Z || Str.is_empty (Str.strip text));
    [reflexivity |].
  destruct (UrlParse.urlparse (robots_url_of o)) as [p | e]; [| reflexivity].
  simpl.
  destruct (check_bots _ _ bots [] []) as [[rs bl] | e]; reflexivity.
Qed.

(** X6. Asking about two lists of bots at once gives the results of the first
    followed by those of the second, and so for [blockedBots]; the other
    fields do not depend on the bots. *)
Theorem bots_lists_concatenate url bots1 bots2 includeRobotsTxt resp1 resp2 :
  check_ai_bot_block requests_get url bots1 includeRobotsTxt = Returns resp1 ->
  check_ai_bot_block requests_get url bots2 includeRobotsTxt = Returns resp2 ->
  check_ai_bot_block requests_get url (bots1 ++ bots2) includeRobotsTxt
  = Returns (mkCheckResponse (robotsTxtFound resp1) (robotsUrl resp1)
               (statusCode resp1)
               (blockedBots resp1 ++ blockedBots resp2)
               (results resp1 ++ results resp2)
               (robotsTxt resp1) (warnings resp1)).
Proof.
  rewrite !check_ai_bot_block_eq.
  destruct (normalize_to_origin url) as [o | e]; [| discriminate]. simpl.
  destruct (requests_get (robots_url_of o)) as [status text | cls | cls];
    [| intros H1 H2; injection H1 as <-; injection H2 as <-; reflexivity
     | discriminate].
  destruct (negb (status =? 200)%Z || Str.is_empty (Str.strip text));
    [intros H1 H2; injection H1 as <-; injection H2 as <-; reflexivity |].
  destruct (UrlParse.urlparse (robots_url_of o)) as [p | e]; [| discriminate].
  simpl. rewrite check_bots_app.
  destruct (check_bots _ _ bots1 [] []) as [[rs1 bl1] | e]; [| discriminate].
  destruct (check_bots _ _ bots2 [] []) as [[rs2 bl2] | e]; [| discriminate].
  simpl. intros H1 H2. injection H1 as <-. injection H2 as <-. reflexivity.
Qed.

(** X7. The verdict on a bot depends on the site and the bot only: whatever
    else was asked in the same or in another request for the same URL, two
    results for the same user agent are equal. *)
Theorem same_bot_same_result url bots1 bots2 inc1 inc2 resp1 resp2 r1 r2 :
  check_ai_bot_block requests_get url bots1 inc1 = Returns resp1 ->
  check_ai_bot_block requests_get url bots2 inc2 = Returns resp2 ->
  In r1 (results resp1) -> In r2 (results resp2) ->
  userAgent r1 = userAgent r2 ->
  r1 = r2.
Proof.
  intros H1 H2 Hin1 Hin2 Hua.
  apply check_ai_bot_block_cases in H1, H2.
  destruct H1 as [o cls _ _ | o status text _ _ _
                 | o text rp0 rp1 rp exc new Ho Hget _ Hi Hs Hp _ Hall];
    simpl in Hin1; try contradiction.
  destruct H2 as [o' cls _ _ | o' status text' _ _ _
                 | o' text' rp0' rp1' rp' exc' new' Ho' Hget' _ Hi' Hs' Hp' _ Hall'];
    simpl in Hin2; try contradiction.
  rewrite Ho in Ho'. injection Ho' as <-.
  rewrite Hget in Hget'. injection Hget' as <-.
  rewrite Hi in Hi'. injection Hi' as <-.
  rewrite Hs in Hs'. injection Hs' as <-.
  rewrite Hp in Hp'. injection Hp' as <- <-.
  rewrite Forall_forall in Hall, Hall'.
  destruct (Hall _ Hin1) as (Hc1 & Hs1 & Hn1).
  destruct (Hall' _ Hin2) as (Hc2 & Hs2 & Hn2).
  rewrite Hua, Hc2 in Hc1. injection Hc1 as Hc.
  destruct r1 as [ua1 c1 s1 n1], r2 as [ua2 c2 s2 n2]. simpl in *.
  congruence.
Qed.

(** X8. When the request names no bots and robots.txt is found, the results
    are those of the six default bots, in the order of [DEFAULT_AI_BOTS]. *)
Theorem default_bots_checked url includeRobotsTxt resp :
  check_endpoint requests_get url None includeRobotsTxt = Returns resp ->
  robotsTxtFound resp = true ->
  List.map userAgent (results resp)
  = [lit "GPTBot"; lit "PerplexityBot"; lit "ClaudeBot"; lit "CCBot";
     lit "Google-Extended"; lit "Amazonbot"].
Proof.
  unfold check_endpoint. intros H Hf. apply check_ai_bot_block_cases in H.
  destruct H as [o cls _ _ | o status text _ _ _
                | o text rp0 rp1 rp exc new _ _ _ _ _ _ Hua _];
    simpl in Hf; try discriminate Hf.
  simpl. rewrite Hua. reflexivity.
Qed.

End Responses.

(** ** The exceptions of the library calls *)

Section Classes.
Context {R : PyRuntime}.

Lemma check_bracketed_host_raises h e :
  UrlParse._check_bracketed_host h = Raises e -> e = ValueError.
Proof.
  unfold UrlParse._check_bracketed_host.
  destruct (Str.startswith h (lit "v")).
  - destruct (UrlParse.ipvfuture_match h); congruence.
  - destruct (ipaddress_ip_address h) as [[|] |]; congruence.
Qed.

Lemma check_bracketed_netloc_raises n e :
  UrlParse._check_bracketed_netloc n = Raises e -> e = ValueError.
Proof.
  unfold UrlParse._check_bracketed_netloc.
  destruct (Str.partition (snd (Str.rpartition n (chr "@"))) (chr "["))
    as [[before have] bracketed].
  destruct (negb (Str.is_empty have)).
  - destruct (negb (Str.is_empty before)); [congruence |].
    destruct (Str.partition bracketed (chr "]")) as [[hostname sep] port].
    destruct (negb (Str.is_empty port) && negb (Str.startswith port (lit ":")));
      [congruence | apply check_bracketed_host_raises].
  - destruct (Str.partition (snd (Str.rpartition n (chr "@"))) (chr ":"))
      as [[hostname sep] port].
    apply check_bracketed_host_raises.
Qed.

Lemma netloc_step_raises u e :
  netloc_step u = Raises e -> e = ValueError.
Proof.
  unfold netloc_step.
  destruct (Str.eqb (Str.upto u 2) (lit "//")); [| discriminate].
  destruct (UrlParse._splitnetloc u 2) as [n rest]. unfold bind.
  destruct (Str.has n (chr "[") && negb (Str.has n (chr "]"))
            || Str.has n (chr "]") && negb (Str.has n (chr "[")));
    [congruence |].
  destruct (Str.has n (chr "[") && Str.has n (chr "]"));
    [| discriminate].
  destruct (UrlParse._check_bracketed_netloc n) as [[] | e'] eqn:E;
    [discriminate |].
  intros H. injection H as <-. exact (check_bracketed_netloc_raises _ E).
Qed.

Lemma checknetloc_raises n e :
  UrlParse._checknetloc n = Raises e -> e = ValueError.
Proof.
  unfold UrlParse._checknetloc.
  repeat match goal with
         | |- context [if ?c then _ else _] => destruct c
         end; congruence.
Qed.

Lemma urlsplit_raises url e :
  UrlParse.urlsplit url = Raises e -> e = ValueError.
Proof.
  rewrite urlsplit_steps.
  destruct (netloc_step (snd (scheme_step (cleaned url)))) as [r | e'] eqn:E;
    simpl.
  - destruct (UrlParse._checknetloc (fst r)) as [[] | e'] eqn:E'; simpl;
      [discriminate |].
    intros H. injection H as <-. exact (checknetloc_raises _ E').
  - intros H. injection H as <-. exact (netloc_step_raises _ E).
Qed.

Lemma urlparse_raises url e :
  UrlParse.urlparse url = Raises e -> e = ValueError.
Proof.
  unfold UrlParse.urlparse.
  destruct (UrlParse.urlsplit url) as [[s n u q f] | e'] eqn:E; unfold bind.
  - destruct (UrlParse.mem s UrlParse.uses_params && Str.has u (chr ";"));
      [destruct (UrlParse._splitparams u) |]; discriminate.
  - intros H. injection H as <-. exact (urlsplit_raises _ E).
Qed.

Lemma utf8_encode_raises s e :
  Codecs.utf8_encode s = Raises e -> e = UnicodeEncodeError.
Proof.
  induction s as [| c s IH]; simpl; [discriminate |].
  destruct (Codecs.utf8_encode_char c) as [bs | e'] eqn:E; simpl.
  - destruct (Codecs.utf8_encode s) as [rest | e'']; simpl; [discriminate |].
    intros H. injection H as <-. apply IH. reflexivity.
  - intros H. injection H as <-. revert E. unfold Codecs.utf8_encode_char.
    repeat match goal with
           | |- context [if ?c then _ else _] => destruct c
           end; congruence.
Qed.

Lemma quote_raises s e :
  Quote.quote s = Raises e -> e = UnicodeEncodeError.
Proof.
  unfold Quote.quote. destruct (Str.is_empty s); [discriminate |].
  destruct (Codecs.utf8_encode s) as [bs | e'] eqn:E; simpl; [discriminate |].
  intros H. injection H as <-. exact (utf8_encode_raises _ E).
Qed.

Lemma RuleLine_init_raises path allowance e :
  RuleLine.init path allowance = Raises e ->
  e = ValueError \/ e = UnicodeEncodeError.
Proof.
  unfold RuleLine.init.
  destruct (UrlParse.urlparse path) as [p | e'] eqn:E; simpl.
  - destruct (Quote.quote _) as [q | e'] eqn:E'; simpl; [discriminate |].
    intros H. injection H as <-. right. exact (quote_raises _ E').
  - intros H. injection H as <-. left. exact (urlparse_raises _ E).
Qed.

Lemma parse_line_raises l line e :
  RobotFileParser.parse_line l line = Raises e ->
  e = ValueError \/ e = UnicodeEncodeError.
Proof.
  unfold RobotFileParser.parse_line. cbv zeta.
  set (l0 := if Str.is_empty line then _ else _). clearbody l0.
  set (s := Str.strip _). clearbody s.
  destruct (Str.is_empty s); [discriminate |].
  destruct (Str.split1 s (chr ":")) as [| key [| value [| x rest]]];
    try discriminate.
  set (v := Quote.unquote _). clearbody v.
  set (k := Str.lower _). clearbody k.
  repeat match goal with
         | |- context [if Str.eqb k ?x then _ else _] => destruct (Str.eqb k x)
         | |- context [if negb ?x then _ else _] => destruct (negb x)
         end; try discriminate.
  - destruct (RuleLine.init v false) as [r | e'] eqn:E; simpl; [discriminate |].
    intros H. injection H as <-. exact (RuleLine_init_raises _ _ E).
  - destruct (RuleLine.init v true) as [r | e'] eqn:E; simpl; [discriminate |].
    intros H. injection H as <-. exact (RuleLine_init_raises _ _ E).
  - destruct (str_isdigit (Str.strip v)); [| discriminate].
    destruct (builtin_int v); simpl; [discriminate |].
    intros H. injection H as <-. left. reflexivity.
  - destruct (Str.split v (chr "/")) as [| n0 [| n1 [| x rest]]];
      try discriminate.
    destruct (str_isdigit (Str.strip n0) && str_isdigit (Str.strip n1));
      [| discriminate].
    destruct (builtin_int n0); [destruct (builtin_int n1) |]; simpl;
      try discriminate; intros H; injection H as <-; left; reflexivity.
Qed.

Lemma parse_lines_raises lines :
  forall l e,
    snd (RobotFileParser.parse_lines l lines) = Some e ->
    e = ValueError \/ e = UnicodeEncodeError.
Proof.
  induction lines as [| line lines IH]; intros l e; simpl; [discriminate |].
  destruct (RobotFileParser.parse_line l line) as [l' | e'] eqn:E.
  - apply IH.
  - simpl. intros H. injection H as <-. exact (parse_line_raises _ _ E).
Qed.

Lemma fetch_path_raises url e :
  RobotFileParser.fetch_path url = Raises e ->
  e = ValueError \/ e = UnicodeEncodeError.
Proof.
  unfold RobotFileParser.fetch_path.
  destruct (UrlParse.urlparse (Quote.unquote url)) as [p | e'] eqn:E; simpl.
  - destruct (Quote.quote _) as [q | e'] eqn:E'; simpl; [discriminate |].
    intros H. injection H as <-. right. exact (quote_raises _ E').
  - intros H. injection H as <-. left. exact (urlparse_raises _ E).
Qed.

Lemma normalize_to_origin_raises_ValueError url e :
  normalize_to_origin url = Raises e -> e = ValueError.
Proof.
  unfold normalize_to_origin.
  destruct (UrlParse.urlparse url) as [p | e'] eqn:E; simpl; [discriminate |].
  intros H. injection H as <-. exact (urlparse_raises _ E).
Qed.

End Classes.

(** ** Blank lines and the lines after a failure *)

Lemma lstrip_by_nil_iff (p : char -> bool) (s : str) :
  Str.is_empty (Str.lstrip_by p s) = forallb p s.
Proof.
  induction s as [| c s IH]; simpl; [reflexivity |].
  destruct (p c); [exact IH | reflexivity].
Qed.

(** A string is blank when all its characters are whitespace. *)
Lemma strip_empty (s : str) :
  Str.is_empty (Str.strip s) = forallb Str.isspace s.
Proof.
  unfold Str.strip, Str.strip_by. rewrite <- lstrip_by_nil_iff.
  destruct (Str.lstrip_by Str.isspace s) as [| c t] eqn:E; [reflexivity |].
  pose proof (lstrip_by_head _ _ E) as Hc.
  unfold Str.rstrip_by.
  change (rev (c :: t)) with (rev t ++ [c]).
  rewrite lstrip_by_app by exact Hc.
  rewrite rev_app_distr. reflexivity.
Qed.

(** The lines of a text are made of its characters. *)
Lemma splitlines_from_parts (P : char -> Prop) (n : nat) :
  forall s cur,
    (List.length s <= n)%nat ->
    Forall P s -> Forall P cur ->
    Forall (Forall P) (Str.splitlines_from s cur).
Proof.
  induction n as [| n IH]; intros s cur Hlen Hs Hcur.
  - destruct s; [| simpl in Hlen; lia].
    simpl. destruct cur; [constructor |].
    constructor; [apply Forall_rev; exact Hcur | constructor].
  - destruct s as [| x s']; simpl.
    + destruct cur; [constructor |].
      constructor; [apply Forall_rev; exact Hcur | constructor].
    + inversion Hs as [| ? ? Hx Hs']; subst. simpl in Hlen.
      destruct (N.eqb x 13).
      * destruct s' as [| y s''].
        -- constructor; [apply Forall_rev; exact Hcur |].
           apply IH; [simpl; lia | constructor | constructor].
        -- inversion Hs' as [| ? ? Hy Hs'']; subst. simpl in Hlen.
           assert (Hrest : Forall (Forall P) (Str.splitlines_from s'' []))
             by (apply IH; [lia | exact Hs'' | constructor]).
           assert (Hrest' : Forall (Forall P) (Str.splitlines_from (y :: s'') []))
             by (apply IH; [simpl; lia | exact Hs' | constructor]).
           destruct y as [| q]; [constructor; [apply Forall_rev; exact Hcur | exact Hrest'] |].
           repeat (destruct q as [q | q |];
                   try (constructor; [apply Forall_rev; exact Hcur | exact Hrest']));
             constructor; [apply Forall_rev; exact Hcur | exact Hrest].
      * destruct (Str.is_linebreak x).
        -- constructor; [apply Forall_rev; exact Hcur |].
           apply IH; [lia | exact Hs' | constructor].
        -- apply IH; [lia | exact Hs' | constructor; assumption].
Qed.

Lemma splitlines_parts (P : char -> Prop) (s : str) :
  Forall P s -> Forall (Forall P) (Str.splitlines s).
Proof.
  intros H. apply (@splitlines_from_parts P (List.length s)); auto.
Qed.

Section BlankLines.
Context {R : PyRuntime}.

(** A line of whitespace is skipped. *)
Lemma parse_line_blank l (line : str) :
  forallb Str.isspace line = true ->
  exists l', RobotFileParser.parse_line l line = Returns l'.
Proof.
  intros H. unfold RobotFileParser.parse_line.
  assert (Hf : Str.find line (chr "#") = (-1)%Z).
  { unfold Str.find.
    destruct (Str.index_of (chr "#") line) as [i |] eqn:E; [| reflexivity].
    apply index_of_Some in E. destruct E as (E & _ & _).
    rewrite forallb_forall in H.
    assert (Hin : In (chr "#") line)
      by (rewrite E; apply in_or_app; right; left; reflexivity).
    specialize (H _ Hin). discriminate H. }
  cbv zeta. rewrite Hf. change (0 <=? -1)%Z with false. cbv iota.
  rewrite strip_empty, H. eexists. reflexivity.
Qed.

(** [parse] does not fail on blank lines. *)
Lemma parse_lines_blank (lines : list str) :
  Forall (fun line => forallb Str.isspace line = true) lines ->
  forall l, snd (RobotFileParser.parse_lines l lines) = None.
Proof.
  induction 1 as [| line lines Hline _ IH]; intros l; [reflexivity |].
  cbn [RobotFileParser.parse_lines].
  destruct (parse_line_blank l line Hline) as (l' & ->). apply IH.
Qed.

(** A text on which [parse] fails has a line that is not blank, and so
    has every text whose lines continue its lines. *)
Lemma parse_raised_not_blank rp (text text' : str) (more : list str) cls :
  snd (RobotFileParser.parse rp (Str.splitlines text)) = Some cls ->
  Str.splitlines text' = Str.splitlines text ++ more ->
  Str.is_empty (Str.strip text') = false.
Proof.
  intros Hp Hl. rewrite strip_empty.
  destruct (forallb Str.isspace text') eqn:E; [| reflexivity].
  rewrite forallb_forall, <- Forall_forall in E.
  pose proof (splitlines_parts E) as Hb. rewrite Hl in Hb.
  apply Forall_app in Hb. destruct Hb as [Hb _].
  unfold RobotFileParser.parse in Hp. rewrite parse_lines_blank in Hp.
  - discriminate Hp.
  - eapply Forall_impl; [| exact Hb]. intros line Hline.
    apply forallb_forall. rewrite Forall_forall in Hline. exact Hline.
Qed.

(** Once a line has made [parse] fail, the lines after it are not read. *)
Lemma parse_lines_raised_app (a b : list str) cls :
  forall l,
    snd (RobotFileParser.parse_lines l a) = Some cls ->
    RobotFileParser.parse_lines l (a ++ b) = RobotFileParser.parse_lines l a.
Proof.
  induction a as [| line a IH]; intros l H.
  - simpl in H. discriminate H.
  - cbn [app RobotFileParser.parse_lines] in *.
    destruct (RobotFileParser.parse_line l line) as [l' | e]; [| reflexivity].
    apply IH. exact H.
Qed.

End BlankLines.

(** ** Requests that are always answered, and the exceptions of the others *)

Section Answers.
Context {R : PyRuntime}.
Variable requests_get : str -> fetched.

(** For a plain URL the loop over the bots always ends: [can_fetch]
    answers for each of them, whatever robots.txt said. *)
Lemma plain_url_loop (url : str) :
  Forall (fun c => plain_char c = true) url ->
  exists o p,
    normalize_to_origin url = Returns o
    /\ UrlParse.urlparse (robots_url_of o) = Returns p
    /\ forall lines bots,
         exists rs bl,
           check_bots
             (fst (RobotFileParser.parse (fresh_parser (robots_url_of o) p) lines))
             (Str.rstrip_chars o (lit "/")) bots [] [] = Returns (rs, bl).
Proof.
  intros Hplain.
  destruct (plain_url_root Hplain) as (o & p & t & Ho & Hp & Ht & _).
  exists o, p. split; [exact Ho |]. split; [exact Hp |].
  intros lines bots. apply check_bots_returns. intros ua _.
  destruct (parse_fresh_flags (robots_url_of o) p lines) as (Hd & Ha & Hl).
  eexists. apply (@can_fetch_parsed R _ ua _ t Hd Ha Hl Ht).
Qed.

(** X9. The handler never fails on a plain URL (ASCII, without [%], [[] or
    []]) unless [requests.get] raises something that is no
    [RequestException]: whatever the site answers, and whatever is in its
    robots.txt, there is a response. *)
Theorem plain_url_is_answered url bots includeRobotsTxt :
  forallb plain_char url = true ->
  (forall u cls, requests_get u <> OtherException cls) ->
  exists resp,
    check_ai_bot_block requests_get url bots includeRobotsTxt = Returns resp.
Proof.
  intros Hplain Hnet. rewrite forallb_forall, <- Forall_forall in Hplain.
  destruct (plain_url_loop Hplain) as (o & p & Ho & Hp & Hloop).
  rewrite check_ai_bot_block_eq, Ho, bind_ret.
  destruct (requests_get (robots_url_of o)) as [status text | cls | cls] eqn:Hget;
    [| eexists; reflexivity | contradiction (Hnet _ _ Hget)].
  destruct (negb (status =? 200)%Z || Str.is_empty (Str.strip text));
    [eexists; reflexivity |].
  rewrite Hp, bind_ret. cbv zeta.
  destruct (Hloop (Str.splitlines text) bots) as (rs & bl & ->).
  eexists. reflexivity.
Qed.

(** X10. For a plain URL, once the site has answered, robots.txt counts as found
    exactly when the status is 200 and the body is not blank; the status is
    reported as received, and when found there is one result for each bot. *)
Theorem found_iff_200_and_body url bots includeRobotsTxt o status text :
  forallb plain_char url = true ->
  normalize_to_origin url = Returns o ->
  requests_get (robots_url_of o) = Response status text ->
  exists resp,
    check_ai_bot_block requests_get url bots includeRobotsTxt = Returns resp
    /\ statusCode resp = Some status
    /\ (robotsTxtFound resp = true <-> status = 200%Z /\ Str.strip text <> [])
    /\ (robotsTxtFound resp = true -> List.map userAgent (results resp) = bots).
Proof.
  intros Hplain Ho Hget. rewrite forallb_forall, <- Forall_forall in Hplain.
  destruct (plain_url_loop Hplain) as (o' & p & Ho' & Hp & Hloop).
  rewrite Ho in Ho'. injection Ho' as <-.
  rewrite check_ai_bot_block_eq, Ho, bind_ret, Hget.
  destruct (negb (status =? 200)%Z || Str.is_empty (Str.strip text)) eqn:Hc.
  - eexists. split; [reflexivity |]. simpl. split; [reflexivity |].
    split; [| discriminate]. split; [discriminate |].
    intros [-> Hne]. simpl in Hc.
    destruct (Str.strip text); [contradiction Hne; reflexivity | discriminate Hc].
  - rewrite Hp, bind_ret. cbv zeta.
    destruct (Hloop (Str.splitlines text) bots) as (rs & bl & Hl).
    rewrite Hl, bind_ret. eexists. split; [reflexivity |]. simpl.
    split; [reflexivity |].
    apply orb_false_iff in Hc. destruct Hc as [Hs Hne].
    apply negb_false_iff, Z.eqb_eq in Hs.
    split.
    + split; [intros _ | reflexivity]. split; [exact Hs |].
      intros E. rewrite E in Hne. discriminate Hne.
    + intros _. apply check_bots_spec in Hl.
      destruct Hl as (new & -> & _ & Hua & _). exact Hua.
Qed.

(** X11. For a plain URL, when [rp.parse] raises an exception of class [cls] on
    the body that the site served, the handler still answers: robots.txt
    counts as found with status 200, there is one result for each bot, and
    the one warning names the class of the exception.  What follows the
    failing line is not read: a body whose lines continue those of this
    one gets the same results, blocked bots and warning. *)
Theorem parse_failure_is_a_warning url bots includeRobotsTxt o text p cls :
  forallb plain_char url = true ->
  normalize_to_origin url = Returns o ->
  requests_get (robots_url_of o) = Response 200%Z text ->
  UrlParse.urlparse (robots_url_of o) = Returns p ->
  snd (RobotFileParser.parse (fresh_parser (robots_url_of o) p)
         (Str.splitlines text)) = Some cls ->
  exists resp,
    check_ai_bot_block requests_get url bots includeRobotsTxt = Returns resp
    /\ robotsTxtFound resp = true
    /\ statusCode resp = Some 200%Z
    /\ List.map userAgent (results resp) = bots
    /\ warnings resp = [lit "Parse warning: " ++ cls]
    /\ forall text' more,
         Str.splitlines text' = Str.splitlines text ++ more ->
         exists resp',
           check_ai_bot_block (serves 200 text') url bots includeRobotsTxt
           = Returns resp'
           /\ results resp' = results resp
           /\ blockedBots resp' = blockedBots resp
           /\ warnings resp' = warnings resp.
Proof.
  intros Hplain Ho Hget Hp Hparse.
  rewrite forallb_forall, <- Forall_forall in Hplain.
  destruct (plain_url_loop Hplain) as (o' & p' & Ho' & Hp' & Hloop).
  rewrite Ho in Ho'. injection Ho' as <-.
  rewrite Hp in Hp'. injection Hp' as <-.
  destruct (Hloop (Str.splitlines text) bots) as (rs & bl & Hl).
  assert (Hne : forall text' more,
            Str.splitlines text' = Str.splitlines text ++ more ->
            negb (200 =? 200)%Z || Str.is_empty (Str.strip text') = false).
  { intros text' more E.
    rewrite (parse_raised_not_blank _ text text' more Hparse E). reflexivity. }
  exists (mkCheckResponse true (robots_url_of o) (Some 200%Z) bl rs
            (if includeRobotsTxt then Some text else None)
            [lit "Parse warning: " ++ cls]).
  split.
  { rewrite check_ai_bot_block_eq, Ho, bind_ret, Hget.
    rewrite (Hne text [] (eq_sym (app_nil_r _))), Hp, bind_ret. cbv zeta.
    rewrite Hl, bind_ret, Hparse. reflexivity. }
  cbn [robotsTxtFound statusCode results warnings blockedBots].
  split; [reflexivity |]. split; [reflexivity |].
  split.
  { apply check_bots_spec in Hl. destruct Hl as (new & -> & _ & Hua & _).
    exact Hua. }
  split; [reflexivity |].
  intros text' more E.
  exists (mkCheckResponse true (robots_url_of o) (Some 200%Z) bl rs
            (if includeRobotsTxt then Some text' else None)
            [lit "Parse warning: " ++ cls]).
  split; [| auto].
  rewrite check_ai_bot_block_eq, Ho, bind_ret. unfold serves.
  rewrite (Hne text' more E), Hp, bind_ret. cbv zeta.
  assert (E' : RobotFileParser.parse (fresh_parser (robots_url_of o) p)
                 (Str.splitlines text')
               = RobotFileParser.parse (fresh_parser (robots_url_of o) p)
                   (Str.splitlines text)).
  { rewrite E. unfold RobotFileParser.parse in *.
    apply parse_lines_raised_app with (cls := cls). exact Hparse. }
  rewrite E', Hl, bind_ret, Hparse. reflexivity.
Qed.

(** X12. The only parse warnings are those for [ValueError] and
    [UnicodeEncodeError]: no other exception leaves [rp.parse]. *)
Theorem parse_warning_classes url bots includeRobotsTxt resp :
  check_ai_bot_block requests_get url bots includeRobotsTxt = Returns resp ->
  robotsTxtFound resp = true ->
  warnings resp = []
  \/ warnings resp = [lit "Parse warning: ValueError"]
  \/ warnings resp = [lit "Parse warning: UnicodeEncodeError"].
Proof.
  intros H Hf. apply check_ai_bot_block_cases in H.
  destruct H as [o cls _ _ | o status text _ _ _
                | o text rp0 rp1 rp exc new _ _ _ _ _ Hp _ _];
    simpl in Hf; try discriminate Hf.
  simpl. destruct exc as [cls |]; [| left; reflexivity].
  assert (E : snd (RobotFileParser.parse rp1 (Str.splitlines text)) = Some cls)
    by (rewrite Hp; reflexivity).
  apply parse_lines_raises in E. destruct E as [-> | ->]; auto.
Qed.

(** X13. The exceptions that leave the handler are [ValueError] and
    [UnicodeEncodeError], from the URL functions, and whatever
    [requests.get] raised that was no [RequestException]. *)
Theorem exception_classes url bots includeRobotsTxt e :
  check_ai_bot_block requests_get url bots includeRobotsTxt = Raises e ->
  e = ValueError \/ e = UnicodeEncodeError
  \/ exists u, requests_get u = OtherException e.
Proof.
  rewrite check_ai_bot_block_eq.
  destruct (normalize_to_origin url) as [o | e0] eqn:Ho; simpl.
  2: { intros H. injection H as <-. left.
       exact (normalize_to_origin_raises_ValueError _ Ho). }
  destruct (requests_get (robots_url_of o)) as [status text | cls | cls] eqn:Hget;
    [| discriminate
     | intros H; injection H as <-; right; right; exists (robots_url_of o);
       exact Hget].
  destruct (negb (status =? 200)%Z || Str.is_empty (Str.strip text));
    [discriminate |].
  destruct (UrlParse.urlparse (robots_url_of o)) as [p | e1] eqn:Hp; simpl.
  2: { intros H. injection H as <-. left. exact (urlparse_raises _ Hp). }
  destruct (parse_fresh_flags (robots_url_of o) p (Str.splitlines text))
    as (Hd & Ha & Hl).
  destruct (check_bots _ _ bots [] []) as [r | e2] eqn:Hloop; [discriminate |].
  intros H. injection H as <-.
  apply (check_bots_raises _ _ bots e2 Hd Ha Hl) in Hloop.
  destruct Hloop as [_ Hf]. apply fetch_path_raises in Hf. tauto.
Qed.

End Answers.

(** ** The origin of a URL, by the shape of the URL *)

Lemma index_of_nth (c : char) (s : str) (i : nat) :
  Str.index_of c s = Some i -> nth_error s i = Some c.
Proof.
  revert i. induction s as [| x s IH]; intros i; simpl; [discriminate |].
  destruct (N.eqb x c) eqn:E.
  - intros H. injection H as <-. apply N.eqb_eq in E. subst. reflexivity.
  - destruct (Str.index_of c s) as [k |]; simpl; [| discriminate].
    intros H. injection H as <-. simpl. apply IH. reflexivity.
Qed.

(** The host ends at the first of [/], [?] and [#], or with the URL. *)
Lemma splitnetloc_host (h rest : str) :
  (forall c, In c (lit "/?#") -> Str.has h c = false) ->
  rest = [] \/ (exists c t, rest = c :: t /\ In c (lit "/?#")) ->
  UrlParse._splitnetloc (lit "//" ++ h ++ rest) 2 = (h, rest).
Proof.
  intros Hh Hrest.
  destruct (@splitnetloc_spec (lit "//" ++ h ++ rest)) as (d & Hd & -> & Hmin & Hex).
  { simpl. lia. }
  change (skipn 2 (lit "//" ++ h ++ rest)) with (h ++ rest) in *.
  assert (Hle : (d <= List.length h)%nat).
  { destruct Hrest as [-> | (c & t & -> & Hc)].
    - rewrite app_nil_r in Hd. exact Hd.
    - apply (Hmin c); [exact Hc |]. apply index_of_app. apply Hh. exact Hc. }
  assert (Hge : ~ (d < List.length h)%nat).
  { intros Hlt. destruct Hex as (c & Hc & Hi).
    { rewrite length_app. lia. }
    apply index_of_nth in Hi. rewrite nth_error_app1 in Hi by exact Hlt.
    apply nth_error_In in Hi. apply has_true in Hi.
    rewrite (Hh c Hc) in Hi. discriminate Hi. }
  assert (E : d = List.length h) by lia. subst d.
  rewrite firstn_app, Nat.sub_diag, firstn_all, skipn_app, Nat.sub_diag,
    skipn_all. simpl. rewrite app_nil_r. reflexivity.
Qed.

Lemma upto2_startswith (u : str) :
  Str.eqb (Str.upto u 2) (lit "//") = Str.startswith u (lit "//").
Proof.
  destruct u as [| a [| b t]]; try reflexivity.
  destruct t; reflexivity.
Qed.

Lemma unsafe_removed_app (a b : str) :
  fold_left Str.remove UrlParse._UNSAFE_URL_BYTES_TO_REMOVE (a ++ b)
  = fold_left Str.remove UrlParse._UNSAFE_URL_BYTES_TO_REMOVE a
    ++ fold_left Str.remove UrlParse._UNSAFE_URL_BYTES_TO_REMOVE b.
Proof.
  simpl. unfold Str.remove. rewrite !filter_app. reflexivity.
Qed.

(** Cleaning leaves a clean prefix that starts with no control or space. *)
Lemma cleaned_prefix (c : char) (a rest : str) :
  UrlParse.C0_CONTROL_OR_SPACE c = false ->
  Forall (fun c => clean_char c = true) (c :: a) ->
  cleaned ((c :: a) ++ rest)
  = (c :: a) ++ fold_left Str.remove UrlParse._UNSAFE_URL_BYTES_TO_REMOVE rest.
Proof.
  intros Hc Ha. pose proof (cleaned_id Hc Ha) as E. unfold cleaned in *.
  simpl Str.lstrip_by in *. rewrite Hc in *.
  change (c :: a ++ rest) with ((c :: a) ++ rest).
  rewrite unsafe_removed_app, E. reflexivity.
Qed.

Lemma unsafe_removed_delim (rest : str) :
  rest = [] \/ (exists c t, rest = c :: t /\ In c (lit "/?#")) ->
  let rest' := fold_left Str.remove UrlParse._UNSAFE_URL_BYTES_TO_REMOVE rest in
  rest' = [] \/ (exists c t, rest' = c :: t /\ In c (lit "/?#")).
Proof.
  intros [-> | (c & t & -> & Hc)]; [left; reflexivity |].
  right. exists c. eexists. split; [| exact Hc].
  simpl in Hc. destruct Hc as [<- | [<- | [<- | []]]]; reflexivity.
Qed.

Lemma urlunparse_scheme_netloc (s n : str) :
  s <> [] -> n <> [] ->
  UrlParse.urlunparse s n [] [] [] [] = s ++ lit "://" ++ n.
Proof.
  intros Hs Hn. destruct s as [| c s]; [contradiction Hs; reflexivity |].
  destruct n as [| d n]; [contradiction Hn; reflexivity |].
  unfold UrlParse.urlunparse, UrlParse.urlunsplit. simpl.
  rewrite app_nil_r. reflexivity.
Qed.

Section Shapes.
Context {R : PyRuntime}.

Lemma scheme_step_no_letter (c : char) (t : str) :
  UrlParse.is_upper c || UrlParse.is_lower c = false ->
  scheme_step (c :: t) = ([], c :: t).
Proof.
  intros H. unfold scheme_step. rewrite H, andb_false_r. reflexivity.
Qed.

Lemma scheme_step_no_colon (u : str) :
  Str.has u (chr ":") = false -> scheme_step u = ([], u).
Proof.
  intros H. unfold scheme_step, Str.find.
  apply index_of_None in H. rewrite H.
  destruct u; reflexivity.
Qed.

(** [urlparse], from the steps of [urlsplit]. *)
Lemma urlparse_steps (url sc u h rest : str) :
  scheme_step (cleaned url) = (sc, u) ->
  netloc_step u = Returns (h, rest) ->
  UrlParse._checknetloc h = Returns tt ->
  UrlParse.urlparse url
  = Returns
      (let u2 := fst (query_step (fst (fragment_step rest))) in
       let pp :=
         if UrlParse.mem sc UrlParse.uses_params && Str.has u2 (chr ";")
         then UrlParse._splitparams u2 else (u2, []) in
       UrlParse.mkParse sc h (fst pp) (snd pp)
         (snd (query_step (fst (fragment_step rest))))
         (snd (fragment_step rest))).
Proof.
  intros Hs Hn Hc. unfold UrlParse.urlparse.
  rewrite urlsplit_steps, Hs. cbn [fst snd].
  rewrite Hn, bind_ret. cbn [fst snd]. rewrite Hc, !bind_ret.
  cbv zeta.
  destruct (UrlParse.mem sc UrlParse.uses_params &&
            Str.has (fst (query_step (fst (fragment_step rest)))) (chr ";"));
    [destruct (UrlParse._splitparams _) |]; reflexivity.
Qed.

(** A host of inner characters without slash, up to the end or to the
    first of [/], [?] and [#]. *)
Lemma netloc_step_host (h rest : str) :
  Forall (fun c => inner_char c = true) h ->
  Str.has h (chr "/") = false ->
  rest = [] \/ (exists c t, rest = c :: t /\ In c (lit "/?#")) ->
  netloc_step (lit "//" ++ h ++ rest) = Returns (h, rest).
Proof.
  intros Hh Hslash Hrest. unfold netloc_step.
  change (Str.eqb (Str.upto (lit "//" ++ h ++ rest) 2) (lit "//")) with true.
  cbv iota.
  assert (Hclean : Forall (fun c => clean_char c = true) h).
  { eapply Forall_impl; [| exact Hh]. intros c. apply inner_char_clean. }
  rewrite splitnetloc_host; [| | exact Hrest].
  - rewrite (@clean_no_bracket h (chr "[") Hclean) by (simpl; tauto).
    rewrite (@clean_no_bracket h (chr "]") Hclean) by (simpl; tauto).
    reflexivity.
  - intros c Hc. simpl in Hc. destruct Hc as [<- | [<- | [<- | []]]].
    + exact Hslash.
    + apply has_false. eapply Forall_impl; [| exact Hh].
      intros x Hx ->. revert Hx. vm_compute. discriminate.
    + apply has_false. eapply Forall_impl; [| exact Hh].
      intros x Hx ->. revert Hx. vm_compute. discriminate.
Qed.

Lemma inner_no_delim (u : str) (c : char) :
  Forall (fun c => inner_char c = true) u ->
  In c (lit "?#") -> Str.has u c = false.
Proof.
  intros Hu Hc. apply has_false. eapply Forall_impl; [| exact Hu].
  intros x Hx ->. simpl in Hc.
  destruct Hc as [<- | [<- | []]]; revert Hx; vm_compute; discriminate.
Qed.

Lemma valid_scheme_clean (s : str) :
  valid_scheme s ->
  Forall (fun c => clean_char c = true) s
  /\ exists c t, s = c :: t /\ UrlParse.C0_CONTROL_OR_SPACE c = false.
Proof.
  intros [H1 H2]. split.
  - apply Forall_forall. intros c Hc. rewrite forallb_forall in H2.
    apply inner_char_clean, scheme_char_inner, H2, Hc.
  - destruct s as [| c t]; [contradiction |]. exists c, t.
    split; [reflexivity |]. clear H2. char_arith.
Qed.

Lemma lower_nonempty (s : str) :
  valid_scheme s -> List.map Str.lower_ascii_char s <> [].
Proof.
  intros [H _]. destruct s; [contradiction | discriminate].
Qed.

(** A URL with a scheme and a host, as [urlparse] reads it: the scheme in
    lower case and the host as written. *)
Lemma urlparse_scheme_host (s h rest : str) :
  valid_scheme s ->
  Forall (fun c => inner_char c = true) h ->
  Str.has h (chr "/") = false ->
  rest = [] \/ (exists c t, rest = c :: t /\ In c (lit "/?#")) ->
  exists p,
    UrlParse.urlparse (s ++ lit "://" ++ h ++ rest) = Returns p
    /\ UrlParse.scheme p = List.map Str.lower_ascii_char s
    /\ UrlParse.netloc p = h.
Proof.
  intros Hs Hh Hslash Hrest.
  destruct (valid_scheme_clean Hs) as (Hsc & c & t & -> & Hc0).
  set (rest' := fold_left Str.remove UrlParse._UNSAFE_URL_BYTES_TO_REMOVE rest).
  assert (Hcl : cleaned ((c :: t) ++ lit "://" ++ h ++ rest)
                = (c :: t) ++ chr ":" :: lit "//" ++ h ++ rest').
  { replace ((c :: t) ++ lit "://" ++ h ++ rest)
      with ((c :: t ++ lit "://" ++ h) ++ rest)
      by (simpl; rewrite <- !app_assoc; reflexivity).
    rewrite cleaned_prefix; [simpl; rewrite <- !app_assoc; reflexivity | exact Hc0 |].
    change (c :: t ++ lit "://" ++ h) with ((c :: t) ++ lit "://" ++ h).
    apply Forall_app. split; [exact Hsc |].
    apply Forall_app. split; [repeat constructor |].
    eapply Forall_impl; [| exact Hh]. intros x. apply inner_char_clean. }
  assert (Hp := @urlparse_steps ((c :: t) ++ lit "://" ++ h ++ rest)
                  (Str.lower (c :: t)) (lit "//" ++ h ++ rest') h rest').
  rewrite Hcl in Hp. specialize (Hp (scheme_step_found _ Hs)).
  specialize (Hp (netloc_step_host Hh Hslash (unsafe_removed_delim Hrest))).
  rewrite checknetloc_clean in Hp
    by (eapply Forall_impl; [| exact Hh]; intros x; apply inner_char_clean).
  specialize (Hp eq_refl).
  eexists. split; [exact Hp |]. cbv zeta. cbn [UrlParse.scheme UrlParse.netloc].
  split; [apply lower_scheme, Hs | reflexivity].
Qed.

(** X14. A URL with a scheme and a host (non-empty, of ASCII characters other
    than [%], [[], []], [/], [?], [#], tab, carriage return and newline),
    followed by nothing or by a path, a query or a fragment, is cut down to
    them: the origin is the scheme in lower case, "://" and the host as
    written. *)
Theorem origin_of_scheme_and_host (s h rest : str) :
  valid_scheme s ->
  h <> [] ->
  forallb inner_char h = true ->
  Str.has h (chr "/") = false ->
  rest = [] \/ (exists c t, rest = c :: t /\ In c (lit "/?#")) ->
  normalize_to_origin (s ++ lit "://" ++ h ++ rest)
  = Returns (List.map Str.lower_ascii_char s ++ lit "://" ++ h).
Proof.
  intros Hs Hne Hh Hslash Hrest.
  rewrite forallb_forall, <- Forall_forall in Hh.
  destruct (urlparse_scheme_host Hs Hh Hslash Hrest) as (p & Hp & Hsch & Hn).
  rewrite (normalize_to_origin_with_host _ Hp) by (rewrite Hn; exact Hne).
  rewrite Hsch, Hn.
  pose proof (lower_nonempty Hs) as Hl.
  destruct (List.map Str.lower_ascii_char s);
    [contradiction Hl; reflexivity | reflexivity].
Qed.

(** X15. A URL that starts with two slashes and a host (non-empty, of ASCII
    characters other than [%], [[], []], [/], [?], [#], tab, carriage
    return and newline), followed by nothing or by a path, a query or a
    fragment: the origin is "https://" and the host. *)
Theorem origin_of_scheme_relative_url (h rest : str) :
  h <> [] ->
  forallb inner_char h = true ->
  Str.has h (chr "/") = false ->
  rest = [] \/ (exists c t, rest = c :: t /\ In c (lit "/?#")) ->
  normalize_to_origin (lit "//" ++ h ++ rest)
  = Returns (lit "https://" ++ h).
Proof.
  intros Hne Hh Hslash Hrest.
  rewrite forallb_forall, <- Forall_forall in Hh.
  set (rest' := fold_left Str.remove UrlParse._UNSAFE_URL_BYTES_TO_REMOVE rest).
  assert (Hcl : cleaned (lit "//" ++ h ++ rest) = lit "//" ++ h ++ rest').
  { replace (lit "//" ++ h ++ rest) with ((chr "/" :: chr "/" :: h) ++ rest)
      by reflexivity.
    rewrite cleaned_prefix; [reflexivity | reflexivity |].
    repeat constructor.
    eapply Forall_impl; [| exact Hh]. intros x. apply inner_char_clean. }
  assert (Hp := @urlparse_steps (lit "//" ++ h ++ rest)
                  [] (lit "//" ++ h ++ rest') h rest').
  rewrite Hcl in Hp.
  specialize (Hp (@scheme_step_no_letter (chr "/") _ eq_refl)).
  specialize (Hp (netloc_step_host Hh Hslash (unsafe_removed_delim Hrest))).
  rewrite checknetloc_clean in Hp
    by (eapply Forall_impl; [| exact Hh]; intros x; apply inner_char_clean).
  specialize (Hp eq_refl).
  rewrite (normalize_to_origin_with_host _ Hp) by exact Hne.
  reflexivity.
Qed.

(** X16. An input without scheme, query and fragment (no colon, no semicolon,
    not starting with a space, a control character or two slashes) is taken
    whole for the host and prefixed with "https://": a bare host gives its
    origin, and a path written after the host stays. *)
Theorem origin_without_scheme (c : char) (t : str) :
  UrlParse.C0_CONTROL_OR_SPACE c = false ->
  forallb inner_char (c :: t) = true ->
  Str.has (c :: t) (chr ":") = false ->
  Str.has (c :: t) (chr ";") = false ->
  Str.startswith (c :: t) (lit "//") = false ->
  normalize_to_origin (c :: t) = Returns (lit "https://" ++ c :: t).
Proof.
  intros Hc Hu Hcolon Hsemi Hss.
  rewrite forallb_forall, <- Forall_forall in Hu.
  assert (Hclean : Forall (fun c => clean_char c = true) (c :: t)).
  { eapply Forall_impl; [| exact Hu]. intros x. apply inner_char_clean. }
  assert (Hp := @urlparse_steps (c :: t) [] (c :: t) [] (c :: t)).
  rewrite (cleaned_id Hc Hclean) in Hp.
  specialize (Hp (scheme_step_no_colon _ Hcolon)).
  rewrite netloc_step_other in Hp by (rewrite upto2_startswith; exact Hss).
  specialize (Hp eq_refl eq_refl).
  rewrite fragment_step_none in Hp by (apply inner_no_delim; simpl; tauto).
  simpl fst in Hp. simpl snd in Hp.
  rewrite query_step_none in Hp by (apply inner_no_delim; simpl; tauto).
  simpl fst in Hp. simpl snd in Hp. cbv zeta in Hp.
  rewrite Hsemi, andb_false_r in Hp. simpl fst in Hp. simpl snd in Hp.
  unfold normalize_to_origin. rewrite Hp, bind_ret.
  cbn [UrlParse.scheme UrlParse.netloc UrlParse.path Str.is_empty negb].
  apply f_equal. apply urlunparse_scheme_netloc; discriminate.
Qed.

(** X17. An input made of a name that is a valid scheme, a colon and
    something that does not start with two slashes is read as scheme and
    path, and the path is taken for the host: "localhost:8000" gives
    "localhost://8000". *)
Theorem origin_of_name_and_port (s : str) (c : char) (t : str) :
  valid_scheme s ->
  forallb inner_char (c :: t) = true ->
  Str.has (c :: t) (chr ";") = false ->
  Str.startswith (c :: t) (lit "//") = false ->
  normalize_to_origin (s ++ lit ":" ++ c :: t)
  = Returns (List.map Str.lower_ascii_char s ++ lit "://" ++ c :: t).
Proof.
  intros Hs Hu Hsemi Hss.
  rewrite forallb_forall, <- Forall_forall in Hu.
  destruct (valid_scheme_clean Hs) as (Hsc & c0 & s' & -> & Hc0).
  assert (Hclean : Forall (fun c => clean_char c = true) (c :: t)).
  { eapply Forall_impl; [| exact Hu]. intros x. apply inner_char_clean. }
  assert (Hp := @urlparse_steps ((c0 :: s') ++ lit ":" ++ c :: t)
                  (Str.lower (c0 :: s')) (c :: t) [] (c :: t)).
  change (cleaned ((c0 :: s') ++ lit ":" ++ c :: t))
    with (cleaned (c0 :: s' ++ lit ":" ++ c :: t)) in Hp.
  rewrite (@cleaned_id c0 (s' ++ lit ":" ++ c :: t) Hc0) in Hp.
  2: { change (c0 :: s' ++ lit ":" ++ c :: t) with ((c0 :: s') ++ lit ":" ++ c :: t).
       apply Forall_app. split; [exact Hsc |].
       apply Forall_app. split; [repeat constructor | exact Hclean]. }
  specialize (Hp (scheme_step_found _ Hs)).
  rewrite netloc_step_other in Hp by (rewrite upto2_startswith; exact Hss).
  specialize (Hp eq_refl eq_refl).
  rewrite fragment_step_none in Hp by (apply inner_no_delim; simpl; tauto).
  simpl fst in Hp. simpl snd in Hp.
  rewrite query_step_none in Hp by (apply inner_no_delim; simpl; tauto).
  simpl fst in Hp. simpl snd in Hp. cbv zeta in Hp.
  rewrite Hsemi, andb_false_r in Hp. simpl fst in Hp. simpl snd in Hp.
  unfold normalize_to_origin. rewrite Hp, bind_ret.
  cbn [UrlParse.scheme UrlParse.netloc UrlParse.path].
  rewrite lower_scheme by (apply Hs).
  pose proof (lower_nonempty Hs) as Hl.
  destruct (List.map Str.lower_ascii_char (c0 :: s')) as [| x l] eqn:E;
    [contradiction Hl; reflexivity |].
  cbn [Str.is_empty negb]. apply f_equal.
  apply urlunparse_scheme_netloc; discriminate.
Qed.

End Shapes.

(** ** Normalizing twice *)

Lemma cleaned_no_unsafe (url : str) :
  Forall (fun c => Str.has UrlParse._UNSAFE_URL_BYTES_TO_REMOVE c = false)
    (cleaned url).
Proof.
  unfold cleaned. simpl.
  set (u := Str.lstrip_by UrlParse.C0_CONTROL_OR_SPACE url).
  pose proof (has_remove (Str.remove (Str.remove u 9%N) 13%N) 10%N) as H10.
  assert (H13 : Str.has (Str.remove (Str.remove (Str.remove u 9%N) 13%N) 10%N) 13%N = false).
  { apply has_false. unfold Str.remove at 1. apply Forall_filter.
    apply has_false. apply has_remove. }
  assert (H9 : Str.has (Str.remove (Str.remove (Str.remove u 9%N) 13%N) 10%N) 9%N = false).
  { apply has_false. unfold Str.remove at 1 2. do 2 apply Forall_filter.
    apply has_false. apply has_remove. }
  apply has_false in H9, H13, H10.
  rewrite Forall_forall in *. intros c Hc.
  specialize (H9 c Hc). specialize (H13 c Hc). specialize (H10 c Hc).
  unfold Str.has. simpl.
  destruct (N.eqb_spec c 9); [contradiction |].
  destruct (N.eqb_spec c 13); [contradiction |].
  destruct (N.eqb_spec c 10); [contradiction |]. reflexivity.
Qed.

(** A string without tab, carriage return and newline that starts with none
    to strip is left as it is. *)
Lemma cleaned_fixed (c : char) (u : str) :
  UrlParse.C0_CONTROL_OR_SPACE c = false ->
  Forall (fun c => Str.has UrlParse._UNSAFE_URL_BYTES_TO_REMOVE c = false)
    (c :: u) ->
  cleaned (c :: u) = c :: u.
Proof.
  intros Hc H. unfold cleaned. cbn [Str.lstrip_by]. rewrite Hc.
  assert (E : forall x, In x [9; 13; 10]%N -> Str.has (c :: u) x = false).
  { intros x Hx. apply has_false. rewrite Forall_forall in *.
    intros y Hy. specialize (H y Hy). intros ->.
    simpl in Hx. destruct Hx as [<- | [<- | [<- | []]]]; discriminate H. }
  cbn [fold_left UrlParse._UNSAFE_URL_BYTES_TO_REMOVE].
  rewrite (remove_absent (c :: u) 9%N) by (apply E; simpl; tauto).
  rewrite (remove_absent (c :: u) 13%N) by (apply E; simpl; tauto).
  rewrite (remove_absent (c :: u) 10%N) by (apply E; simpl; tauto).
  reflexivity.
Qed.

Lemma lower_ascii_char_twice (c : char) :
  Str.lower_ascii_char (Str.lower_ascii_char c) = Str.lower_ascii_char c.
Proof.
  unfold Str.lower_ascii_char.
  destruct ((65 <=? c) && (c <=? 90))%N eqn:E; [| rewrite E; reflexivity].
  replace ((65 <=? c + 32) && (c + 32 <=? 90))%N with false; [reflexivity |].
  symmetry. apply andb_false_iff. right. apply N.leb_gt.
  apply andb_true_iff in E. destruct E as [E _]. apply N.leb_le in E. lia.
Qed.

Section Twice.
Context {R : PyRuntime}.

(** A scheme that [scheme_step] found is valid and in lower case. *)
Lemma scheme_step_lower (u : str) :
  fst (scheme_step u) = []
  \/ valid_scheme (fst (scheme_step u))
     /\ Str.lower (fst (scheme_step u)) = fst (scheme_step u).
Proof.
  unfold scheme_step. destruct u as [| c0 t]; [simpl; auto |].
  set (i := Str.find (c0 :: t) (chr ":")).
  destruct ((0 <? i)%Z && (c0 <? 128)%N
            && (UrlParse.is_upper c0 || UrlParse.is_lower c0)) eqn:E1;
    [| simpl; auto].
  destruct (forallb UrlParse.scheme_char (Str.upto (c0 :: t) i)) eqn:E2;
    [| simpl; auto].
  cbn [fst]. right. rewrite lower_scheme by exact E2.
  assert (Hv : valid_scheme (Str.upto (c0 :: t) i)).
  { split; [| exact E2].
    apply andb_true_iff in E1. destruct E1 as [E1 Hl].
    apply andb_true_iff in E1. destruct E1 as [Hi _].
    apply Z.ltb_lt in Hi. unfold Str.upto. rewrite bound_nonneg by lia.
    destruct (Z.to_nat i) as [| k] eqn:Ek; [lia |]. simpl. exact Hl. }
  apply valid_scheme_lower in Hv. split; [exact Hv |].
  rewrite lower_scheme by (apply Hv).
  rewrite map_map. apply map_ext. intros c. apply lower_ascii_char_twice.
Qed.

Lemma urlparse_inv (url : str) (p : UrlParse.ParseResult) :
  UrlParse.urlparse url = Returns p ->
  exists rest,
    netloc_step (snd (scheme_step (cleaned url)))
    = Returns (UrlParse.netloc p, rest)
    /\ UrlParse._checknetloc (UrlParse.netloc p) = Returns tt
    /\ UrlParse.scheme p = fst (scheme_step (cleaned url)).
Proof.
  unfold UrlParse.urlparse. rewrite urlsplit_steps.
  destruct (netloc_step (snd (scheme_step (cleaned url)))) as [[n rest] | e];
    [| discriminate].
  rewrite bind_ret. cbn [fst snd].
  destruct (UrlParse._checknetloc n) as [[] | e] eqn:Hc; [| discriminate].
  rewrite !bind_ret.
  set (b := UrlParse.mem _ _ && _).
  destruct b; [destruct (UrlParse._splitparams _) |];
    intros H; injection H as <-; exists rest;
    cbn [UrlParse.netloc UrlParse.scheme]; auto.
Qed.

(** What [netloc_step] did when it found a host. *)
Lemma netloc_step_some (u n rest : str) :
  netloc_step u = Returns (n, rest) ->
  n <> [] ->
  n = fst (UrlParse._splitnetloc u 2)
  /\ Str.has n (chr "[") && negb (Str.has n (chr "]"))
     || Str.has n (chr "]") && negb (Str.has n (chr "[")) = false
  /\ (if Str.has n (chr "[") && Str.has n (chr "]")
      then UrlParse._check_bracketed_netloc n else Returns tt) = Returns tt.
Proof.
  unfold netloc_step.
  destruct (Str.eqb (Str.upto u 2) (lit "//")).
  2: { intros H Hn. injection H as <- _. contradiction Hn. reflexivity. }
  destruct (UrlParse._splitnetloc u 2) as [n' rest']. cbn [fst].
  destruct (Str.has n' (chr "[") && negb (Str.has n' (chr "]"))
            || Str.has n' (chr "]") && negb (Str.has n' (chr "["))) eqn:E1;
    [discriminate |].
  rewrite bind_ret.
  destruct (if Str.has n' (chr "[") && Str.has n' (chr "]")
            then UrlParse._check_bracketed_netloc n' else Returns tt)
    as [[] | e] eqn:E2; [| discriminate].
  rewrite bind_ret. intros H _. injection H as <- <-.
  rewrite E1. auto.
Qed.

Lemma splitnetloc_part (P : char -> Prop) (u : str) :
  Forall P u -> Forall P (fst (UrlParse._splitnetloc u 2)).
Proof.
  intros H. unfold UrlParse._splitnetloc. cbn [fst]. unfold Str.slice.
  apply Forall_firstn, Forall_skipn, H.
Qed.

(** X18. Normalizing is idempotent on URLs with a host: when [urlparse] finds a
    host in the URL, the origin returned is its own origin. *)
Theorem origin_is_normalized (url o : str) (p : UrlParse.ParseResult) :
  UrlParse.urlparse url = Returns p ->
  UrlParse.netloc p <> [] ->
  normalize_to_origin url = Returns o ->
  normalize_to_origin o = Returns o.
Proof.
  intros Hp Hn Ho.
  rewrite (normalize_to_origin_with_host _ Hp Hn) in Ho. injection Ho as <-.
  destruct (urlparse_inv _ Hp) as (rest & Hstep & Hcheck & Hscheme).
  destruct (netloc_step_some _ Hstep Hn) as (Hsplit & Hb1 & Hb2).
  set (n := UrlParse.netloc p) in *.
  pose proof (netloc_step_no_delim _ Hstep) as Hdelim.
  assert (Hun : Forall (fun c => Str.has UrlParse._UNSAFE_URL_BYTES_TO_REMOVE c = false) n).
  { rewrite Hsplit. apply splitnetloc_part.
    apply (scheme_step_inv (cleaned_no_unsafe url)). }
  set (sch := if Str.is_empty (UrlParse.scheme p) then lit "https"
              else UrlParse.scheme p).
  change (normalize_to_origin (sch ++ lit "://" ++ n)
          = Returns (sch ++ lit "://" ++ n)).
  assert (Hsch : valid_scheme sch /\ Str.lower sch = sch).
  { unfold sch. rewrite Hscheme.
    destruct (scheme_step_lower (cleaned url)) as [-> | H].
    - simpl. split; [split; reflexivity | reflexivity].
    - destruct (fst (scheme_step (cleaned url))); [destruct H as [[[] _] _] |].
      exact H. }
  destruct Hsch as [Hv Hlow].
  destruct (valid_scheme_clean Hv) as (Hsc & c & t & Ec & Hc0).
  clearbody sch. subst sch.
  assert (Hp' := @urlparse_steps R ((c :: t) ++ lit "://" ++ n)
                   (c :: t) (lit "//" ++ n ++ []) n []).
  assert (Hcl : cleaned ((c :: t) ++ lit "://" ++ n)
                = (c :: t) ++ chr ":" :: lit "//" ++ n ++ []).
  { rewrite app_nil_r.
    change ((c :: t) ++ lit "://" ++ n) with (c :: t ++ lit "://" ++ n).
    apply cleaned_fixed; [exact Hc0 |].
    change (c :: t ++ lit "://" ++ n) with ((c :: t) ++ lit "://" ++ n).
    apply Forall_app. split.
    - eapply Forall_impl; [| exact Hsc]. intros x Hx.
      unfold Str.has. simpl.
      destruct (N.eqb_spec x 9); [subst; discriminate Hx |].
      destruct (N.eqb_spec x 13); [subst; discriminate Hx |].
      destruct (N.eqb_spec x 10); [subst; discriminate Hx |]. reflexivity.
    - apply Forall_app. split; [repeat constructor | exact Hun]. }
  rewrite Hcl, scheme_step_found, Hlow in Hp' by exact Hv.
  specialize (Hp' eq_refl).
  assert (Hstep' : netloc_step (lit "//" ++ n ++ []) = Returns (n, [])).
  { unfold netloc_step.
    change (Str.eqb (Str.upto (lit "//" ++ n ++ []) 2) (lit "//")) with true.
    cbv iota. rewrite splitnetloc_host by (auto).
    rewrite Hb1, bind_ret, Hb2. reflexivity. }
  specialize (Hp' Hstep' Hcheck).
  rewrite (normalize_to_origin_with_host _ Hp') by exact Hn.
  reflexivity.
Qed.

End Twice.

(** ** What never stays in an origin *)

Lemma has_app (a b : str) (c : char) :
  Str.has (a ++ b) c = Str.has a c || Str.has b c.
Proof. unfold Str.has. apply existsb_app. Qed.

Section NoQuery.
Context {R : PyRuntime}.

(** The path that [urlparse] returns has no [?] and no [#]. *)
Lemma urlparse_path_no_delim (url : str) (p : UrlParse.ParseResult) :
  UrlParse.urlparse url = Returns p ->
  forall c, In c (lit "?#") -> Str.has (UrlParse.path p) c = false.
Proof.
  unfold UrlParse.urlparse. rewrite urlsplit_steps.
  destruct (netloc_step (snd (scheme_step (cleaned url)))) as [[n rest] | e];
    [| discriminate].
  rewrite bind_ret. cbn [fst snd].
  destruct (UrlParse._checknetloc n) as [[] | e]; [| discriminate].
  rewrite !bind_ret.
  set (u1 := fst (fragment_step rest)).
  set (u2 := fst (query_step u1)).
  assert (H1 : Forall (fun x => x <> chr "#") u1).
  { apply has_false.
    apply (@fragment_step_inv (fun _ => True) rest).
    apply Forall_forall. auto. }
  assert (H2 : Forall (fun x => x <> chr "#") u2
               /\ Forall (fun x => x <> chr "?") u2).
  { destruct (@query_step_inv (fun x => x <> chr "#") u1 H1) as [Ha Hb].
    split; [exact Ha | apply has_false; exact Hb]. }
  destruct H2 as [Hf Hq].
  assert (Hpath : forall path,
            Forall (fun x => x <> chr "#") path ->
            Forall (fun x => x <> chr "?") path ->
            forall c, In c (lit "?#") -> Str.has path c = false).
  { intros path Ha Hb c [<- | [<- | []]]; apply has_false; assumption. }
  set (b := UrlParse.mem _ _ && _).
  destruct b.
  - pose proof (splitparams_prefix Hf) as [Hf' _].
    pose proof (splitparams_prefix Hq) as [Hq' _].
    destruct (UrlParse._splitparams u2) as [path params].
    intros H. injection H as <-. cbn [UrlParse.path fst] in *.
    apply Hpath; assumption.
  - intros H. injection H as <-. cbn [UrlParse.path].
    apply Hpath; assumption.
Qed.

Lemma valid_scheme_no_delim (s : str) (c : char) :
  valid_scheme s -> In c (lit "?#") -> Str.has s c = false.
Proof.
  intros [_ H] Hc. apply has_false. rewrite forallb_forall in H.
  apply Forall_forall. intros x Hx. specialize (H x Hx). intros ->.
  simpl in Hc. destruct Hc as [<- | [<- | []]]; revert H; vm_compute;
    discriminate.
Qed.

(** X19. Whatever the input, the origin returned starts with a valid scheme and
    a colon, and has neither query nor fragment: no [?] and no [#] is left
    in it. *)
Theorem origin_has_no_query_or_fragment (url o : str) :
  normalize_to_origin url = Returns o ->
  (exists scheme rest, o = scheme ++ chr ":" :: rest /\ valid_scheme scheme)
  /\ Str.has o (chr "?") = false
  /\ Str.has o (chr "#") = false.
Proof.
  unfold normalize_to_origin.
  destruct (UrlParse.urlparse url) as [p | e] eqn:Hp; [| discriminate].
  rewrite bind_ret. cbv zeta. intros H. injection H as <-.
  set (sch := if negb (Str.is_empty (UrlParse.scheme p)) then UrlParse.scheme p
              else lit "https").
  set (n := if negb (Str.is_empty (UrlParse.netloc p)) then UrlParse.netloc p
            else UrlParse.path p).
  assert (Hsch : valid_scheme sch).
  { unfold sch. destruct (urlparse_inv _ Hp) as (rest & _ & _ & ->).
    destruct (scheme_step_lower (cleaned url)) as [-> | [H _]].
    - split; reflexivity.
    - destruct (fst (scheme_step (cleaned url))); [destruct H as [[] _] |].
      exact H. }
  assert (Hn : forall c, In c (lit "?#") -> Str.has n c = false).
  { intros c Hc. unfold n.
    destruct (negb (Str.is_empty (UrlParse.netloc p))).
    - apply (urlparse_netloc_no_delim _ Hp).
      simpl in Hc. simpl. tauto.
    - apply (urlparse_path_no_delim _ Hp). exact Hc. }
  assert (Hne : sch <> []) by (destruct Hsch as [H _]; destruct sch; [contradiction | discriminate]).
  destruct (@urlunparse_origin sch n Hne) as (Y & -> & HY).
  split; [exists sch, Y; auto |].
  assert (HY' : forall c, In c (lit "?#") -> Str.has Y c = false).
  { intros c Hc. destruct HY as [-> | ->]; [reflexivity |].
    rewrite has_app, (Hn c Hc).
    simpl in Hc. destruct Hc as [<- | [<- | []]]; reflexivity. }
  split.
  - rewrite has_app, (@valid_scheme_no_delim sch (chr "?") Hsch) by (simpl; tauto).
    change (Str.has (chr ":" :: Y) (chr "?")) with (Str.has Y (chr "?")).
    apply HY'. simpl. tauto.
  - rewrite has_app, (@valid_scheme_no_delim sch (chr "#") Hsch) by (simpl; tauto).
    change (Str.has (chr ":" :: Y) (chr "#")) with (Str.has Y (chr "#")).
    apply HY'. simpl. tauto.
Qed.

End NoQuery.

(** ** Blank URLs, the wildcard group and the names of bots *)


Section Sites.
Context {R : PyRuntime}.



Lemma check_bots_const rp origin b :
  (forall ua, RobotFileParser.can_fetch rp ua (origin ++ lit "/") = Returns b) ->
  forall bots,
    check_bots rp origin bots [] []
    = Returns (List.map (fun ua => mkBotResult ua b b None) bots,
               if b then [] else bots).
Proof.
  intros H. induction bots as [| ua bots IH]; simpl.
  - destruct b; reflexivity.
  - rewrite H, bind_ret, check_bots_acc, IH, bind_ret.
    destruct b; reflexivity.
Qed.

Lemma star_disallow_entry_allowance t :
  Entry.allowance star_disallow_entry t = negb (Str.startswith t (lit "/")).
Proof.
  unfold Entry.allowance, star_disallow_entry. simpl.
  unfold RuleLine.applies_to. simpl.
  destruct (Str.startswith t (lit "/")); reflexivity.
Qed.

Lemma parse_wildcard_disallow u p :
  RobotFileParser.parse (fresh_parser u p) (Str.splitlines wildcard_disallow_txt)
  = (RobotFileParser.mk [] [] (Some star_disallow_entry) false false u
       (UrlParse.netloc p) (UrlParse.path p) true, None).
Proof. vm_compute. reflexivity. Qed.

(** [can_fetch] looks at the user agent only through the name before the
    first slash, in lower case. *)
Lemma applies_to_key e ua ua' :
  Str.lower (hd [] (Str.split ua (chr "/")))
  = Str.lower (hd [] (Str.split ua' (chr "/"))) ->
  Entry.applies_to e ua = Entry.applies_to e ua'.
Proof.
  intros H. unfold Entry.applies_to. rewrite H. reflexivity.
Qed.

Lemma first_entry_key es ua ua' :
  Str.lower (hd [] (Str.split ua (chr "/")))
  = Str.lower (hd [] (Str.split ua' (chr "/"))) ->
  RobotFileParser.first_entry es ua = RobotFileParser.first_entry es ua'.
Proof.
  intros H. induction es as [| e es IH]; simpl; [reflexivity |].
  rewrite (applies_to_key e _ _ H), IH. reflexivity.
Qed.

Lemma can_fetch_key rp ua ua' url :
  Str.lower (hd [] (Str.split ua (chr "/")))
  = Str.lower (hd [] (Str.split ua' (chr "/"))) ->
  RobotFileParser.can_fetch rp ua url = RobotFileParser.can_fetch rp ua' url.
Proof.
  intros H. unfold RobotFileParser.can_fetch.
  rewrite (first_entry_key _ _ _ H). reflexivity.
Qed.

Variable requests_get : str -> fetched.


(** X21. When the site serves "User-agent: * / Disallow: /", every bot asked
    about is blocked, whatever its name, for every plain URL. *)
Theorem wildcard_disallow_blocks_all url bots includeRobotsTxt :
  forallb plain_char url = true ->
  exists o,
    normalize_to_origin url = Returns o
    /\ (requests_get (robots_url_of o) = Response 200%Z wildcard_disallow_txt ->
        check_ai_bot_block requests_get url bots includeRobotsTxt
        = Returns (mkCheckResponse true (robots_url_of o) (Some 200%Z)
                     bots
                     (List.map (fun ua => mkBotResult ua false false None) bots)
                     (if includeRobotsTxt then Some wildcard_disallow_txt
                      else None)
                     [])).
Proof.
  intros H. rewrite forallb_forall, <- Forall_forall in H.
  destruct (plain_url_root H) as (o & p & t & Ho & Hp & Ht & Hs).
  exists o. split; [exact Ho |]. intros Hget.
  rewrite check_ai_bot_block_eq, Ho, bind_ret, Hget.
  change (negb (200 =? 200)%Z || Str.is_empty (Str.strip wildcard_disallow_txt))
    with false.
  cbv iota. rewrite Hp, bind_ret. cbv zeta.
  rewrite parse_wildcard_disallow. cbn [fst snd].
  rewrite (@check_bots_const _ _ false); [reflexivity |].
  intros ua. rewrite can_fetch_parsed with (t := t) by (reflexivity || exact Ht).
  cbn [RobotFileParser.entries RobotFileParser.first_entry
       RobotFileParser.default_entry].
  rewrite star_disallow_entry_allowance, Hs. reflexivity.
Qed.

(** X22. The verdict on a bot depends on its name only up to case and to what
    follows the first slash: two results whose user agents agree on that
    have the same verdict. *)
Theorem agent_name_matching url bots includeRobotsTxt resp r1 r2 :
  check_ai_bot_block requests_get url bots includeRobotsTxt = Returns resp ->
  In r1 (results resp) -> In r2 (results resp) ->
  Str.lower (hd [] (Str.split (userAgent r1) (chr "/")))
  = Str.lower (hd [] (Str.split (userAgent r2) (chr "/"))) ->
  canFetchRoot r1 = canFetchRoot r2.
Proof.
  intros H Hin1 Hin2 Hkey. apply check_ai_bot_block_cases in H.
  destruct H as [o cls _ _ | o status text _ _ _
                | o text rp0 rp1 rp exc new _ _ _ _ _ _ _ Hall];
    simpl in Hin1; try contradiction.
  simpl in Hin2. rewrite Forall_forall in Hall.
  destruct (Hall _ Hin1) as (Hc1 & _). destruct (Hall _ Hin2) as (Hc2 & _).
  rewrite (can_fetch_key rp _ _ _ Hkey), Hc2 in Hc1.
  injection Hc1 as Hc. symmetry. exact Hc.
Qed.

End Sites.

(** ** Rules that do not forbid a path *)

Section NoDisallow.
Context {R : PyRuntime}.

Lemma RuleLine_init_allow v r :
  RuleLine.init v true = Returns r -> RuleLine.allowance r = true.
Proof.
  unfold RuleLine.init. unfold bind.
  destruct (UrlParse.urlparse v); [| discriminate].
  destruct (Quote.quote _); [| discriminate].
  intros H. injection H as <-. simpl.
  destruct (Str.is_empty v); reflexivity.
Qed.

Lemma RuleLine_init_empty r :
  RuleLine.init [] false = Returns r -> RuleLine.allowance r = true.
Proof.
  unfold RuleLine.init. unfold bind.
  destruct (UrlParse.urlparse []); [| discriminate].
  destruct (Quote.quote _); [| discriminate].
  intros H. injection H as <-. reflexivity.
Qed.

Lemma add_entry_passes t rp e :
  parser_passes t rp -> entry_passes t e ->
  parser_passes t (RobotFileParser._add_entry rp e).
Proof.
  intros Hrp Ha. pose proof Hrp as [He Hd].
  unfold RobotFileParser._add_entry.
  destruct (UrlParse.mem (lit "*") (Entry.useragents e)).
  - destruct (RobotFileParser.default_entry rp) eqn:E; [exact Hrp |].
    split; [exact He |]. simpl. intros e' H. injection H as <-. exact Ha.
  - split; [| exact Hd]. simpl. apply Forall_app. split; [exact He |].
    constructor; [exact Ha | constructor].
Qed.

Lemma entry_passes_init t : entry_passes t Entry.init.
Proof. constructor. Qed.

(** One line of robots.txt keeps the parser harmless for [t] when its
    [Disallow] rule, if it is one, does not forbid [t]. *)
Lemma parse_line_passes t l line l' :
  RobotFileParser.parse_line l line = Returns l' ->
  (forall v r, line_field line = Some (lit "disallow", v) ->
               RuleLine.init v false = Returns r -> rule_passes t r) ->
  parser_passes t (RobotFileParser.self l)
  /\ entry_passes t (RobotFileParser.entry l) ->
  parser_passes t (RobotFileParser.self l')
  /\ entry_passes t (RobotFileParser.entry l').
Proof.
  unfold RobotFileParser.parse_line, line_field. cbv zeta.
  set (l0 := if Str.is_empty line then _ else _).
  intros H Hline Hinv.
  assert (H0 : parser_passes t (RobotFileParser.self l0)
               /\ entry_passes t (RobotFileParser.entry l0)).
  { unfold l0. destruct (Str.is_empty line); [| exact Hinv].
    destruct (RobotFileParser.state l =? 1)%Z;
      [split; [apply Hinv | apply entry_passes_init] |].
    destruct (RobotFileParser.state l =? 2)%Z; [| exact Hinv].
    split; [apply add_entry_passes; apply Hinv | apply entry_passes_init]. }
  clearbody l0. clear Hinv l. revert H Hline.
  set (s := Str.strip _). clearbody s.
  destruct (Str.is_empty s); [intros H _; injection H as <-; exact H0 |].
  destruct (Str.split1 s (chr ":")) as [| key [| value [| x rest]]];
    try (intros H _; injection H as <-; exact H0).
  set (v := Quote.unquote _). clearbody v.
  set (k := Str.lower _). clearbody k.
  destruct H0 as [Hs He].
  destruct (Str.eqb k (lit "user-agent")).
  { intros H _. injection H as <-. cbn [RobotFileParser.self RobotFileParser.entry].
    destruct (RobotFileParser.state l0 =? 2)%Z;
      cbn [RobotFileParser.self RobotFileParser.entry].
    - split; [apply add_entry_passes; assumption | constructor].
    - split; assumption. }
  destruct (Str.eqb k (lit "disallow")) eqn:Ek.
  { apply Str_eqb_eq in Ek. subst k.
    intros H Hline.
    destruct (negb (RobotFileParser.state l0 =? 0)%Z);
      [| injection H as <-; split; assumption].
    destruct (RuleLine.init v false) as [r | e] eqn:Er; [| discriminate H].
    rewrite bind_ret in H. injection H as <-.
    cbn [RobotFileParser.self RobotFileParser.entry]. split; [exact Hs |].
    unfold entry_passes. simpl. apply Forall_app. split; [exact He |].
    constructor; [exact (Hline v r eq_refl Er) | constructor]. }
  intros H _.
  destruct (Str.eqb k (lit "allow")).
  { destruct (negb (RobotFileParser.state l0 =? 0)%Z);
      [| injection H as <-; split; assumption].
    destruct (RuleLine.init v true) as [r | e] eqn:Er; [| discriminate H].
    rewrite bind_ret in H. injection H as <-.
    cbn [RobotFileParser.self RobotFileParser.entry]. split; [exact Hs |].
    unfold entry_passes. simpl. apply Forall_app. split; [exact He |].
    constructor; [left; exact (RuleLine_init_allow _ Er) | constructor]. }
  destruct (Str.eqb k (lit "crawl-delay")).
  { destruct (negb (RobotFileParser.state l0 =? 0)%Z);
      [| injection H as <-; split; assumption].
    destruct (str_isdigit (Str.strip v));
      [destruct (builtin_int v); [| discriminate H] |];
      rewrite bind_ret in H; injection H as <-; split; assumption. }
  destruct (Str.eqb k (lit "request-rate")).
  { destruct (negb (RobotFileParser.state l0 =? 0)%Z);
      [| injection H as <-; split; assumption].
    destruct (Str.split v (chr "/")) as [| n0 [| n1 [| y ys]]];
      try (rewrite bind_ret in H; injection H as <-; split; assumption).
    destruct (str_isdigit (Str.strip n0) && str_isdigit (Str.strip n1));
      [destruct (builtin_int n0); [destruct (builtin_int n1) |];
       try discriminate H |];
      rewrite bind_ret in H; injection H as <-; split; assumption. }
  destruct (Str.eqb k (lit "sitemap"));
    injection H as <-; split; assumption.
Qed.

Lemma parse_lines_passes t lines :
  forall l,
    (forall line v r, In line lines ->
                      line_field line = Some (lit "disallow", v) ->
                      RuleLine.init v false = Returns r -> rule_passes t r) ->
    parser_passes t (RobotFileParser.self l)
    /\ entry_passes t (RobotFileParser.entry l) ->
    parser_passes t (fst (RobotFileParser.parse_lines l lines)).
Proof.
  induction lines as [| line lines IH]; intros l Hl Hinv; simpl.
  - destruct (RobotFileParser.state l =? 2)%Z; simpl; [| apply Hinv].
    apply add_entry_passes; apply Hinv.
  - destruct (RobotFileParser.parse_line l line) as [l' | e] eqn:E;
      simpl; [| apply Hinv].
    apply IH.
    + intros ln v r Hin. apply Hl. right. exact Hin.
    + apply (@parse_line_passes t l line l' E); [| exact Hinv].
      intros v r. apply Hl. left. reflexivity.
Qed.

Lemma parse_fresh_passes t u p lines :
  (forall line v r, In line lines ->
                    line_field line = Some (lit "disallow", v) ->
                    RuleLine.init v false = Returns r -> rule_passes t r) ->
  parser_passes t (fst (RobotFileParser.parse (fresh_parser u p) lines)).
Proof.
  intros H. apply parse_lines_passes; [exact H |].
  split; [split; [constructor | discriminate] | constructor].
Qed.

Lemma first_rule_passes rules t :
  Forall (rule_passes t) rules -> Entry.first_rule rules t = true.
Proof.
  induction 1 as [| r rules Hr _ IH]; simpl; [reflexivity |].
  destruct Hr as [Hr | Hr]; rewrite Hr; [| exact IH].
  destruct (RuleLine.applies_to r t); [reflexivity | exact IH].
Qed.

Lemma first_entry_in es ua e :
  RobotFileParser.first_entry es ua = Some e -> In e es.
Proof.
  induction es as [| x es IH]; simpl; [discriminate |].
  destruct (Entry.applies_to x ua).
  - intros H. injection H as <-. left. reflexivity.
  - intros H. right. exact (IH H).
Qed.

(** A parser harmless for the path that [can_fetch] looks up answers yes. *)
Lemma can_fetch_passes rp ua url t b :
  RobotFileParser.fetch_path url = Returns t ->
  parser_passes t rp ->
  RobotFileParser.disallow_all rp = false ->
  RobotFileParser.last_checked rp = true ->
  RobotFileParser.can_fetch rp ua url = Returns b -> b = true.
Proof.
  intros Ht [He Hd] Hda Hl. unfold RobotFileParser.can_fetch.
  rewrite Hda, Hl, Ht. cbn [negb].
  destruct (RobotFileParser.allow_all rp); [congruence |].
  rewrite bind_ret.
  destruct (RobotFileParser.first_entry _ ua) as [e |] eqn:E.
  - intros H. injection H as <-. apply first_entry_in in E.
    rewrite Forall_forall in He. apply first_rule_passes, He, E.
  - destruct (RobotFileParser.default_entry rp) as [e |]; [| congruence].
    intros H. injection H as <-. apply first_rule_passes, Hd. reflexivity.
Qed.

Lemma filter_is_blocked_none (new : list BotResult) :
  (forall r, In r new -> canFetchRoot r = true) -> filter is_blocked new = [].
Proof.
  induction new as [| r new IH]; intros H; [reflexivity |].
  simpl. unfold is_blocked at 1. rewrite (H r) by (left; reflexivity).
  simpl. apply IH. intros r' Hin. apply H. right. exact Hin.
Qed.

Variable requests_get : str -> fetched.

(** X23. A robots.txt without a [Disallow] line, or whose [Disallow] lines all
    have an empty value, blocks no bot. *)
Theorem no_disallow_blocks_nobody url bots includeRobotsTxt o text resp :
  normalize_to_origin url = Returns o ->
  requests_get (robots_url_of o) = Response 200%Z text ->
  (forall line v, In line (Str.splitlines text) ->
                  line_field line = Some (lit "disallow", v) -> v = []) ->
  check_ai_bot_block requests_get url bots includeRobotsTxt = Returns resp ->
  blockedBots resp = []
  /\ forall r, In r (results resp) -> canFetchRoot r = true.
Proof.
  intros Ho Hget Hlines. rewrite check_ai_bot_block_eq, Ho, bind_ret, Hget.
  destruct (negb (200 =? 200)%Z || Str.is_empty (Str.strip text));
    [intros H; injection H as <-; simpl; split; [reflexivity | contradiction] |].
  destruct (UrlParse.urlparse (robots_url_of o)) as [p | e]; [| discriminate].
  rewrite bind_ret. cbv zeta.
  destruct (check_bots _ _ bots [] []) as [[rs bl] | e] eqn:Hloop;
    [| discriminate].
  rewrite bind_ret. intros H. injection H as <-. cbn [blockedBots results fst snd].
  apply check_bots_spec in Hloop. destruct Hloop as (new & -> & -> & _ & Hall).
  simpl.
  destruct (parse_fresh_flags (robots_url_of o) p (Str.splitlines text))
    as (Hd & _ & Hl).
  assert (Hok : forall r, In r new -> canFetchRoot r = true).
  { intros r Hin. rewrite Forall_forall in Hall.
    destruct (Hall r Hin) as (Hc & _).
    destruct (RobotFileParser.fetch_path
                (Str.rstrip_chars o (lit "/") ++ lit "/")) as [t | e] eqn:Ht.
    - refine (@can_fetch_passes _ _ _ t _ Ht _ Hd Hl Hc).
      apply parse_fresh_passes. intros line v r0 Hin' Hf Hr.
      rewrite (Hlines line v Hin' Hf) in Hr.
      left. exact (RuleLine_init_empty Hr).
    - unfold RobotFileParser.can_fetch in Hc.
      rewrite Hd, Hl, Ht in Hc. cbn [negb] in Hc.
      destruct (RobotFileParser.allow_all _); [congruence | discriminate Hc]. }
  split; [| exact Hok].
  rewrite filter_is_blocked_none by exact Hok. reflexivity.
Qed.

End NoDisallow.

(** ** The root of a URL with a host *)

Lemma rstrip_chars_keeps (a h chars : str) :
  h <> [] ->
  (forall c, In c chars -> Str.has h c = false) ->
  Str.rstrip_chars (a ++ h) chars = a ++ h.
Proof.
  intros Hne Hh. destruct (exists_last Hne) as (h' & c & ->).
  unfold Str.rstrip_chars. rewrite app_assoc.
  rewrite rstrip_by_app; [reflexivity |].
  destruct (Str.has chars c) eqn:E; [| reflexivity].
  apply has_true in E. specialize (Hh c E).
  apply has_false in Hh. rewrite Forall_forall in Hh.
  contradiction (Hh c); [apply in_or_app; right; left |]; reflexivity.
Qed.

(** Quoting keeps the slash a path starts with and writes at least one
    character after it for the next. *)
Lemma quote_from_bytes_subpath (c : char) (t : str) :
  exists x t',
    Quote.quote_from_bytes (chr "/" :: c :: t) (lit "/") = chr "/" :: x :: t'.
Proof.
  unfold Quote.quote_from_bytes. cbn [Str.is_empty].
  destruct (Str.is_empty _); [eexists; eexists; reflexivity |].
  cbn [flat_map]. unfold Quote.quoter at 1 2.
  replace (Quote.always_safe (chr "/") || Str.has (lit "/") (chr "/"))
    with true by reflexivity.
  destruct (Quote.always_safe c || Str.has (lit "/") c);
    cbn [app]; eexists; eexists; reflexivity.
Qed.

Section Root.
Context {R : PyRuntime}.

(** What [can_fetch] looks up for the root of an origin with a host is
    the path "/". *)
Lemma fetch_path_origin_root (s h : str) :
  valid_scheme s ->
  Forall (fun c => inner_char c = true) h ->
  Str.has h (chr "/") = false ->
  RobotFileParser.fetch_path ((s ++ lit "://" ++ h) ++ lit "/")
  = Returns (lit "/").
Proof.
  intros Hs Hh Hslash.
  destruct (valid_scheme_clean Hs) as (Hsc & c & t & Ec & Hc0).
  assert (Hin : Forall (fun c => inner_char c = true)
                  ((s ++ lit "://" ++ h) ++ lit "/")).
  { apply Forall_app. split; [| repeat constructor].
    apply Forall_app. split.
    - destruct Hs as [_ Hs]. rewrite forallb_forall in Hs.
      apply Forall_forall. intros x Hx. apply scheme_char_inner, Hs, Hx.
    - apply Forall_app. split; [repeat constructor | exact Hh]. }
  unfold RobotFileParser.fetch_path.
  rewrite unquote_no_percent.
  2: { apply has_false. eapply Forall_impl; [| exact Hin].
       intros x Hx ->. revert Hx. vm_compute. discriminate. }
  assert (Hp := @urlparse_steps R ((s ++ lit "://" ++ h) ++ lit "/")
                  (Str.lower s) (lit "//" ++ h ++ lit "/") h (lit "/")).
  assert (Hcl : cleaned ((s ++ lit "://" ++ h) ++ lit "/")
                = s ++ chr ":" :: lit "//" ++ h ++ lit "/").
  { replace (s ++ chr ":" :: lit "//" ++ h ++ lit "/")
      with ((s ++ lit "://" ++ h) ++ lit "/")
      by (rewrite <- !app_assoc; reflexivity).
    revert Hin. rewrite <- !app_assoc. rewrite Ec. cbn [app]. intros Hin.
    apply cleaned_id; [exact Hc0 |].
    eapply Forall_impl; [| exact Hin]. intros x. apply inner_char_clean. }
  rewrite Hcl, scheme_step_found in Hp by exact Hs.
  specialize (Hp eq_refl).
  rewrite netloc_step_host in Hp;
    [| exact Hh | exact Hslash
     | right; exists (chr "/"), []; split; [reflexivity | left; reflexivity]].
  specialize (Hp eq_refl).
  rewrite checknetloc_clean in Hp
    by (eapply Forall_impl; [| exact Hh]; intros x; apply inner_char_clean).
  specialize (Hp eq_refl). cbv zeta in Hp.
  change (fragment_step (lit "/")) with (lit "/", @nil char) in Hp.
  cbn [fst snd] in Hp.
  change (query_step (lit "/")) with (lit "/", @nil char) in Hp.
  cbn [fst snd] in Hp.
  change (Str.has (lit "/") (chr ";")) with false in Hp.
  rewrite andb_false_r in Hp. cbn [fst snd] in Hp.
  rewrite Hp, bind_ret.
  cbn [UrlParse.path UrlParse.params UrlParse.query UrlParse.fragment].
  reflexivity.
Qed.

(** A [Disallow] rule for a path below the root does not apply to "/":
    its path is a slash and at least one more character. *)
Lemma RuleLine_init_subpath (c : char) (t : str) (r : RuleLine.t) :
  Forall (fun c => inner_char c = true) (c :: t) ->
  Str.has (c :: t) (chr ";") = false ->
  c <> chr "/" ->
  RuleLine.init (chr "/" :: c :: t) false = Returns r ->
  RuleLine.applies_to r (lit "/") = false.
Proof.
  intros Hct Hsemi Hc.
  assert (Hin : Forall (fun c => inner_char c = true) (chr "/" :: c :: t)).
  { constructor; [reflexivity | exact Hct]. }
  assert (Hclean : Forall (fun c => clean_char c = true) (chr "/" :: c :: t)).
  { eapply Forall_impl; [| exact Hin]. intros x. apply inner_char_clean. }
  assert (Hc47 : (c =? 47)%N = false) by (apply N.eqb_neq; exact Hc).
  assert (Hp := @urlparse_steps R (chr "/" :: c :: t) []
                  (chr "/" :: c :: t) [] (chr "/" :: c :: t)).
  rewrite (@cleaned_id (chr "/") (c :: t) eq_refl Hclean) in Hp.
  specialize (Hp (@scheme_step_no_letter R (chr "/") _ eq_refl)).
  rewrite netloc_step_other in Hp.
  2: { rewrite upto2_startswith. cbn. rewrite Hc47. reflexivity. }
  specialize (Hp eq_refl eq_refl).
  rewrite fragment_step_none in Hp by (apply inner_no_delim; [exact Hin | simpl; tauto]).
  cbn [fst snd] in Hp.
  rewrite query_step_none in Hp by (apply inner_no_delim; [exact Hin | simpl; tauto]).
  cbn [fst snd] in Hp. cbv zeta in Hp.
  replace (Str.has (chr "/" :: c :: t) (chr ";")) with false in Hp
    by (symmetry; exact Hsemi).
  rewrite andb_false_r in Hp. cbn [fst snd] in Hp.
  unfold RuleLine.init. rewrite Hp, bind_ret.
  cbn [UrlParse.scheme UrlParse.netloc UrlParse.path UrlParse.params
       UrlParse.query UrlParse.fragment].
  rewrite urlunparse_path. cbn [Str.is_empty negb].
  unfold Quote.quote. cbn [Str.is_empty].
  rewrite utf8_encode_ascii by (apply inner_ascii; exact Hin).
  rewrite bind_ret.
  destruct (quote_from_bytes_subpath c t) as (x & t' & ->).
  rewrite bind_ret. intros H. injection H as <-.
  reflexivity.
Qed.

Variable requests_get : str -> fetched.

(** X24. For a URL in which [urlparse] finds a host, [robotsUrl] is the scheme,
    https when the URL has none, the host, and "/robots.txt". *)
Theorem robotsUrl_of_host url p bots includeRobotsTxt resp :
  UrlParse.urlparse url = Returns p ->
  UrlParse.netloc p <> [] ->
  check_ai_bot_block requests_get url bots includeRobotsTxt = Returns resp ->
  robotsUrl resp
  = (if Str.is_empty (UrlParse.scheme p) then lit "https" else UrlParse.scheme p)
    ++ lit "://" ++ UrlParse.netloc p ++ lit "/robots.txt".
Proof.
  intros Hp Hn H.
  destruct (normalize_to_origin_of_host _ Hp Hn) as [Ho Hdelim].
  apply check_ai_bot_block_cases in H.
  assert (E : robotsUrl resp
              = robots_url_of
                  ((if Str.is_empty (UrlParse.scheme p) then lit "https"
                    else UrlParse.scheme p) ++ lit "://" ++ UrlParse.netloc p)).
  { destruct H as [o cls Ho' _ | o status text Ho' _ _
                  | o text rp0 rp1 rp exc new Ho' _ _ _ _ _ _ _];
      rewrite Ho in Ho'; injection Ho' as <-; reflexivity. }
  rewrite E. unfold robots_url_of.
  rewrite (app_assoc _ (lit "://")).
  rewrite rstrip_chars_keeps; [rewrite <- !app_assoc; reflexivity | exact Hn |].
  intros c [<- | []]. apply Hdelim. left. reflexivity.
Qed.

(** X25. Only the root is asked about: for a URL with a scheme and a host, a
    robots.txt whose [Disallow] lines all name something below the root (a
    slash, a character other than a slash, and more: "/private", "/*") or
    have no value blocks no bot. *)
Theorem subpath_rules_do_not_block s h rest bots includeRobotsTxt text resp :
  valid_scheme s ->
  h <> [] ->
  forallb inner_char h = true ->
  Str.has h (chr "/") = false ->
  rest = [] \/ (exists c t, rest = c :: t /\ In c (lit "/?#")) ->
  requests_get
    (List.map Str.lower_ascii_char s ++ lit "://" ++ h ++ lit "/robots.txt")
  = Response 200%Z text ->
  (forall line v,
     In line (Str.splitlines text) ->
     line_field line = Some (lit "disallow", v) ->
     v = []
     \/ exists c t,
          v = chr "/" :: c :: t
          /\ c <> chr "/"
          /\ forallb inner_char (c :: t) = true
          /\ Str.has (c :: t) (chr ";") = false) ->
  check_ai_bot_block requests_get (s ++ lit "://" ++ h ++ rest) bots
    includeRobotsTxt = Returns resp ->
  blockedBots resp = []
  /\ forall r, In r (results resp) -> canFetchRoot r = true.
Proof.
  intros Hs Hne Hh Hslash Hrest Hget Hlines.
  rewrite forallb_forall, <- Forall_forall in Hh.
  set (o := List.map Str.lower_ascii_char s ++ lit "://" ++ h).
  assert (Ho : normalize_to_origin (s ++ lit "://" ++ h ++ rest) = Returns o).
  { destruct (urlparse_scheme_host Hs Hh Hslash Hrest) as (p & Hp & Hsch & Hn).
    rewrite (normalize_to_origin_with_host _ Hp) by (rewrite Hn; exact Hne).
    rewrite Hsch, Hn. unfold o.
    pose proof (lower_nonempty Hs) as Hl.
    destruct (List.map Str.lower_ascii_char s);
      [contradiction Hl; reflexivity | reflexivity]. }
  assert (Hor : Str.rstrip_chars o (lit "/") = o).
  { unfold o. rewrite (app_assoc _ (lit "://")).
    apply rstrip_chars_keeps; [exact Hne |].
    intros c [<- | []]. exact Hslash. }
  assert (Hurl : robots_url_of o
                 = List.map Str.lower_ascii_char s ++ lit "://" ++ h
                   ++ lit "/robots.txt").
  { unfold robots_url_of. rewrite Hor. unfold o.
    rewrite <- !app_assoc. reflexivity. }
  rewrite <- Hurl in Hget.
  rewrite check_ai_bot_block_eq, Ho, bind_ret, Hget, Hor.
  destruct (negb (200 =? 200)%Z || Str.is_empty (Str.strip text));
    [intros H; injection H as <-; simpl; split; [reflexivity | contradiction] |].
  destruct (UrlParse.urlparse (robots_url_of o)) as [p | e]; [| discriminate].
  rewrite bind_ret. cbv zeta.
  destruct (check_bots _ _ bots [] []) as [[rs bl] | e] eqn:Hloop;
    [| discriminate].
  rewrite bind_ret. intros H. injection H as <-. cbn [blockedBots results fst snd].
  apply check_bots_spec in Hloop. destruct Hloop as (new & -> & -> & _ & Hall).
  simpl.
  destruct (parse_fresh_flags (robots_url_of o) p (Str.splitlines text))
    as (Hd & _ & Hl).
  assert (Ht : RobotFileParser.fetch_path (o ++ lit "/") = Returns (lit "/")).
  { apply fetch_path_origin_root; [| exact Hh | exact Hslash].
    apply valid_scheme_lower, Hs. }
  assert (Hok : forall r, In r new -> canFetchRoot r = true).
  { intros r Hin. rewrite Forall_forall in Hall.
    destruct (Hall r Hin) as (Hc & _).
    refine (@can_fetch_passes R _ _ _ (lit "/") _ Ht _ Hd Hl Hc).
    apply parse_fresh_passes. intros line v r0 Hin' Hf Hr.
    destruct (Hlines line v Hin' Hf) as [-> | (c & t & -> & Hc' & Ht' & Hsemi)].
    - left. exact (RuleLine_init_empty Hr).
    - right. rewrite forallb_forall, <- Forall_forall in Ht'.
      exact (@RuleLine_init_subpath c t r0 Ht' Hsemi Hc' Hr). }
  split; [| exact Hok].
  rewrite filter_is_blocked_none by exact Hok. reflexivity.
Qed.

End Root.

(** ** A group with a name *)

Section Named.
Context {R : PyRuntime}.

Lemma check_bots_map rp origin (f : str -> bool) :
  (forall ua, RobotFileParser.can_fetch rp ua (origin ++ lit "/")
              = Returns (f ua)) ->
  forall bots,
    check_bots rp origin bots [] []
    = Returns (List.map (fun ua => mkBotResult ua (f ua) (f ua) None) bots,
               filter (fun ua => negb (f ua)) bots).
Proof.
  intros H. induction bots as [| ua bots IH]; simpl; [reflexivity |].
  rewrite H, bind_ret, check_bots_acc, IH, bind_ret.
  destruct (f ua); reflexivity.
Qed.

Lemma gptbot_entry_applies_to ua :
  Entry.applies_to gptbot_entry ua
  = Str.contains (Str.lower (hd [] (Str.split ua (chr "/")))) (lit "gptbot").
Proof.
  unfold Entry.applies_to, gptbot_entry. cbn [Entry.useragents Entry.any_agent_in].
  change (Str.eqb (lit "GPTBot") (lit "*")) with false. cbv iota.
  change (Str.lower (lit "GPTBot")) with (lit "gptbot").
  destruct (Str.contains _ _); reflexivity.
Qed.

Variable requests_get : str -> fetched.

(** X26. When the site serves "User-agent: GPTBot / Disallow: /", a bot is
    blocked exactly when its name, before the first slash and in lower
    case, contains "gptbot"; every other bot passes. *)
Theorem named_group_matches_by_substring url bots includeRobotsTxt :
  forallb plain_char url = true ->
  exists o,
    normalize_to_origin url = Returns o
    /\ (requests_get (robots_url_of o) = Response 200%Z gptbot_blocked_txt ->
        exists resp,
          check_ai_bot_block requests_get url bots includeRobotsTxt
          = Returns resp
          /\ List.map userAgent (results resp) = bots
          /\ forall r, In r (results resp) ->
               canFetchRoot r
               = negb (Str.contains
                         (Str.lower (hd [] (Str.split (userAgent r) (chr "/"))))
                         (lit "gptbot"))).
Proof.
  intros H. rewrite forallb_forall, <- Forall_forall in H.
  destruct (plain_url_root H) as (o & p & t & Ho & Hp & Ht & Hs).
  exists o. split; [exact Ho |]. intros Hget.
  rewrite check_ai_bot_block_eq, Ho, bind_ret, Hget.
  change (negb (200 =? 200)%Z || Str.is_empty (Str.strip gptbot_blocked_txt))
    with false.
  cbv iota. rewrite Hp, bind_ret. cbv zeta.
  rewrite parse_gptbot_blocked. cbn [fst snd].
  rewrite (@check_bots_map _ _
             (fun ua => negb (Str.contains
                                (Str.lower (hd [] (Str.split ua (chr "/"))))
                                (lit "gptbot")))).
  - rewrite bind_ret. eexists. split; [reflexivity |].
    cbn [results fst]. split.
    + rewrite map_map. simpl. apply map_id.
    + intros r Hin. apply in_map_iff in Hin. destruct Hin as (ua & <- & _).
      reflexivity.
  - intros ua. rewrite can_fetch_parsed with (t := t) by (reflexivity || exact Ht).
    cbn [RobotFileParser.entries RobotFileParser.first_entry
         RobotFileParser.default_entry].
    rewrite gptbot_entry_applies_to.
    destruct (Str.contains _ _); [| reflexivity].
    rewrite gptbot_entry_allowance, Hs. reflexivity.
Qed.

End Named.

(** ** Line endings *)

Lemma splitlines_from_crlf (text : str) :
  Str.has text 13%N = false ->
  forall cur,
    Str.splitlines_from (crlf text) cur = Str.splitlines_from text cur.
Proof.
  induction text as [| x s IH]; intros H cur; [reflexivity |].
  unfold Str.has in H. cbn [existsb] in H. apply orb_false_iff in H.
  destruct H as [Hx Hs]. fold (Str.has s 13%N) in Hs.
  rewrite N.eqb_sym in Hx.
  change (crlf (x :: s))
    with ((if N.eqb x 10%N then [13%N; 10%N] else [x]) ++ crlf s).
  destruct (N.eqb x 10%N) eqn:E10.
  - apply N.eqb_eq in E10. subst x. cbn [app Str.splitlines_from].
    change (N.eqb 13%N 13%N) with true. change (N.eqb 10%N 13%N) with false.
    change (Str.is_linebreak 10%N) with true. cbv iota.
    rewrite IH by exact Hs. reflexivity.
  - cbn [app Str.splitlines_from]. rewrite Hx.
    destruct (Str.is_linebreak x); rewrite IH by exact Hs; reflexivity.
Qed.

Lemma forallb_isspace_crlf (text : str) :
  forallb Str.isspace (crlf text) = forallb Str.isspace text.
Proof.
  induction text as [| x s IH]; [reflexivity |].
  change (crlf (x :: s))
    with ((if N.eqb x 10%N then [13%N; 10%N] else [x]) ++ crlf s).
  destruct (N.eqb x 10%N) eqn:E.
  - apply N.eqb_eq in E. subst x. exact IH.
  - cbn [app forallb]. apply f_equal. exact IH.
Qed.

Section LineEndings.
Context {R : PyRuntime}.

(** X27. Windows line endings change nothing: when the site serves the same
    robots.txt with every line feed written as carriage return and line
    feed, the handler gives the same answer (the text itself, which differs,
    left out). *)
Theorem crlf_line_endings status text url bots :
  Str.has text 13%N = false ->
  check_ai_bot_block (serves status (crlf text)) url bots false
  = check_ai_bot_block (serves status text) url bots false.
Proof.
  intros H. rewrite !check_ai_bot_block_eq.
  destruct (normalize_to_origin url) as [o | e]; [| reflexivity].
  rewrite !bind_ret. unfold serves.
  rewrite !strip_empty, forallb_isspace_crlf.
  destruct (negb (status =? 200)%Z || forallb Str.isspace text); [reflexivity |].
  destruct (UrlParse.urlparse (robots_url_of o)) as [p | e]; [| reflexivity].
  rewrite !bind_ret. cbv zeta.
  unfold Str.splitlines. rewrite (@splitlines_from_crlf text H). reflexivity.
Qed.

End LineEndings.

(** ** The two robots.txt files, for every origin *)

(** Quoting keeps a first slash, whatever follows it. *)
Lemma quote_keeps_root (t q : str) :
  Quote.quote (chr "/" :: t) = Returns q -> exists q', q = chr "/" :: q'.
Proof.
  unfold Quote.quote. cbn [Str.is_empty]. intros H.
  apply bind_Returns in H. destruct H as (bs & Hbs & H). injection H as <-.
  cbn [Codecs.utf8_encode] in Hbs.
  change (Codecs.utf8_encode_char (chr "/")) with (Returns [47%N]) in Hbs.
  rewrite bind_ret in Hbs.
  apply bind_Returns in Hbs. destruct Hbs as (rest & _ & Hbs).
  injection Hbs as <-.
  unfold Quote.quote_from_bytes. cbn [app Str.is_empty].
  destruct (Str.is_empty _); eexists; reflexivity.
Qed.

(** After two slashes, a string with no [?] and no [#] that ends with a
    slash is cut at a slash. *)
Lemma splitnetloc_root (y : str) :
  Str.has y (chr "?") = false ->
  Str.has y (chr "#") = false ->
  exists t,
    snd (UrlParse._splitnetloc (lit "//" ++ y ++ lit "/") 2) = chr "/" :: t.
Proof.
  intros Hq Hf.
  assert (Hlen : (2 <= List.length (lit "//" ++ y ++ lit "/"))%nat)
    by (simpl; lia).
  destruct (splitnetloc_spec _ Hlen) as (d & Hd & Es & Hmin & Hex).
  change (skipn 2 (lit "//" ++ y ++ lit "/")) with (y ++ lit "/") in *.
  set (l := y ++ lit "/") in *.
  destruct (Str.index_of 47%N l) as [k |] eqn:Ek.
  2:{ apply index_of_None in Ek.
      assert (Hin : Str.has l 47%N = true).
      { apply has_true. subst l. apply in_or_app. right. left. reflexivity. }
      congruence. }
  pose proof (Hmin 47%N k (or_introl eq_refl) Ek) as Hle.
  pose proof (index_of_Some _ _ Ek) as (_ & _ & Hk).
  destruct Hex as (c & Hin & Ed); [lia |].
  apply index_of_Some in Ed. destruct Ed as (Ed & _ & Hlt).
  assert (c = 47%N) as ->.
  { assert (Hcl : In c l) by (rewrite Ed; apply in_or_app; right; left; reflexivity).
    apply has_true in Hcl. unfold l in Hcl. rewrite has_app in Hcl.
    simpl in Hin. destruct Hin as [<- | [<- | [<- | []]]]; [reflexivity | |].
    - change (chr "?") with 63%N in Hq. rewrite Hq in Hcl. discriminate Hcl.
    - change (chr "#") with 35%N in Hf. rewrite Hf in Hcl. discriminate Hcl. }
  rewrite Es. cbn [snd]. exists (skipn (S d) l).
  rewrite Ed at 1. rewrite skipn_app, skipn_all2 by (rewrite length_firstn; lia).
  rewrite length_firstn. replace (d - Nat.min d (List.length l))%nat with 0%nat by lia.
  reflexivity.
Qed.

Section RootLookup.
Context {R : PyRuntime}.

(** Host and rest are parts of the string that [netloc_step] cuts. *)
Lemma netloc_step_parts (P : char -> Prop) (u n rest : str) :
  netloc_step u = Returns (n, rest) ->
  Forall P u ->
  Forall P n /\ Forall P rest.
Proof.
  unfold netloc_step. intros H Hu.
  destruct (Str.eqb (Str.upto u 2) (lit "//")).
  - assert (Hs : Forall P (fst (UrlParse._splitnetloc u 2))
                 /\ Forall P (snd (UrlParse._splitnetloc u 2))).
    { unfold UrlParse._splitnetloc. cbn [fst snd]. unfold Str.slice, Str.from.
      split; [apply Forall_firstn, Forall_skipn | apply Forall_skipn]; exact Hu. }
    destruct (UrlParse._splitnetloc u 2) as [n' r'].
    apply bind_Returns in H. destruct H as (_ & _ & H).
    apply bind_Returns in H. destruct H as (_ & _ & H).
    injection H as <- <-. exact Hs.
  - injection H as <- <-. split; [constructor | exact Hu].
Qed.

(** Host and path are parts of the cleaned URL. *)
Lemma urlparse_parts (P : char -> Prop) (url : str) (p : UrlParse.ParseResult) :
  UrlParse.urlparse url = Returns p ->
  Forall P (cleaned url) ->
  Forall P (UrlParse.netloc p) /\ Forall P (UrlParse.path p).
Proof.
  unfold UrlParse.urlparse. rewrite urlsplit_steps. intros H Hc.
  destruct (netloc_step (snd (scheme_step (cleaned url)))) as [[n rest] | e] eqn:En;
    [| discriminate].
  rewrite bind_ret in H. cbn [fst snd] in H.
  destruct (UrlParse._checknetloc n) as [[] | e]; [| discriminate].
  rewrite !bind_ret in H.
  destruct (scheme_step_inv Hc) as [_ Hrest].
  destruct (netloc_step_parts En Hrest) as [Hn Hr].
  pose proof (proj1 (@fragment_step_inv P rest Hr)) as H1.
  pose proof (proj1 (@query_step_inv P _ H1)) as H2.
  revert H. set (b := UrlParse.mem _ _ && _). destruct b.
  - pose proof (splitparams_prefix H2) as [Hp _].
    destruct (UrlParse._splitparams _) as [path params].
    intros H. injection H as <-. cbn [UrlParse.netloc UrlParse.path fst] in *.
    auto.
  - intros H. injection H as <-. cbn [UrlParse.netloc UrlParse.path]. auto.
Qed.

(** Every origin, stripped of its last slashes: a valid scheme, a colon,
    and nothing or two slashes and more, with no tab, carriage return,
    newline, [?] or [#]. *)
Lemma origin_stripped (url o : str) :
  normalize_to_origin url = Returns o ->
  exists sch r,
    Str.rstrip_chars o (lit "/") = sch ++ chr ":" :: r
    /\ valid_scheme sch
    /\ (r = [] \/ exists y, r = lit "//" ++ y)
    /\ Forall (fun c => Str.has UrlParse._UNSAFE_URL_BYTES_TO_REMOVE c = false) r
    /\ Str.has r (chr "?") = false
    /\ Str.has r (chr "#") = false
    /\ forall P : char -> Prop, Forall P o -> Forall P r.
Proof.
  unfold normalize_to_origin.
  destruct (UrlParse.urlparse url) as [p | e] eqn:Hp; [| discriminate].
  rewrite bind_ret. cbv zeta. intros H. injection H as <-.
  set (sch := if negb (Str.is_empty (UrlParse.scheme p)) then UrlParse.scheme p
              else lit "https").
  set (n := if negb (Str.is_empty (UrlParse.netloc p)) then UrlParse.netloc p
            else UrlParse.path p).
  assert (Hsch : valid_scheme sch).
  { unfold sch. destruct (urlparse_inv _ Hp) as (rest & _ & _ & ->).
    destruct (scheme_step_lower (cleaned url)) as [-> | [H _]].
    - split; reflexivity.
    - destruct (fst (scheme_step (cleaned url))); [destruct H as [[] _] |].
      exact H. }
  assert (Hn : forall c, In c (lit "?#") -> Str.has n c = false).
  { intros c Hc. unfold n.
    destruct (negb (Str.is_empty (UrlParse.netloc p))).
    - apply (urlparse_netloc_no_delim _ Hp).
      simpl in Hc. simpl. tauto.
    - apply (urlparse_path_no_delim _ Hp). exact Hc. }
  assert (Hun : Forall (fun c => Str.has UrlParse._UNSAFE_URL_BYTES_TO_REMOVE c = false) n).
  { destruct (urlparse_parts _ Hp (cleaned_no_unsafe url)) as [H1 H2].
    unfold n. destruct (negb (Str.is_empty (UrlParse.netloc p))); assumption. }
  assert (Hne : sch <> [])
    by (destruct Hsch as [H _]; destruct sch; [contradiction | discriminate]).
  destruct (@urlunparse_origin sch n Hne) as (Y & -> & HY).
  set (r := Str.rstrip_by (Str.has (lit "/")) Y).
  exists sch, r.
  split; [unfold Str.rstrip_chars; apply rstrip_by_app; reflexivity |].
  split; [exact Hsch |].
  assert (HYun : Forall (fun c => Str.has UrlParse._UNSAFE_URL_BYTES_TO_REMOVE c = false) Y).
  { destruct HY as [-> | ->]; [constructor |].
    apply Forall_app. split; [repeat constructor | exact Hun]. }
  assert (HYd : forall c, In c (lit "?#") -> Forall (fun x => x <> c) Y).
  { intros c Hc. apply has_false. destruct HY as [-> | ->]; [reflexivity |].
    rewrite has_app, (Hn c Hc).
    simpl in Hc. destruct Hc as [<- | [<- | []]]; reflexivity. }
  split.
  { destruct HY as [-> | ->]; [left; reflexivity |].
    destruct (rstrip_by_prefix (Str.has (lit "/")) (lit "//") n eq_refl)
      as [E | (y & _ & E)]; [left | right; exists y]; exact E. }
  split; [apply Forall_rstrip_by, HYun |].
  split; [apply has_false, Forall_rstrip_by, HYd; simpl; tauto |].
  split; [apply has_false, Forall_rstrip_by, HYd; simpl; tauto |].
  intros P HP. apply Forall_rstrip_by.
  apply Forall_app in HP. destruct HP as [_ HP].
  inversion HP; assumption.
Qed.

(** [urlparse] of a valid scheme, a colon and a root, when it returns: the
    path begins with a slash and there is neither query nor fragment. *)
Lemma urlparse_root_returned (s Z : str) (p : UrlParse.ParseResult) :
  valid_scheme s ->
  Forall (fun c => Str.has UrlParse._UNSAFE_URL_BYTES_TO_REMOVE c = false) Z ->
  Str.has Z (chr "?") = false ->
  Str.has Z (chr "#") = false ->
  Z = lit "/" \/ (exists y, Z = lit "//" ++ y ++ lit "/") ->
  UrlParse.urlparse (s ++ chr ":" :: Z) = Returns p ->
  exists t,
    UrlParse.path p = chr "/" :: t
    /\ UrlParse.query p = [] /\ UrlParse.fragment p = [].
Proof.
  intros Hs Hun Hq Hf Hshape. unfold UrlParse.urlparse. rewrite urlsplit_steps.
  assert (Ec : cleaned (s ++ chr ":" :: Z) = s ++ chr ":" :: Z).
  { destruct (valid_scheme_clean Hs) as (Hcl & c0 & s' & -> & Hc0).
    assert (Hall : Forall (fun c => Str.has UrlParse._UNSAFE_URL_BYTES_TO_REMOVE c = false)
                     ((c0 :: s') ++ chr ":" :: Z)).
    { apply Forall_app. split.
      - eapply Forall_impl; [| exact Hcl]. intros c Hc.
        unfold clean_char in Hc. apply andb_true_iff in Hc.
        destruct Hc as [_ Hc]. apply negb_true_iff in Hc. exact Hc.
      - constructor; [reflexivity | exact Hun]. }
    exact (cleaned_fixed Hc0 Hall). }
  rewrite Ec, (scheme_step_found Z Hs). cbn [fst snd].
  destruct (netloc_step Z) as [[n rest] | e] eqn:En; [| discriminate].
  rewrite bind_ret. cbn [fst snd].
  destruct (UrlParse._checknetloc n) as [[] | e]; [| discriminate].
  rewrite !bind_ret.
  assert (Hrest : exists t, rest = chr "/" :: t).
  { destruct Hshape as [-> | (y & ->)].
    - rewrite netloc_step_other in En by reflexivity.
      injection En as <- <-. exists []. reflexivity.
    - unfold netloc_step in En.
      assert (E : Str.eqb (Str.upto (lit "//" ++ y ++ lit "/") 2) (lit "//") = true)
        by reflexivity.
      rewrite E in En.
      change (lit "//" ++ y ++ lit "/") with (lit "//" ++ (y ++ lit "/")) in Hq, Hf.
      rewrite has_app in Hq, Hf.
      apply orb_false_iff in Hq, Hf. destruct Hq as [_ Hq], Hf as [_ Hf].
      rewrite has_app in Hq, Hf.
      apply orb_false_iff in Hq, Hf. destruct Hq as [Hq _], Hf as [Hf _].
      destruct (splitnetloc_root y Hq Hf) as (t & Et).
      destruct (UrlParse._splitnetloc (lit "//" ++ y ++ lit "/") 2) as [n' r'].
      apply bind_Returns in En. destruct En as (_ & _ & En).
      apply bind_Returns in En. destruct En as (_ & _ & En).
      injection En as <- <-. exists t. exact Et. }
  assert (Hrq : Str.has rest (chr "?") = false).
  { apply has_false. apply has_false in Hq.
    apply (netloc_step_parts En Hq). }
  assert (Hrf : Str.has rest (chr "#") = false).
  { apply has_false. apply has_false in Hf.
    apply (netloc_step_parts En Hf). }
  rewrite (fragment_step_none _ Hrf). cbn [fst snd].
  rewrite (query_step_none _ Hrq). cbn [fst snd].
  destruct Hrest as (t & ->).
  set (b := UrlParse.mem _ _ && _). destruct b.
  - pose proof (splitparams_root t) as Et.
    destruct (UrlParse._splitparams (chr "/" :: t)) as [[| c' t'] ps];
      simpl in Et; [discriminate Et |].
    injection Et as ->.
    intros H. injection H as <-. exists t'. cbn. auto.
  - intros H. injection H as <-. exists t. cbn. auto.
Qed.

(** The path that [can_fetch] looks up for a valid scheme, a colon and a
    root with no percent sign begins with a slash, when there is one. *)
Lemma fetch_path_root_returned (s Z t : str) :
  valid_scheme s ->
  Forall (fun c => Str.has UrlParse._UNSAFE_URL_BYTES_TO_REMOVE c = false) Z ->
  Str.has Z (chr "?") = false ->
  Str.has Z (chr "#") = false ->
  Str.has Z (chr "%") = false ->
  Z = lit "/" \/ (exists y, Z = lit "//" ++ y ++ lit "/") ->
  RobotFileParser.fetch_path (s ++ chr ":" :: Z) = Returns t ->
  Str.startswith t (lit "/") = true.
Proof.
  intros Hs Hun Hq Hf Hpc Hshape. unfold RobotFileParser.fetch_path.
  assert (Hp : Str.has (s ++ chr ":" :: Z) (chr "%") = false).
  { rewrite has_app. apply orb_false_iff. split; [| exact Hpc].
    apply has_false. destruct Hs as [_ Hs]. rewrite forallb_forall in Hs.
    apply Forall_forall. intros c Hc. specialize (Hs c Hc).
    intros ->. revert Hs. vm_compute. discriminate. }
  rewrite (unquote_no_percent _ Hp). intros H.
  apply bind_Returns in H. destruct H as (p & Ep & H).
  destruct (urlparse_root_returned Hs Hun Hq Hf Hshape Ep) as (t0 & Epath & Eq & Ef).
  rewrite Epath, Eq, Ef, urlunparse_path in H.
  apply bind_Returns in H. destruct H as (q & Hquote & H). injection H as <-.
  assert (Hx : exists q', q = chr "/" :: q').
  { destruct (negb (Str.is_empty (UrlParse.params p)));
      apply quote_keeps_root in Hquote; exact Hquote. }
  destruct Hx as (q' & ->). cbn [Str.is_empty]. apply startswith_head.
Qed.

(** The root of an origin with no percent sign is looked up as a path that
    begins with a slash, when [can_fetch] has a path for it. *)
Lemma origin_root_returned (url o t : str) :
  normalize_to_origin url = Returns o ->
  Str.has o (chr "%") = false ->
  RobotFileParser.fetch_path (Str.rstrip_chars o (lit "/") ++ lit "/") = Returns t ->
  Str.startswith t (lit "/") = true.
Proof.
  intros Ho Hpc.
  destruct (origin_stripped _ Ho) as (sch & r & -> & Hs & Hr & Hun & Hq & Hf & Hall).
  rewrite <- app_assoc. change ((chr ":" :: r) ++ lit "/") with (chr ":" :: r ++ lit "/").
  apply fetch_path_root_returned; try exact Hs.
  - apply Forall_app. split; [exact Hun | repeat constructor].
  - rewrite has_app, Hq. reflexivity.
  - rewrite has_app, Hf. reflexivity.
  - rewrite has_app. apply orb_false_iff. split; [| reflexivity].
    apply has_false. apply Hall. apply has_false. exact Hpc.
  - destruct Hr as [-> | (y & ->)]; [left; reflexivity |].
    right. exists y. rewrite <- app_assoc. reflexivity.
Qed.

(** For a plain origin nothing raises after [normalize_to_origin]: the
    robots.txt URL parses and [can_fetch] has a path for the root. *)
Lemma plain_origin_root (url o : str) :
  normalize_to_origin url = Returns o ->
  Forall (fun c => plain_char c = true) o ->
  exists p t,
    UrlParse.urlparse (robots_url_of o) = Returns p
    /\ RobotFileParser.fetch_path (Str.rstrip_chars o (lit "/") ++ lit "/")
       = Returns t.
Proof.
  intros Ho Hplain.
  assert (Hrobots : Forall (fun c => plain_char c = true) (robots_url_of o)).
  { unfold robots_url_of, Str.rstrip_chars. apply Forall_app.
    split; [apply Forall_rstrip_by, Hplain | repeat constructor]. }
  destruct (urlparse_plain Hrobots) as (p & Ep & _).
  destruct (origin_stripped _ Ho) as (sch & r & Er & Hs & Hr & Hun & Hq & Hf & Hall).
  assert (Hin : Forall (fun c => inner_char c = true) (r ++ lit "/")).
  { apply Forall_app. split; [| repeat constructor].
    apply inner_of_clean; [| exact Hq | exact Hf].
    pose proof (Hall _ Hplain) as Hpl.
    rewrite Forall_forall in *. intros c Hc.
    specialize (Hpl c Hc). specialize (Hun c Hc).
    unfold clean_char. rewrite Hpl.
    change [9; 13; 10]%N with UrlParse._UNSAFE_URL_BYTES_TO_REMOVE.
    rewrite Hun. reflexivity. }
  assert (Hroot : r ++ lit "/" = lit "/"
                  \/ exists y, r ++ lit "/" = lit "//" ++ y ++ lit "/").
  { destruct Hr as [-> | (y & ->)]; [left; reflexivity |].
    right. exists y. rewrite <- app_assoc. reflexivity. }
  destruct (fetch_path_root Hs Hin Hroot) as (t & Et & _).
  exists p, t. split; [exact Ep |].
  rewrite Er, <- Et. f_equal. rewrite <- app_assoc. reflexivity.
Qed.

End RootLookup.

Section RobotsExamples.
Context {R : PyRuntime}.
Variable requests_get : str -> fetched.

(** When the handler has answered for a robots.txt that was found and at
    least one bot, the robots.txt URL was parsed and [can_fetch] had a
    path for the root. *)
Lemma found_returned url ua bots includeRobotsTxt o text resp :
  normalize_to_origin url = Returns o ->
  requests_get (robots_url_of o) = Response 200%Z text ->
  Str.is_empty (Str.strip text) = false ->
  check_ai_bot_block requests_get url (ua :: bots) includeRobotsTxt
  = Returns resp ->
  exists p t,
    UrlParse.urlparse (robots_url_of o) = Returns p
    /\ RobotFileParser.fetch_path (Str.rstrip_chars o (lit "/") ++ lit "/")
       = Returns t.
Proof.
  intros Ho Hget Hne H.
  rewrite check_ai_bot_block_eq, Ho, bind_ret, Hget, Hne in H.
  change (negb (200 =? 200)%Z || false) with false in H. cbv iota in H.
  destruct (UrlParse.urlparse (robots_url_of o)) as [p | e] eqn:Hp;
    [| discriminate H].
  rewrite bind_ret in H. cbv zeta in H.
  destruct (parse_fresh_flags (robots_url_of o) p (Str.splitlines text))
    as (Hd & Ha & Hl).
  destruct (RobotFileParser.fetch_path (Str.rstrip_chars o (lit "/") ++ lit "/"))
    as [t | e] eqn:Ht; [eauto |].
  exfalso.
  assert (Hloop : check_bots
                    (fst (RobotFileParser.parse (fresh_parser (robots_url_of o) p)
                            (Str.splitlines text)))
                    (Str.rstrip_chars o (lit "/")) (ua :: bots) [] [] = Raises e).
  { apply (check_bots_raises _ _ (ua :: bots) e Hd Ha Hl).
    split; [discriminate | exact Ht]. }
  rewrite Hloop in H. discriminate H.
Qed.

(** C6, amended. For every request whose URL has an origin [o]:
    - when the site serves "User-agent: GPTBot / Disallow: /" at the
      robots.txt URL and [o] has no percent sign, every response that the
      handler returns for [GPTBot] has [robotsTxtFound = true],
      [blockedBots = ["GPTBot"]] and one result, with
      [canFetchRoot = false];
    - when the site serves "User-agent: * / Allow: /", every response that
      the handler returns for [GPTBot] and [ClaudeBot] has two results with
      [canFetchRoot = true] and [blockedBots = []];
    - and when [o] is plain (ASCII, with no [%], [[] or []]), the handler
      does return these responses. *)
Theorem robots_txt_examples url includeRobotsTxt o :
  normalize_to_origin url = Returns o ->
  (requests_get (robots_url_of o) = Response 200%Z gptbot_blocked_txt ->
   (Str.has o (chr "%") = false ->
    forall resp,
      check_ai_bot_block requests_get url [lit "GPTBot"] includeRobotsTxt
      = Returns resp ->
      resp = mkCheckResponse true (robots_url_of o) (Some 200%Z)
               [lit "GPTBot"]
               [mkBotResult (lit "GPTBot") false false None]
               (if includeRobotsTxt then Some gptbot_blocked_txt else None) [])
   /\ (forallb plain_char o = true ->
       check_ai_bot_block requests_get url [lit "GPTBot"] includeRobotsTxt
       = Returns (mkCheckResponse true (robots_url_of o) (Some 200%Z)
                    [lit "GPTBot"]
                    [mkBotResult (lit "GPTBot") false false None]
                    (if includeRobotsTxt then Some gptbot_blocked_txt else None)
                    [])))
  /\ (requests_get (robots_url_of o) = Response 200%Z all_allowed_txt ->
      (forall resp,
         check_ai_bot_block requests_get url [lit "GPTBot"; lit "ClaudeBot"]
           includeRobotsTxt = Returns resp ->
         resp = mkCheckResponse true (robots_url_of o) (Some 200%Z)
                  []
                  [mkBotResult (lit "GPTBot") true true None;
                   mkBotResult (lit "ClaudeBot") true true None]
                  (if includeRobotsTxt then Some all_allowed_txt else None) [])
      /\ (forallb plain_char o = true ->
          check_ai_bot_block requests_get url [lit "GPTBot"; lit "ClaudeBot"]
            includeRobotsTxt
          = Returns (mkCheckResponse true (robots_url_of o) (Some 200%Z)
                       []
                       [mkBotResult (lit "GPTBot") true true None;
                        mkBotResult (lit "ClaudeBot") true true None]
                       (if includeRobotsTxt then Some all_allowed_txt else None)
                       []))).
Proof.
  intros Ho.
  assert (Hplain : forallb plain_char o = true ->
                   Str.has o (chr "%") = false
                   /\ exists p t,
                        UrlParse.urlparse (robots_url_of o) = Returns p
                        /\ RobotFileParser.fetch_path
                             (Str.rstrip_chars o (lit "/") ++ lit "/") = Returns t).
  { intros H. rewrite forallb_forall, <- Forall_forall in H.
    split; [| exact (@plain_origin_root R url o Ho H)].
    apply has_false. eapply Forall_impl; [| exact H].
    intros c Hc ->. revert Hc. vm_compute. discriminate. }
  split; intros Hget; split.
  - intros Hpc resp Hresp.
    destruct (@found_returned url (lit "GPTBot") [] includeRobotsTxt o
                gptbot_blocked_txt resp Ho Hget eq_refl Hresp)
      as (p & t & Hp & Ht).
    destruct (robots_txt_examples_at_root requests_get url includeRobotsTxt
                Ho Hp Ht) as [H1 _].
    rewrite (H1 (@origin_root_returned R url o t Ho Hpc Ht) Hget) in Hresp.
    injection Hresp as <-. reflexivity.
  - intros H. destruct (Hplain H) as (Hpc & p & t & Hp & Ht).
    destruct (robots_txt_examples_at_root requests_get url includeRobotsTxt
                Ho Hp Ht) as [H1 _].
    exact (H1 (@origin_root_returned R url o t Ho Hpc Ht) Hget).
  - intros resp Hresp.
    destruct (@found_returned url (lit "GPTBot") [lit "ClaudeBot"]
                includeRobotsTxt o all_allowed_txt resp Ho Hget eq_refl Hresp)
      as (p & t & Hp & Ht).
    destruct (robots_txt_examples_at_root requests_get url includeRobotsTxt
                Ho Hp Ht) as [_ H2].
    rewrite (H2 Hget) in Hresp. injection Hresp as <-. reflexivity.
  - intros H. destruct (Hplain H) as (_ & p & t & Hp & Ht).
    destruct (robots_txt_examples_at_root requests_get url includeRobotsTxt
                Ho Hp Ht) as [_ H2].
    exact (H2 Hget).
Qed.

End RobotsExamples.

Lemma robots_txt_examples_witness :
  @check_ai_bot_block ascii_runtime (serves 200 gptbot_blocked_txt)
    (lit "https://example.com/a%20b") [lit "GPTBot"] true
  = Returns (mkCheckResponse true (lit "https://example.com/robots.txt")
               (Some 200%Z) [lit "GPTBot"]
               [mkBotResult (lit "GPTBot") false false None]
               (Some gptbot_blocked_txt) [])
  /\ @check_ai_bot_block ascii_runtime (serves 200 all_allowed_txt)
       (lit "https://example.com/a%20b") [lit "GPTBot"; lit "ClaudeBot"] true
     = Returns (mkCheckResponse true (lit "https://example.com/robots.txt")
                  (Some 200%Z) []
                  [mkBotResult (lit "GPTBot") true true None;
                   mkBotResult (lit "ClaudeBot") true true None]
                  (Some all_allowed_txt) []).
Proof.
  split.
  - destruct (@robots_txt_examples ascii_runtime (serves 200 gptbot_blocked_txt)
                (lit "https://example.com/a%20b") true example_origin)
      as [H _]; [vm_compute; reflexivity |].
    destruct (H eq_refl) as [_ H1]. exact (H1 eq_refl).
  - destruct (@robots_txt_examples ascii_runtime (serves 200 all_allowed_txt)
                (lit "https://example.com/a%20b") true example_origin)
      as [_ H]; [vm_compute; reflexivity |].
    destruct (H eq_refl) as [_ H2]. exact (H2 eq_refl).
Defined.

(** C6 as stated fails: with a percent escape in the host, [can_fetch]
    unquotes ["%23"] to ["#"], takes what follows for a fragment and looks
    up ["%23/"], which "Disallow: /" does not match; robots.txt is found
    and [GPTBot] is not blocked. *)
Lemma robots_txt_examples_counterexample :
  exists resp,
    @check_ai_bot_block ascii_runtime (serves 200 gptbot_blocked_txt)
      (lit "http://example.com%23") [lit "GPTBot"] true = Returns resp
    /\ robotsTxtFound resp = true
    /\ blockedBots resp <> [lit "GPTBot"]
    /\ List.map canFetchRoot (results resp) = [true].
Proof.
  eexists. split; [vm_compute; reflexivity |].
  split; [reflexivity |]. split; [discriminate | reflexivity].
Qed.

(** ** The further properties on concrete requests *)

Lemma uncaught_exceptions_witness :
  @check_ai_bot_block ascii_runtime (serves 200 gptbot_blocked_txt)
    (lit "http://a%5B") example_bots true
  = Raises ValueError.
Proof.
  apply (@uncaught_exceptions ascii_runtime (serves 200 gptbot_blocked_txt)
           (lit "http://a%5B") example_bots true ValueError).
  right. exists (lit "http://a%5B"). split; [vm_compute; reflexivity |].
  right. exists gptbot_blocked_txt. split; [reflexivity |].
  split; [vm_compute; discriminate |].
  right. split; [eexists; vm_compute; reflexivity |].
  split; [discriminate | vm_compute; reflexivity].
Defined.

Lemma plain_url_is_answered_witness :
  exists resp,
    @check_ai_bot_block ascii_runtime (serves 200 broken_rule_txt)
      example_url example_bots false = Returns resp.
Proof.
  apply (@plain_url_is_answered ascii_runtime (serves 200 broken_rule_txt)
           example_url example_bots false).
  - vm_compute. reflexivity.
  - intros u cls. discriminate.
Defined.

Lemma found_iff_200_and_body_witness :
  exists resp,
    @check_ai_bot_block ascii_runtime (serves 200 (lit "   "))
      example_url example_bots true = Returns resp
    /\ statusCode resp = Some 200%Z
    /\ (robotsTxtFound resp = true <-> 200%Z = 200%Z /\ Str.strip (lit "   ") <> [])
    /\ (robotsTxtFound resp = true ->
        List.map userAgent (results resp) = example_bots).
Proof.
  apply (@found_iff_200_and_body ascii_runtime (serves 200 (lit "   "))
           example_url example_bots true example_origin 200%Z (lit "   ")).
  - vm_compute. reflexivity.
  - vm_compute. reflexivity.
  - reflexivity.
Defined.

Lemma parse_failure_is_a_warning_witness :
  exists resp,
    @check_ai_bot_block ascii_runtime (serves 200 broken_rule_txt)
      example_url example_bots false = Returns resp
    /\ robotsTxtFound resp = true
    /\ statusCode resp = Some 200%Z
    /\ List.map userAgent (results resp) = example_bots
    /\ warnings resp = [lit "Parse warning: " ++ ValueError]
    /\ forall text' more,
         Str.splitlines text' = Str.splitlines broken_rule_txt ++ more ->
         exists resp',
           @check_ai_bot_block ascii_runtime (serves 200 text')
             example_url example_bots false = Returns resp'
           /\ results resp' = results resp
           /\ blockedBots resp' = blockedBots resp
           /\ warnings resp' = warnings resp.
Proof.
  apply (@parse_failure_is_a_warning ascii_runtime (serves 200 broken_rule_txt)
           example_url example_bots false example_origin broken_rule_txt
           example_robots_parse ValueError).
  - vm_compute. reflexivity.
  - vm_compute. reflexivity.
  - reflexivity.
  - vm_compute. reflexivity.
  - vm_compute. reflexivity.
Defined.

Lemma parse_warning_classes_witness :
  warnings example_broken = []
  \/ warnings example_broken = [lit "Parse warning: ValueError"]
  \/ warnings example_broken = [lit "Parse warning: UnicodeEncodeError"].
Proof.
  apply (@parse_warning_classes ascii_runtime (serves 200 broken_rule_txt)
           example_url example_bots false example_broken).
  - vm_compute. reflexivity.
  - reflexivity.
Defined.

Lemma exception_classes_witness :
  ValueError = ValueError \/ ValueError = UnicodeEncodeError
  \/ exists u, serves 200 gptbot_blocked_txt u = OtherException ValueError.
Proof.
  apply (@exception_classes ascii_runtime (serves 200 gptbot_blocked_txt)
           (lit "a]") example_bots true ValueError).
  vm_compute. reflexivity.
Defined.

Lemma warnings_and_status_witness :
  (statusCode example_unreachable = None
   <-> exists cls,
         unreachable (lit "ConnectTimeout") (robotsUrl example_unreachable)
         = RequestException cls
         /\ warnings example_unreachable = [lit "Fetch error: " ++ cls])
  /\ (warnings example_unreachable = []
      \/ (exists cls, warnings example_unreachable = [lit "Fetch error: " ++ cls]
                      /\ robotsTxtFound example_unreachable = false)
      \/ (exists cls, warnings example_unreachable = [lit "Parse warning: " ++ cls]
                      /\ robotsTxtFound example_unreachable = true)).
Proof.
  apply (@warnings_and_status ascii_runtime (unreachable (lit "ConnectTimeout"))
           example_url example_bots true example_unreachable).
  vm_compute. reflexivity.
Defined.

Lemma notes_always_null_witness :
  notes (mkBotResult (lit "ClaudeBot") true true None) = None.
Proof.
  apply (@notes_always_null ascii_runtime (serves 200 gptbot_blocked_txt)
           example_url example_bots true example_found).
  - vm_compute. reflexivity.
  - right. left. reflexivity.
Defined.

Lemma robotsUrl_single_slash_witness :
  exists origin,
    lit "https:/robots.txt" = origin ++ lit "/robots.txt"
    /\ forall s, origin <> s ++ lit "/".
Proof.
  apply (@robotsUrl_single_slash ascii_runtime (serves 404 (lit "Not Found"))
           (lit "/") example_bots true
           (mkCheckResponse false (lit "https:/robots.txt") (Some 404%Z)
              [] [] None [])).
  vm_compute. reflexivity.
Defined.

Lemma bots_lists_concatenate_witness :
  @check_ai_bot_block ascii_runtime (serves 200 gptbot_blocked_txt)
    example_url ([lit "GPTBot"] ++ [lit "ClaudeBot"]) true
  = Returns example_found.
Proof.
  apply (@bots_lists_concatenate ascii_runtime (serves 200 gptbot_blocked_txt)
           example_url [lit "GPTBot"] [lit "ClaudeBot"] true
           (mkCheckResponse true (lit "https://example.com/robots.txt")
              (Some 200%Z) [lit "GPTBot"]
              [mkBotResult (lit "GPTBot") false false None]
              (Some gptbot_blocked_txt) [])
           (mkCheckResponse true (lit "https://example.com/robots.txt")
              (Some 200%Z) []
              [mkBotResult (lit "ClaudeBot") true true None]
              (Some gptbot_blocked_txt) [])).
  - vm_compute. reflexivity.
  - vm_compute. reflexivity.
Defined.

Lemma same_bot_same_result_witness :
  mkBotResult (lit "GPTBot") false false None
  = nth 0 (results example_broken) (mkBotResult [] true true None).
Proof.
  apply (@same_bot_same_result ascii_runtime (serves 200 broken_rule_txt)
           example_url [lit "GPTBot"] example_bots true false
           (mkCheckResponse true (lit "https://example.com/robots.txt")
              (Some 200%Z) [lit "GPTBot"]
              [mkBotResult (lit "GPTBot") false false None]
              (Some broken_rule_txt) [lit "Parse warning: ValueError"])
           example_broken).
  - vm_compute. reflexivity.
  - vm_compute. reflexivity.
  - left. reflexivity.
  - left. reflexivity.
  - reflexivity.
Defined.

Lemma default_bots_checked_witness :
  List.map userAgent
    (List.map (fun ua => mkBotResult ua true true None) DEFAULT_AI_BOTS)
  = [lit "GPTBot"; lit "PerplexityBot"; lit "ClaudeBot"; lit "CCBot";
     lit "Google-Extended"; lit "Amazonbot"].
Proof.
  apply (@default_bots_checked ascii_runtime (serves 200 all_allowed_txt)
           example_url None
           (mkCheckResponse true (lit "https://example.com/robots.txt")
              (Some 200%Z) []
              (List.map (fun ua => mkBotResult ua true true None) DEFAULT_AI_BOTS)
              (Some all_allowed_txt) [])).
  - vm_compute. reflexivity.
  - reflexivity.
Defined.

Lemma origin_of_scheme_and_host_witness :
  @normalize_to_origin ascii_runtime
    (lit "HTTPS" ++ lit "://" ++ lit "Example.com:8080" ++ lit "/a/b?x=1#top")
  = Returns (lit "https://Example.com:8080").
Proof.
  apply (@origin_of_scheme_and_host ascii_runtime (lit "HTTPS")
           (lit "Example.com:8080") (lit "/a/b?x=1#top")).
  - split; reflexivity.
  - discriminate.
  - reflexivity.
  - reflexivity.
  - right. exists (chr "/"), (lit "a/b?x=1#top").
    split; [reflexivity | left; reflexivity].
Defined.

Lemma origin_of_scheme_relative_url_witness :
  @normalize_to_origin ascii_runtime
    (lit "//" ++ lit "example.com" ++ lit "?q=1")
  = Returns (lit "https://example.com").
Proof.
  apply (@origin_of_scheme_relative_url ascii_runtime (lit "example.com")
           (lit "?q=1")).
  - discriminate.
  - reflexivity.
  - reflexivity.
  - right. exists (chr "?"), (lit "q=1").
    split; [reflexivity | right; left; reflexivity].
Defined.

Lemma origin_without_scheme_witness :
  @normalize_to_origin ascii_runtime (lit "www.example.org/shop")
  = Returns (lit "https://www.example.org/shop").
Proof.
  apply (@origin_without_scheme ascii_runtime (chr "w")
           (lit "ww.example.org/shop")); reflexivity.
Defined.

Lemma origin_of_name_and_port_witness :
  @normalize_to_origin ascii_runtime (lit "localhost" ++ lit ":" ++ lit "8000")
  = Returns (lit "localhost://8000").
Proof.
  apply (@origin_of_name_and_port ascii_runtime (lit "localhost") (chr "8")
           (lit "000")).
  - split; reflexivity.
  - reflexivity.
  - reflexivity.
  - reflexivity.
Defined.

Lemma origin_is_normalized_witness :
  @normalize_to_origin ascii_runtime (lit "http://Example.com")
  = Returns (lit "http://Example.com").
Proof.
  apply (@origin_is_normalized ascii_runtime (lit "HTTP://Example.com/a?b")
           (lit "http://Example.com")
           (UrlParse.mkParse (lit "http") (lit "Example.com") (lit "/a") []
              (lit "b") [])).
  - vm_compute. reflexivity.
  - discriminate.
  - vm_compute. reflexivity.
Defined.

Lemma robotsUrl_of_host_witness :
  robotsUrl example_found
  = lit "https" ++ lit "://" ++ lit "example.com" ++ lit "/robots.txt".
Proof.
  apply (@robotsUrl_of_host ascii_runtime (serves 200 gptbot_blocked_txt)
           example_url
           (UrlParse.mkParse (lit "https") (lit "example.com")
              (lit "/docs/page") [] (lit "x=1") [])
           example_bots true example_found).
  - vm_compute. reflexivity.
  - discriminate.
  - vm_compute. reflexivity.
Defined.


Lemma wildcard_disallow_blocks_all_witness :
  @check_ai_bot_block ascii_runtime (serves 200 wildcard_disallow_txt)
    example_url example_bots false
  = Returns (mkCheckResponse true (lit "https://example.com/robots.txt")
               (Some 200%Z) example_bots
               [mkBotResult (lit "GPTBot") false false None;
                mkBotResult (lit "ClaudeBot") false false None]
               None []).
Proof.
  destruct (@wildcard_disallow_blocks_all ascii_runtime
              (serves 200 wildcard_disallow_txt) example_url example_bots false
              eq_refl) as (o & Ho & H).
  vm_compute in Ho. injection Ho as <-. exact (H eq_refl).
Defined.

Lemma named_group_matches_by_substring_witness :
  exists resp,
    @check_ai_bot_block ascii_runtime (serves 200 gptbot_blocked_txt)
      example_url [lit "gptbot/1.0"; lit "MyGPTBot-x"; lit "GPT"] false
    = Returns resp
    /\ List.map userAgent (results resp)
       = [lit "gptbot/1.0"; lit "MyGPTBot-x"; lit "GPT"]
    /\ forall r, In r (results resp) ->
         canFetchRoot r
         = negb (Str.contains
                   (@Str.lower ascii_runtime
                      (hd [] (Str.split (userAgent r) (chr "/"))))
                   (lit "gptbot")).
Proof.
  destruct (@named_group_matches_by_substring ascii_runtime
              (serves 200 gptbot_blocked_txt) example_url
              [lit "gptbot/1.0"; lit "MyGPTBot-x"; lit "GPT"] false
              eq_refl) as (o & Ho & H).
  vm_compute in Ho. injection Ho as <-. exact (H eq_refl).
Defined.

Lemma agent_name_matching_witness :
  canFetchRoot (mkBotResult (lit "gptbot/1.0") false false None)
  = canFetchRoot (mkBotResult (lit "GPTBot") false false None).
Proof.
  apply (@agent_name_matching ascii_runtime (serves 200 gptbot_blocked_txt)
           example_url [lit "gptbot/1.0"; lit "GPTBot"] false
           (mkCheckResponse true (lit "https://example.com/robots.txt")
              (Some 200%Z) [lit "gptbot/1.0"; lit "GPTBot"]
              [mkBotResult (lit "gptbot/1.0") false false None;
               mkBotResult (lit "GPTBot") false false None]
              None [])).
  - vm_compute. reflexivity.
  - left. reflexivity.
  - right. left. reflexivity.
  - vm_compute. reflexivity.
Defined.

Lemma no_disallow_blocks_nobody_witness :
  blockedBots (example_allowed all_allowed_txt) = [].
Proof.
  apply (@no_disallow_blocks_nobody ascii_runtime (serves 200 all_allowed_txt)
           example_url example_bots true example_origin all_allowed_txt
           (example_allowed all_allowed_txt)).
  - vm_compute. reflexivity.
  - reflexivity.
  - intros line v [<- | [<- | []]]; vm_compute; discriminate.
  - vm_compute. reflexivity.
Defined.

Lemma subpath_rules_do_not_block_witness :
  blockedBots (example_allowed subpaths_txt) = [].
Proof.
  apply (@subpath_rules_do_not_block ascii_runtime (serves 200 subpaths_txt)
           (lit "https") (lit "example.com") (lit "/docs/page?x=1")
           example_bots true subpaths_txt (example_allowed subpaths_txt)).
  - split; reflexivity.
  - discriminate.
  - reflexivity.
  - reflexivity.
  - right. exists (chr "/"), (lit "docs/page?x=1").
    split; [reflexivity | left; reflexivity].
  - reflexivity.
  - intros line v [<- | [<- | [<- | [<- | []]]]]; vm_compute; intros Hf;
      try discriminate Hf; injection Hf as <-.
    + right. exists (chr "p"), (lit "rivate").
      split; [reflexivity |]. split; [discriminate |]. split; reflexivity.
    + right. exists (chr "*"), [].
      split; [reflexivity |]. split; [discriminate |]. split; reflexivity.
    + left. reflexivity.
  - vm_compute. reflexivity.
Defined.

Lemma origin_has_no_query_or_fragment_witness :
  (exists scheme rest,
     lit "https://example.com/blog/post" = scheme ++ chr ":" :: rest
     /\ valid_scheme scheme)
  /\ Str.has (lit "https://example.com/blog/post") (chr "?") = false
  /\ Str.has (lit "https://example.com/blog/post") (chr "#") = false.
Proof.
  apply (@origin_has_no_query_or_fragment ascii_runtime
           (lit "example.com/blog/post?page=2#top")).
  vm_compute. reflexivity.
Defined.

Lemma crlf_line_endings_witness :
  @check_ai_bot_block ascii_runtime
    (serves 200 (lit "User-agent: GPTBot" ++ [13%N; 10%N] ++ lit "Disallow: /"))
    example_url example_bots false
  = @check_ai_bot_block ascii_runtime (serves 200 gptbot_blocked_txt)
      example_url example_bots false.
Proof.
  apply (@crlf_line_endings ascii_runtime 200%Z gptbot_blocked_txt example_url
           example_bots).
  reflexivity.
Defined.
